(** * lxc console multiplexer (src/dependencies/lxc/src/lxc/console.c)

    A shallow embedding of console.c.  C [int]s are [Z]; flag words are [Z]
    with their 32-bit wrap-around written out; structs are records; the
    calls console.c makes into the kernel, libc and the other lxc modules
    are answered by an oracle [OS] and recorded, with their answers, in the
    trace of the [World].  The logging macros (ERROR, WARN, DEBUG, ...) have
    no effect on the state and are left out. *)

From Stdlib Require Import ZArith List Bool Lia String.
From stdpp Require Import base option list gmap.
Import ListNotations.
Local Open Scope Z_scope.

(** ** Machine words *)

(** [tcflag_t] is [unsigned int]: a value is kept in [0, 2^32). *)
Definition uint32 (z : Z) : Z := z mod 2 ^ 32.

(** ** System constants

    The values console.c takes from <termios.h>, <signal.h> and <unistd.h>,
    as the Linux generic ABI defines them (asm-generic/termbits.h,
    asm-generic/signal.h). *)
Module termbits.
Definition IGNBRK : Z := 1.
Definition BRKINT : Z := 2.
Definition ISIG : Z := 1.
Definition ICANON : Z := 2.
Definition ECHO : Z := 8.
Definition VTIME : nat := 5.
Definition VMIN : nat := 6.
Definition NCCS : nat := 32.
Definition TCSAFLUSH : Z := 2.
Definition SIG_BLOCK : Z := 0.
Definition SIG_SETMASK : Z := 2.
Definition SIGWINCH : Z := 28.
Definition F_OK : Z := 0.
End termbits.
Import termbits.

(** ** Data model *)

Record termios := mk_termios {
  c_iflag : Z;
  c_oflag : Z;
  c_cflag : Z;
  c_lflag : Z;
  c_line : Z;
  c_cc : list Z
}.

Definition set_c_iflag (t : termios) (v : Z) : termios :=
  mk_termios v (c_oflag t) (c_cflag t) (c_lflag t) (c_line t) (c_cc t).
Definition set_c_lflag (t : termios) (v : Z) : termios :=
  mk_termios (c_iflag t) (c_oflag t) (c_cflag t) v (c_line t) (c_cc t).
Definition set_c_cc (t : termios) (i : nat) (v : Z) : termios :=
  mk_termios (c_iflag t) (c_oflag t) (c_cflag t) (c_lflag t) (c_line t)
             (<[i := v]> (c_cc t)).

Record winsize := mk_winsize {
  ws_row : Z; ws_col : Z; ws_xpixel : Z; ws_ypixel : Z
}.

(** [sigset_t] as a bit mask: signal [s] is bit [s - 1]. *)
Definition sigset := Z.
Definition sigemptyset : sigset := 0.
Definition sigaddset (m : sigset) (sig : Z) : sigset :=
  Z.lor m (Z.shiftl 1 (sig - 1)).

(** struct lxc_tty_state; the list node is the address of the struct. *)
Record lxc_tty_state := mk_tty_state {
  stdinfd : Z;
  stdoutfd : Z;
  masterfd : Z;
  escape : Z;
  saw_escape : Z;
  winch_proxy : option string;
  winch_proxy_lxcpath : option string;
  sigfd : Z;
  oldmask : sigset
}.

(** What [memset(ts, 0, sizeof( *ts))] leaves. *)
Definition tty_state_zero : lxc_tty_state :=
  mk_tty_state 0 0 0 0 0 None None 0 sigemptyset.

Definition set_stdinfd (ts : lxc_tty_state) (v : Z) :=
  mk_tty_state v (stdoutfd ts) (masterfd ts) (escape ts) (saw_escape ts)
    (winch_proxy ts) (winch_proxy_lxcpath ts) (sigfd ts) (oldmask ts).
Definition set_masterfd (ts : lxc_tty_state) (v : Z) :=
  mk_tty_state (stdinfd ts) (stdoutfd ts) v (escape ts) (saw_escape ts)
    (winch_proxy ts) (winch_proxy_lxcpath ts) (sigfd ts) (oldmask ts).
Definition set_escape (ts : lxc_tty_state) (v : Z) :=
  mk_tty_state (stdinfd ts) (stdoutfd ts) (masterfd ts) v (saw_escape ts)
    (winch_proxy ts) (winch_proxy_lxcpath ts) (sigfd ts) (oldmask ts).
Definition set_saw_escape (ts : lxc_tty_state) (v : Z) :=
  mk_tty_state (stdinfd ts) (stdoutfd ts) (masterfd ts) (escape ts) v
    (winch_proxy ts) (winch_proxy_lxcpath ts) (sigfd ts) (oldmask ts).
Definition set_winch_proxy (ts : lxc_tty_state) (v : option string) :=
  mk_tty_state (stdinfd ts) (stdoutfd ts) (masterfd ts) (escape ts)
    (saw_escape ts) v (winch_proxy_lxcpath ts) (sigfd ts) (oldmask ts).
Definition set_winch_proxy_lxcpath (ts : lxc_tty_state) (v : option string) :=
  mk_tty_state (stdinfd ts) (stdoutfd ts) (masterfd ts) (escape ts)
    (saw_escape ts) (winch_proxy ts) v (sigfd ts) (oldmask ts).
Definition set_sigfd (ts : lxc_tty_state) (v : Z) :=
  mk_tty_state (stdinfd ts) (stdoutfd ts) (masterfd ts) (escape ts)
    (saw_escape ts) (winch_proxy ts) (winch_proxy_lxcpath ts) v (oldmask ts).
Definition set_oldmask (ts : lxc_tty_state) (v : sigset) :=
  mk_tty_state (stdinfd ts) (stdoutfd ts) (masterfd ts) (escape ts)
    (saw_escape ts) (winch_proxy ts) (winch_proxy_lxcpath ts) (sigfd ts) v.

(** Modelled from the spec: conf.h, which declares struct lxc_pty_info,
    struct lxc_tty_info, struct lxc_console and struct lxc_conf, is not part
    of the sources; the records carry the fields console.c uses, with the
    meaning section 3 of the specification gives them. *)
Record lxc_pty_info := mk_pty_info {
  pty_name : string;
  pty_master : Z;
  pty_slave : Z;
  busy : Z
}.

Definition set_busy (p : lxc_pty_info) (v : Z) : lxc_pty_info :=
  mk_pty_info (pty_name p) (pty_master p) (pty_slave p) v.

Record lxc_tty_info := mk_tty_info {
  nbtty : Z;
  pty_info : list lxc_pty_info
}.

Record lxc_console_t := mk_console {
  slave : Z;
  master : Z;
  peer : Z;
  peerpty : lxc_pty_info;
  descr : Z;                    (* struct lxc_epoll_descr *, opaque *)
  path : option string;
  log_path : option string;
  log_fd : Z;
  name : string;
  tios : option termios;        (* malloc'ed copy, never aliased *)
  tty_state : Z                 (* struct lxc_tty_state *, 0 is NULL *)
}.

Definition set_slave (c : lxc_console_t) (v : Z) :=
  mk_console v (master c) (peer c) (peerpty c) (descr c) (path c)
    (log_path c) (log_fd c) (name c) (tios c) (tty_state c).
Definition set_master (c : lxc_console_t) (v : Z) :=
  mk_console (slave c) v (peer c) (peerpty c) (descr c) (path c)
    (log_path c) (log_fd c) (name c) (tios c) (tty_state c).
Definition set_peer (c : lxc_console_t) (v : Z) :=
  mk_console (slave c) (master c) v (peerpty c) (descr c) (path c)
    (log_path c) (log_fd c) (name c) (tios c) (tty_state c).
Definition set_peerpty (c : lxc_console_t) (v : lxc_pty_info) :=
  mk_console (slave c) (master c) (peer c) v (descr c) (path c)
    (log_path c) (log_fd c) (name c) (tios c) (tty_state c).
Definition set_log_fd (c : lxc_console_t) (v : Z) :=
  mk_console (slave c) (master c) (peer c) (peerpty c) (descr c) (path c)
    (log_path c) v (name c) (tios c) (tty_state c).
Definition set_name (c : lxc_console_t) (v : string) :=
  mk_console (slave c) (master c) (peer c) (peerpty c) (descr c) (path c)
    (log_path c) (log_fd c) v (tios c) (tty_state c).
Definition set_tios (c : lxc_console_t) (v : option termios) :=
  mk_console (slave c) (master c) (peer c) (peerpty c) (descr c) (path c)
    (log_path c) (log_fd c) (name c) v (tty_state c).
Definition set_tty_state (c : lxc_console_t) (v : Z) :=
  mk_console (slave c) (master c) (peer c) (peerpty c) (descr c) (path c)
    (log_path c) (log_fd c) (name c) (tios c) v.

Record lxc_conf := mk_conf {
  is_execute : Z;
  rootfs_path : option string;
  tty_info : lxc_tty_info;
  console : lxc_console_t
}.

Definition set_tty_info (c : lxc_conf) (v : lxc_tty_info) :=
  mk_conf (is_execute c) (rootfs_path c) v (console c).
Definition set_console (c : lxc_conf) (v : lxc_console_t) :=
  mk_conf (is_execute c) (rootfs_path c) (tty_info c) v.

(** Modelled from the spec: struct lxc_container is declared in
    lxccontainer.h; console.c reads its [name] and [config_path]. *)
Record lxc_container := mk_container {
  ct_name : string;
  config_path : string
}.

(** ** The environment: calls, answers and the trace *)

(** What [read] reports: an error (a negative count) or the bytes it put
    at the start of the buffer (none at end of file). *)
Inductive read_result :=
| ReadFail
| ReadBytes (bs : list Z).

Definition read_count (r : read_result) : Z :=
  match r with
  | ReadFail => -1
  | ReadBytes bs => Z.of_nat (length bs)
  end.

Definition read_buf (r : read_result) : list Z :=
  match r with
  | ReadFail => []
  | ReadBytes bs => bs
  end.

(** The callbacks console.c hands to the main loop. *)
Inductive callback :=
| CbCon
| CbSigwinchFd
| CbTtyStdin
| CbTtyMaster.

(** The [void *] a callback is registered with: the console of the
    configuration, or a tracker. *)
Inductive cbdata :=
| DataConsole
| DataTracker (p : Z).

(** One entry of the trace: a call that left console.c, its arguments and
    the answer it got (calls whose result console.c ignores carry none). *)
Inductive Event :=
| EvIsatty (fd ret : Z)
| EvTcgetattr (fd : Z) (res : option termios)
| EvTcsetattr (fd action : Z) (t : termios) (ret : Z)
| EvGetWinsz (fd : Z) (res : option winsize)
| EvSetWinsz (fd : Z) (wsz : winsize)
| EvRead (fd count : Z) (res : read_result)
| EvWrite (fd : Z) (buf : list Z) (ret : Z)
| EvClose (fd : Z)
| EvMalloc (p : Z)
| EvFree (p : Z)
| EvMallocTios (ok : bool)
| EvFreeTios
| EvSigprocmask (how : Z) (set : sigset) (ret : Z)
| EvSignalfd (fd : Z) (mask : sigset) (flags ret : Z)
| EvProcessLock
| EvProcessUnlock
| EvOpenpty (res : option (Z * Z * string))
| EvAccess (file : string) (mode ret : Z)
| EvOpen (file : string) (ret : Z)
| EvOpenUnpriv (file : string) (ret : Z)
| EvFcntlCloexec (fd ret : Z)
| EvMainloopOpen (d ret : Z)
| EvMainloopAdd (d fd : Z) (cb : callback) (data : cbdata) (ret : Z)
| EvMainloopDel (d fd : Z)
| EvMainloop (d timeout ret : Z)
| EvMainloopClose (d : Z)
| EvCmdConsole (nm : string) (ttynum : Z) (lxcpath : string) (res : Z * Z * Z)
| EvCmdConsoleWinch (nm : option string) (lxcpath : option string)
| EvSetsid (ret : Z)
| EvBanner (ttynum letter : Z).

(** The oracle: every answer may depend on the whole history. *)
Record OS := mk_OS {
  os_isatty : list Event -> Z -> Z;
  os_tcgetattr : list Event -> Z -> option termios;
  os_tcsetattr : list Event -> Z -> Z -> termios -> Z;
  os_getwinsz : list Event -> Z -> option winsize;
  os_read : list Event -> Z -> Z -> read_result;
  os_write : list Event -> Z -> list Z -> Z;
  os_malloc : list Event -> bool;
  os_sigblock : list Event -> sigset -> Z;
  os_signalfd : list Event -> Z;
  os_openpty : list Event -> option (Z * Z * string);
  os_access : list Event -> string -> Z;
  os_open : list Event -> string -> Z;
  os_open_unpriv : list Event -> string -> Z;
  os_fcntl : list Event -> Z -> Z;
  os_mainloop_open : list Event -> Z -> Z;
  os_mainloop_add : list Event -> Z -> Z -> callback -> cbdata -> Z;
  os_mainloop : list Event -> Z -> Z -> Z;
  os_cmd_console : list Event -> string -> Z -> string -> Z * Z * Z;
  os_setsid : list Event -> Z
}.

(** The state console.c runs in: the trace, the signal mask of the
    process, the malloc'ed trackers, the next address malloc hands out and
    the static list [lxc_ttys] (the addresses of the registered trackers,
    head first). *)
Record World := mk_World {
  w_trace : list Event;
  w_sigmask : sigset;
  w_heap : gmap Z lxc_tty_state;
  w_brk : Z;
  lxc_ttys : list Z
}.

Definition log_event (e : Event) (w : World) : World :=
  mk_World (w_trace w ++ [e]) (w_sigmask w) (w_heap w) (w_brk w) (lxc_ttys w).
Definition set_sigmask (m : sigset) (w : World) : World :=
  mk_World (w_trace w) m (w_heap w) (w_brk w) (lxc_ttys w).
Definition set_heap (h : gmap Z lxc_tty_state) (w : World) : World :=
  mk_World (w_trace w) (w_sigmask w) h (w_brk w) (lxc_ttys w).
Definition set_brk (b : Z) (w : World) : World :=
  mk_World (w_trace w) (w_sigmask w) (w_heap w) b (lxc_ttys w).
Definition set_ttys (l : list Z) (w : World) : World :=
  mk_World (w_trace w) (w_sigmask w) (w_heap w) (w_brk w) l.

(** ** The monad: state passing with faults *)

Inductive fault :=
| AssertFailed          (* assert() aborted the process *)
| BadPointer            (* access through a pointer to no live tracker *)
| OutOfBounds           (* access past the end of pty_info *)
| Uninitialised.        (* use of a local that was never written *)

Inductive Res (A : Type) :=
| Ok (a : A) (w : World)
| Fault (f : fault) (w : World).
Arguments Ok {A} a w.
Arguments Fault {A} f w.

Definition M (A : Type) : Type := World -> Res A.

Definition ret {A} (a : A) : M A := fun w => Ok a w.
Definition bind {A B} (m : M A) (k : A -> M B) : M B :=
  fun w => match m w with
           | Ok a w' => k a w'
           | Fault f w' => Fault f w'
           end.
Definition raise {A} (f : fault) : M A := fun w => Fault f w.

Declare Scope cmd_scope.
Delimit Scope cmd_scope with cmd.
Notation "x <- c1 ;; c2" := (bind c1 (fun x => c2))
  (at level 100, c1 at next level, c2 at level 200, right associativity)
  : cmd_scope.
Notation "c1 ;; c2" := (bind c1 (fun _ => c2))
  (at level 100, c2 at level 200, right associativity) : cmd_scope.
Local Open Scope cmd_scope.

Section Console.

Variable os : OS.

(** *** Calls that leave console.c *)

Definition sys_isatty (fd : Z) : M Z := fun w =>
  let r := os_isatty os (w_trace w) fd in
  Ok r (log_event (EvIsatty fd r) w).

Definition sys_tcgetattr (fd : Z) : M (option termios) := fun w =>
  let r := os_tcgetattr os (w_trace w) fd in
  Ok r (log_event (EvTcgetattr fd r) w).

Definition sys_tcsetattr (fd action : Z) (t : termios) : M Z := fun w =>
  let r := os_tcsetattr os (w_trace w) fd action t in
  Ok r (log_event (EvTcsetattr fd action t r) w).

Definition sys_getwinsz (fd : Z) : M (option winsize) := fun w =>
  let r := os_getwinsz os (w_trace w) fd in
  Ok r (log_event (EvGetWinsz fd r) w).

Definition sys_setwinsz (fd : Z) (wsz : winsize) : M unit := fun w =>
  Ok tt (log_event (EvSetWinsz fd wsz) w).

Definition sys_read (fd count : Z) : M read_result := fun w =>
  let r := os_read os (w_trace w) fd count in
  Ok r (log_event (EvRead fd count r) w).

(** [write(fd, buf, count)]: the first [count] bytes of [buf] are offered. *)
Definition sys_write (fd : Z) (buf : list Z) (count : Z) : M Z := fun w =>
  let out := take (Z.to_nat count) buf in
  let r := os_write os (w_trace w) fd out in
  Ok r (log_event (EvWrite fd out r) w).

Definition sys_close (fd : Z) : M unit := fun w =>
  Ok tt (log_event (EvClose fd) w).

(** [malloc(sizeof(struct lxc_tty_state))]: NULL, or an address never handed
    out before.  The block is indeterminate until the caller clears it; its
    only caller does so at once. *)
Definition malloc_tty_state : M Z := fun w =>
  if os_malloc os (w_trace w) then
    let p := w_brk w in
    Ok p (log_event (EvMalloc p)
            (set_brk (p + 1) (set_heap (<[p := tty_state_zero]> (w_heap w)) w)))
  else Ok 0 (log_event (EvMalloc 0) w).

Definition free_tty_state (p : Z) : M unit := fun w =>
  match w_heap w !! p with
  | Some _ => Ok tt (log_event (EvFree p) (set_heap (delete p (w_heap w)) w))
  | None => Fault BadPointer w
  end.

Definition load (p : Z) : M lxc_tty_state := fun w =>
  match w_heap w !! p with
  | Some ts => Ok ts w
  | None => Fault BadPointer w
  end.

Definition store (p : Z) (ts : lxc_tty_state) : M unit := fun w =>
  match w_heap w !! p with
  | Some _ => Ok tt (set_heap (<[p := ts]> (w_heap w)) w)
  | None => Fault BadPointer w
  end.

Definition malloc_termios : M bool := fun w =>
  let ok := os_malloc os (w_trace w) in
  Ok ok (log_event (EvMallocTios ok) w).

Definition free_termios : M unit := fun w =>
  Ok tt (log_event EvFreeTios w).

(** Modelled from the spec: list.h is not part of the sources.  The
    registry of trackers is a list of nodes; [lxc_list_add_tail] links a
    node in at the end and [lxc_list_del] unlinks it. *)
Definition lxc_list_add_tail (p : Z) : M unit := fun w =>
  Ok tt (set_ttys (lxc_ttys w ++ [p]) w).

Definition lxc_list_del (p : Z) : M unit := fun w =>
  Ok tt (set_ttys (filter (fun q => q <> p) (lxc_ttys w)) w).

(** [sigprocmask(how, &set, &old)]: the return value and the mask that was
    in force.  SIG_BLOCK may be refused, which leaves the mask alone;
    SIG_SETMASK of a mask the kernel itself handed out is always taken. *)
Definition sys_sigprocmask (how : Z) (set : sigset) : M (Z * sigset) := fun w =>
  let prev := w_sigmask w in
  if how =? SIG_SETMASK then
    Ok (0, prev) (log_event (EvSigprocmask how set 0) (set_sigmask set w))
  else
    let r := os_sigblock os (w_trace w) set in
    if r =? 0 then
      Ok (0, prev)
         (log_event (EvSigprocmask how set 0) (set_sigmask (Z.lor prev set) w))
    else Ok (r, prev) (log_event (EvSigprocmask how set r) w).

Definition sys_signalfd (fd : Z) (mask : sigset) (flags : Z) : M Z := fun w =>
  let r := os_signalfd os (w_trace w) in
  Ok r (log_event (EvSignalfd fd mask flags r) w).

Definition process_lock : M unit := fun w => Ok tt (log_event EvProcessLock w).
Definition process_unlock : M unit := fun w =>
  Ok tt (log_event EvProcessUnlock w).

(** [openpty(&master, &slave, name, NULL, NULL)]: the pair and the name,
    or a failure, which leaves the three arguments as they were. *)
Definition sys_openpty : M (option (Z * Z * string)) := fun w =>
  let r := os_openpty os (w_trace w) in
  Ok r (log_event (EvOpenpty r) w).

Definition sys_access (file : string) (mode : Z) : M Z := fun w =>
  let r := os_access os (w_trace w) file in
  Ok r (log_event (EvAccess file mode r) w).

Definition sys_open (file : string) : M Z := fun w =>
  let r := os_open os (w_trace w) file in
  Ok r (log_event (EvOpen file r) w).

(** [lxc_unpriv(open(file, O_CLOEXEC | O_RDWR | O_CREAT | O_APPEND, 0600))] *)
Definition open_unpriv (file : string) : M Z := fun w =>
  let r := os_open_unpriv os (w_trace w) file in
  Ok r (log_event (EvOpenUnpriv file r) w).

(** [fcntl(fd, F_SETFD, FD_CLOEXEC)] *)
Definition fcntl_cloexec (fd : Z) : M Z := fun w =>
  let r := os_fcntl os (w_trace w) fd in
  Ok r (log_event (EvFcntlCloexec fd r) w).

Definition lxc_mainloop_open (d : Z) : M Z := fun w =>
  let r := os_mainloop_open os (w_trace w) d in
  Ok r (log_event (EvMainloopOpen d r) w).

Definition lxc_mainloop_add_handler (d fd : Z) (cb : callback) (data : cbdata)
  : M Z := fun w =>
  let r := os_mainloop_add os (w_trace w) d fd cb data in
  Ok r (log_event (EvMainloopAdd d fd cb data r) w).

Definition lxc_mainloop_del_handler (d fd : Z) : M unit := fun w =>
  Ok tt (log_event (EvMainloopDel d fd) w).

(** mainloop.c is not part of the sources: the run of the loop is one
    call, answered with its return value. *)
Definition lxc_mainloop (d timeout : Z) : M Z := fun w =>
  let r := os_mainloop os (w_trace w) d timeout in
  Ok r (log_event (EvMainloop d timeout r) w).

Definition lxc_mainloop_close (d : Z) : M unit := fun w =>
  Ok tt (log_event (EvMainloopClose d) w).

(** [lxc_cmd_console(name, &ttynum, &masterfd, lxcpath)]: the socket fd,
    and what it left in [ttynum] and [masterfd]. *)
Definition lxc_cmd_console (nm : string) (ttynum : Z) (lxcpath : string)
  : M (Z * Z * Z) := fun w =>
  let r := os_cmd_console os (w_trace w) nm ttynum lxcpath in
  Ok r (log_event (EvCmdConsole nm ttynum lxcpath r) w).

Definition lxc_cmd_console_winch (nm lxcpath : option string) : M unit :=
  fun w => Ok tt (log_event (EvCmdConsoleWinch nm lxcpath) w).

Definition sys_setsid : M Z := fun w =>
  let r := os_setsid os (w_trace w) in
  Ok r (log_event (EvSetsid r) w).

(** The banner [fprintf] prints: the tty number and the letter
    ['a' + escape - 1]. *)
Definition print_banner (ttynum letter : Z) : M unit := fun w =>
  Ok tt (log_event (EvBanner ttynum letter) w).

(** ** lxc_console_winsz (console.c:83) *)
Definition lxc_console_winsz (srcfd dstfd : Z) : M unit :=
  tty <- sys_isatty srcfd ;;
  if tty =? 0 then ret tt
  else
    got <- sys_getwinsz srcfd ;;
    match got with
    | Some wsz => sys_setwinsz dstfd wsz
    | None => ret tt
    end.

(** ** lxc_console_winch (console.c:93) *)
Definition lxc_console_winch (p : Z) : M unit :=
  ts <- load p ;;
  lxc_console_winsz (stdinfd ts) (masterfd ts) ;;
  match winch_proxy ts with
  | Some _ => lxc_cmd_console_winch (winch_proxy ts) (winch_proxy_lxcpath ts)
  | None => ret tt
  end.

(** ** lxc_console_sigwinch_init (console.c:148)

    Returns the address of the tracker, 0 for NULL. *)
Definition lxc_console_sigwinch_init (srcfd dstfd : Z) : M Z :=
  ts <- malloc_tty_state ;;
  if ts =? 0 then ret 0
  else
    store ts tty_state_zero ;;
    store ts (set_sigfd (set_masterfd (set_stdinfd tty_state_zero srcfd) dstfd)
                (-1)) ;;
    lxc_list_add_tail ts ;;
    let mask := sigaddset sigemptyset SIGWINCH in
    blocked <- sys_sigprocmask SIG_BLOCK mask ;;
    if negb (fst blocked =? 0) then
      (* err1 *)
      lxc_list_del ts ;;
      free_tty_state ts ;;
      ret 0
    else
      st <- load ts ;;
      store ts (set_oldmask st (snd blocked)) ;;
      fd <- sys_signalfd (-1) mask 0 ;;
      st <- load ts ;;
      store ts (set_sigfd st fd) ;;
      if fd <? 0 then
        (* err2 *)
        st <- load ts ;;
        sys_sigprocmask SIG_SETMASK (oldmask st) ;;
        (* err1 *)
        lxc_list_del ts ;;
        free_tty_state ts ;;
        ret 0
      else ret ts.

(** ** lxc_console_sigwinch_fini (console.c:203) *)
Definition lxc_console_sigwinch_fini (ts : Z) : M unit :=
  st <- load ts ;;
  (if 0 <=? sigfd st then sys_close (sigfd st) else ret tt) ;;
  lxc_list_del ts ;;
  st <- load ts ;;
  sys_sigprocmask SIG_SETMASK (oldmask st) ;;
  free_tty_state ts.

(** ** lxc_console_cb_con (console.c:213) *)
Definition lxc_console_cb_con (fd events : Z) (data : lxc_console_t) (d : Z)
  : M Z :=
  got <- sys_read fd 1024 ;;
  let buf := read_buf got in
  let r := read_count got in
  let w := r in
  if r <? 0 then ret 1
  else if r =? 0 then
    lxc_mainloop_del_handler d fd ;;
    sys_close fd ;;
    ret 0
  else
    w <- (if fd =? peer data then sys_write (master data) buf r else ret w) ;;
    w <- (if fd =? master data then
            w <- (if 0 <=? log_fd data then sys_write (log_fd data) buf r
                  else ret w) ;;
            (if 0 <=? peer data then sys_write (peer data) buf r else ret w)
          else ret w) ;;
    (* if (w != r) WARN(...) *)
    ret 0.

(** ** lxc_console_mainloop_add_peer (console.c:249) *)
Definition lxc_console_mainloop_add_peer (c : lxc_console_t) : M unit :=
  (if 0 <=? peer c then
     lxc_mainloop_add_handler (descr c) (peer c) CbCon DataConsole ;; ret tt
   else ret tt) ;;
  if negb (tty_state c =? 0) then
    st <- load (tty_state c) ;;
    lxc_mainloop_add_handler (descr c) (sigfd st) CbSigwinchFd
      (DataTracker (tty_state c)) ;;
    ret tt
  else ret tt.

(** ** setup_tios (console.c:305)

    Returns the C return value and what was stored through [oldtios]
    ([None] when tcgetattr never filled it). *)
Definition setup_tios (fd : Z) : M (Z * option termios) :=
  tty <- sys_isatty fd ;;
  if tty =? 0 then ret (-1, None)
  else
    got <- sys_tcgetattr fd ;;
    match got with
    | None => ret (-1, None)
    | Some oldtios =>
      let newtios := oldtios in
      let newtios :=
        set_c_iflag newtios
          (uint32 (Z.land (c_iflag newtios) (uint32 (Z.lnot IGNBRK)))) in
      let newtios :=
        set_c_iflag newtios (uint32 (Z.land (c_iflag newtios) BRKINT)) in
      let newtios :=
        set_c_lflag newtios
          (uint32 (Z.land (c_lflag newtios)
                     (uint32 (Z.lnot (Z.lor (Z.lor ECHO ICANON) ISIG))))) in
      let newtios := set_c_cc newtios VMIN 1 in
      let newtios := set_c_cc newtios VTIME 0 in
      r <- sys_tcsetattr fd TCSAFLUSH newtios ;;
      if r =? 0 then ret (0, Some oldtios) else ret (-1, Some oldtios)
    end.

(** ** lxc_console_peer_proxy_free (console.c:339) *)
Definition lxc_console_peer_proxy_free (c : lxc_console_t) : M lxc_console_t :=
  c <- (if negb (tty_state c =? 0) then
          lxc_console_sigwinch_fini (tty_state c) ;;
          ret (set_tty_state c 0)
        else ret c) ;;
  sys_close (pty_master (peerpty c)) ;;
  sys_close (pty_slave (peerpty c)) ;;
  let c := set_peerpty c (mk_pty_info (pty_name (peerpty c)) (-1)
                            (pty_slave (peerpty c)) (busy (peerpty c))) in
  let c := set_peerpty c (mk_pty_info (pty_name (peerpty c))
                            (pty_master (peerpty c)) (-1) (busy (peerpty c))) in
  let c := set_peerpty c (set_busy (peerpty c) (-1)) in
  let c := set_peerpty c (mk_pty_info EmptyString (pty_master (peerpty c))
                            (pty_slave (peerpty c)) (busy (peerpty c))) in
  ret (set_peer c (-1)).

(** ** lxc_console_peer_proxy_alloc (console.c:354) *)
Definition lxc_console_peer_proxy_alloc (c : lxc_console_t) (sockfd : Z)
  : M (Z * lxc_console_t) :=
  if master c <? 0 then ret (-1, c)
  else if negb (busy (peerpty c) =? -1) || negb (peer c =? -1) then ret (-1, c)
  else if negb (tty_state c =? 0) then ret (-1, c)
  else
    process_lock ;;
    got <- sys_openpty ;;
    process_unlock ;;
    match got with
    | None => ret (-1, c)
    | Some (m, s, nm) =>
      let c := set_peerpty c (mk_pty_info nm m s (busy (peerpty c))) in
      tios_ret <- setup_tios (pty_slave (peerpty c)) ;;
      if fst tios_ret <? 0 then
        (* err1 *)
        c <- lxc_console_peer_proxy_free c ;;
        ret (-1, c)
      else
        ts <- lxc_console_sigwinch_init (pty_master (peerpty c)) (master c) ;;
        if ts =? 0 then
          (* err1 *)
          c <- lxc_console_peer_proxy_free c ;;
          ret (-1, c)
        else
          let c := set_tty_state c ts in
          let c := set_peer c (pty_slave (peerpty c)) in
          let c := set_peerpty c (set_busy (peerpty c) sockfd) in
          lxc_console_mainloop_add_peer c ;;
          ret (0, c)
    end.

(** [tty_info->pty_info[i]]: reading past the array is a fault. *)
Definition pty_at (ti : lxc_tty_info) (i : Z) : M lxc_pty_info :=
  if i <? 0 then raise OutOfBounds
  else match pty_info ti !! Z.to_nat i with
       | Some p => ret p
       | None => raise OutOfBounds
       end.

Definition pty_set_busy (ti : lxc_tty_info) (i v : Z) : M lxc_tty_info :=
  p <- pty_at ti i ;;
  ret (mk_tty_info (nbtty ti) (<[Z.to_nat i := set_busy p v]> (pty_info ti))).

(** The search loop of lxc_console_allocate (console.c:438):
    [for (; ttynum <= nbtty && pty_info[ttynum - 1].busy; ttynum++);]
    run for at most [n] rounds; the value of [ttynum] it stops at. *)
Fixpoint search_tty (n : nat) (ti : lxc_tty_info) (ttynum : Z) : M Z :=
  match n with
  | O => ret ttynum
  | S n' =>
    if ttynum <=? nbtty ti then
      p <- pty_at ti (ttynum - 1) ;;
      if negb (busy p =? 0) then search_tty n' ti (ttynum + 1)
      else ret ttynum
    else ret ttynum
  end.

(** ** lxc_console_allocate (console.c:412)

    Returns the master fd, the configuration and [*ttyreq] as the call
    leaves them. *)
Definition lxc_console_allocate (conf : lxc_conf) (sockfd ttyreq : Z)
  : M (Z * lxc_conf * Z) :=
  let masterfd := -1 in
  let ti := tty_info conf in
  let out_tty (ttynum ttyreq : Z) : M (Z * lxc_conf * Z) :=
      ti' <- pty_set_busy ti (ttynum - 1) sockfd ;;
      p <- pty_at ti' (ttynum - 1) ;;
      ret (pty_master p, set_tty_info conf ti', ttyreq) in
  if ttyreq =? 0 then
    res <- lxc_console_peer_proxy_alloc (console conf) sockfd ;;
    let conf := set_console conf (snd res) in
    if fst res <? 0 then ret (masterfd, conf, ttyreq)
    else ret (pty_master (peerpty (console conf)), conf, ttyreq)
  else if 0 <? ttyreq then
    if nbtty ti <? ttyreq then ret (masterfd, conf, ttyreq)
    else
      p <- pty_at ti (ttyreq - 1) ;;
      if negb (busy p =? 0) then ret (masterfd, conf, ttyreq)
      else out_tty ttyreq ttyreq
  else
    ttynum <- search_tty (Z.to_nat (nbtty ti)) ti 1 ;;
    if nbtty ti <? ttynum then ret (masterfd, conf, ttyreq)
    else out_tty ttynum ttynum.

(** The loop of lxc_console_free (console.c:469), [n] rounds from [i]. *)
Fixpoint free_ttys (n : nat) (ti : lxc_tty_info) (i fd : Z) : M lxc_tty_info :=
  match n with
  | O => ret ti
  | S n' =>
    p <- pty_at ti i ;;
    ti <- (if busy p =? fd then pty_set_busy ti i 0 else ret ti) ;;
    free_ttys n' ti (i + 1) fd
  end.

(** ** lxc_console_free (console.c:463) *)
Definition lxc_console_free (conf : lxc_conf) (fd : Z) : M lxc_conf :=
  ti <- free_ttys (Z.to_nat (nbtty (tty_info conf))) (tty_info conf) 0 fd ;;
  let conf := set_tty_info conf ti in
  let c := console conf in
  if busy (peerpty c) =? fd then
    lxc_mainloop_del_handler (descr c) (pty_slave (peerpty c)) ;;
    c <- lxc_console_peer_proxy_free c ;;
    ret (set_console conf c)
  else ret conf.

(** ** lxc_console_peer_default (console.c:480) *)
Definition lxc_console_peer_default (c : lxc_console_t) : M lxc_console_t :=
  let dev_tty := "/dev/tty"%string in
  file <- match path c with
          | Some f => ret (Some f)
          | None =>
            a <- sys_access dev_tty F_OK ;;
            if a =? 0 then
              fd <- sys_open dev_tty ;;
              if 0 <=? fd then sys_close fd ;; ret (Some dev_tty)
              else ret None
            else ret None
          end ;;
  match file with
  | None => ret c
  | Some f =>
    fd <- open_unpriv f ;;
    let c := set_peer c fd in
    if peer c <? 0 then ret c
    else
      let err1 (c : lxc_console_t) : M lxc_console_t :=
          sys_close (peer c) ;;
          ret (set_peer c (-1)) in
      tty <- sys_isatty (peer c) ;;
      if tty =? 0 then err1 c
      else
        ts <- lxc_console_sigwinch_init (peer c) (master c) ;;
        let c := set_tty_state c ts in
        lxc_console_winsz (peer c) (master c) ;;
        ok <- malloc_termios ;;
        (* [console->tios] holds what malloc returned: NULL if it failed *)
        if negb ok then err1 (set_tios c None)
        else
          saved <- setup_tios (peer c) ;;
          if fst saved <? 0 then
            (* err2 *)
            free_termios ;;
            err1 (set_tios c None)
          else ret (set_tios c (snd saved))
  end.

(** ** lxc_console_delete (console.c:539) *)
Definition lxc_console_delete (c : lxc_console_t) : M lxc_console_t :=
  match tios c with
  | Some t =>
    (if 0 <=? peer c then
       sys_tcsetattr (peer c) TCSAFLUSH t ;; ret tt
     else ret tt) ;;
    free_termios
  | None => ret tt
  end ;;
  let c := set_tios c None in
  sys_close (peer c) ;;
  sys_close (master c) ;;
  sys_close (slave c) ;;
  (if 0 <=? log_fd c then sys_close (log_fd c) else ret tt) ;;
  ret (set_log_fd (set_slave (set_master (set_peer c (-1)) (-1)) (-1)) (-1)).

(** ** lxc_console_create (console.c:559) *)
Definition lxc_console_create (conf : lxc_conf) : M (Z * lxc_conf) :=
  let c := console conf in
  let is_none (p : option string) : bool :=
      match p with
      | Some f => String.eqb f "none"
      | None => false
      end in
  if negb (is_execute conf =? 0) then ret (0, conf)
  else if negb (bool_decide (is_Some (rootfs_path conf))) then ret (0, conf)
  else if is_none (path c) then ret (0, conf)
  else
    process_lock ;;
    got <- sys_openpty ;;
    process_unlock ;;
    match got with
    | None => ret (-1, conf)
    | Some (m, s, nm) =>
      let c := set_name (set_slave (set_master c m) s) nm in
      let err (c : lxc_console_t) : M (Z * lxc_conf) :=
          c <- lxc_console_delete c ;;
          ret (-1, set_console conf c) in
      r <- fcntl_cloexec (master c) ;;
      if negb (r =? 0) then err c
      else
        r <- fcntl_cloexec (slave c) ;;
        if negb (r =? 0) then err c
        else
          c <- lxc_console_peer_default c ;;
          match log_path c with
          | Some f =>
            fd <- open_unpriv f ;;
            let c := set_log_fd c fd in
            if log_fd c <? 0 then err c
            else ret (0, set_console conf c)
          | None => ret (0, set_console conf c)
          end
    end.

(** [char] is signed: the value of a byte read into a [char]. *)
Definition char_of_byte (b : Z) : Z := if b <? 128 then b else b - 256.

(** ** lxc_console_cb_tty_stdin (console.c:632) *)
Definition lxc_console_cb_tty_stdin (fd events cbdata d : Z) : M Z :=
  let ts := cbdata in
  st <- load ts ;;
  if negb (fd =? stdinfd st) then raise AssertFailed
  else
    got <- sys_read (stdinfd st) 1 ;;
    if read_count got <? 0 then ret 1
    else
      (* [c] holds what read stored; at end of file nothing was stored *)
      b <- match read_buf got with
           | b :: _ => ret b
           | [] => raise Uninitialised
           end ;;
      let c := char_of_byte b in
      if (c =? escape st) && (saw_escape st =? 0) then
        store ts (set_saw_escape st 1) ;;
        ret 0
      else if (c =? 113 (* 'q' *)) && negb (saw_escape st =? 0) then ret 1
      else
        store ts (set_saw_escape st 0) ;;
        w <- sys_write (masterfd st) [b] 1 ;;
        if w <? 0 then ret 1 else ret 0.

(** ** lxc_console_cb_tty_master (console.c:662) *)
Definition lxc_console_cb_tty_master (fd events cbdata d : Z) : M Z :=
  let ts := cbdata in
  st <- load ts ;;
  if negb (fd =? masterfd st) then raise AssertFailed
  else
    got <- sys_read fd 1024 ;;
    let r := read_count got in
    if r <? 0 then ret 1
    else
      w <- sys_write (stdoutfd st) (read_buf got) r ;;
      if (w <? 0) || negb (w =? r) then ret 1 else ret 0.

(** The labels err1 ... err4 of lxc_console (console.c:773), each falling
    through to the next; [r] is the value of [ret] when the label is
    reached. *)
Definition lxc_console_err1 (stdin_fd : Z) (oldtios : termios) (r : Z) : M Z :=
  sys_tcsetattr stdin_fd TCSAFLUSH oldtios ;;
  ret r.

Definition lxc_console_err2 (stdin_fd : Z) (oldtios : termios)
    (master_fd ttyfd : Z) (r : Z) : M Z :=
  sys_close master_fd ;;
  sys_close ttyfd ;;
  lxc_console_err1 stdin_fd oldtios r.

Definition lxc_console_err3 (stdin_fd : Z) (oldtios : termios)
    (master_fd ttyfd ts : Z) (r : Z) : M Z :=
  lxc_console_sigwinch_fini ts ;;
  lxc_console_err2 stdin_fd oldtios master_fd ttyfd r.

Definition lxc_console_err4 (stdin_fd : Z) (oldtios : termios)
    (master_fd ttyfd ts d : Z) (r : Z) : M Z :=
  lxc_mainloop_close d ;;
  lxc_console_err3 stdin_fd oldtios master_fd ttyfd ts r.

(** ** lxc_console (console.c:690)

    [d] stands for the address of the local [descr]. *)
Definition lxc_console (c : lxc_container)
    (ttynum stdin_fd stdout_fd stderr_fd escape_byte : Z) (d : Z) : M Z :=
  tty <- sys_isatty stdin_fd ;;
  if tty =? 0 then ret (-1)
  else
    saved <- setup_tios stdin_fd ;;
    if negb (fst saved =? 0) then ret (-1)
    else
      match snd saved with
      | None => raise Uninitialised
      | Some oldtios =>
        let err1 := lxc_console_err1 stdin_fd oldtios in
        got <- lxc_cmd_console (ct_name c) ttynum (config_path c) ;;
        let '(ttyfd, ttynum, master_fd) := got in
        if ttyfd <? 0 then err1 ttyfd
        else
          let err2 := lxc_console_err2 stdin_fd oldtios master_fd ttyfd in
          print_banner ttynum (97 (* 'a' *) + escape_byte - 1) ;;
          sys_setsid ;;
          ts <- lxc_console_sigwinch_init stdin_fd master_fd ;;
          if ts =? 0 then err2 (-1)
          else
            let err3 := lxc_console_err3 stdin_fd oldtios master_fd ttyfd ts in
            let err4 :=
                lxc_console_err4 stdin_fd oldtios master_fd ttyfd ts d in
            st <- load ts ;;
            store ts (set_escape st escape_byte) ;;
            st <- load ts ;;
            store ts (set_winch_proxy st (Some (ct_name c))) ;;
            st <- load ts ;;
            store ts (set_winch_proxy_lxcpath st (Some (config_path c))) ;;
            lxc_console_winsz stdin_fd master_fd ;;
            st <- load ts ;;
            lxc_cmd_console_winch (winch_proxy st) (winch_proxy_lxcpath st) ;;
            r <- lxc_mainloop_open d ;;
            if negb (r =? 0) then err3 r
            else
              st <- load ts ;;
              r <- lxc_mainloop_add_handler d (sigfd st) CbSigwinchFd
                     (DataTracker ts) ;;
              if negb (r =? 0) then err4 r
              else
                st <- load ts ;;
                r <- lxc_mainloop_add_handler d (stdinfd st) CbTtyStdin
                       (DataTracker ts) ;;
                if negb (r =? 0) then err4 r
                else
                  st <- load ts ;;
                  r <- lxc_mainloop_add_handler d (masterfd st) CbTtyMaster
                         (DataTracker ts) ;;
                  if negb (r =? 0) then err4 r
                  else
                    r <- lxc_mainloop d (-1) ;;
                    if negb (r =? 0) then err4 r
                    else err4 0
      end.

End Console.

(** * Concrete environments

    An environment in which every call succeeds, and variants of it in
    which one kind of call is answered differently. *)

Definition termios0 : termios :=
  mk_termios 0 0 0 0 0 (replicate NCCS 0).

Definition os_ok : OS := {|
  os_isatty := fun _ _ => 1;
  os_tcgetattr := fun _ _ => Some termios0;
  os_tcsetattr := fun _ _ _ _ => 0;
  os_getwinsz := fun _ _ => Some (mk_winsize 24 80 0 0);
  os_read := fun _ _ _ => ReadBytes [];
  os_write := fun _ _ buf => Z.of_nat (length buf);
  os_malloc := fun _ => true;
  os_sigblock := fun _ _ => 0;
  os_signalfd := fun _ => 9;
  os_openpty := fun _ => Some (7, 8, "/dev/pts/3"%string);
  os_access := fun _ _ => 0;
  os_open := fun _ _ => 5;
  os_open_unpriv := fun _ _ => 6;
  os_fcntl := fun _ _ => 0;
  os_mainloop_open := fun _ _ => 0;
  os_mainloop_add := fun _ _ _ _ _ => 0;
  os_mainloop := fun _ _ _ => 0;
  os_cmd_console := fun _ _ ttynum _ => (4, ttynum, 3);
  os_setsid := fun _ => 0
|}.

Definition with_tcsetattr (f : list Event -> Z -> Z -> termios -> Z) (o : OS) :=
  mk_OS (os_isatty o) (os_tcgetattr o) f (os_getwinsz o) (os_read o)
    (os_write o) (os_malloc o) (os_sigblock o) (os_signalfd o) (os_openpty o)
    (os_access o) (os_open o) (os_open_unpriv o) (os_fcntl o)
    (os_mainloop_open o) (os_mainloop_add o) (os_mainloop o)
    (os_cmd_console o) (os_setsid o).
Definition with_read (f : list Event -> Z -> Z -> read_result) (o : OS) :=
  mk_OS (os_isatty o) (os_tcgetattr o) (os_tcsetattr o) (os_getwinsz o) f
    (os_write o) (os_malloc o) (os_sigblock o) (os_signalfd o) (os_openpty o)
    (os_access o) (os_open o) (os_open_unpriv o) (os_fcntl o)
    (os_mainloop_open o) (os_mainloop_add o) (os_mainloop o)
    (os_cmd_console o) (os_setsid o).
Definition with_sigblock (f : list Event -> sigset -> Z) (o : OS) :=
  mk_OS (os_isatty o) (os_tcgetattr o) (os_tcsetattr o) (os_getwinsz o)
    (os_read o) (os_write o) (os_malloc o) f (os_signalfd o) (os_openpty o)
    (os_access o) (os_open o) (os_open_unpriv o) (os_fcntl o)
    (os_mainloop_open o) (os_mainloop_add o) (os_mainloop o)
    (os_cmd_console o) (os_setsid o).
Definition with_signalfd (f : list Event -> Z) (o : OS) :=
  mk_OS (os_isatty o) (os_tcgetattr o) (os_tcsetattr o) (os_getwinsz o)
    (os_read o) (os_write o) (os_malloc o) (os_sigblock o) f (os_openpty o)
    (os_access o) (os_open o) (os_open_unpriv o) (os_fcntl o)
    (os_mainloop_open o) (os_mainloop_add o) (os_mainloop o)
    (os_cmd_console o) (os_setsid o).
Definition with_mainloop (f : list Event -> Z -> Z -> Z) (o : OS) :=
  mk_OS (os_isatty o) (os_tcgetattr o) (os_tcsetattr o) (os_getwinsz o)
    (os_read o) (os_write o) (os_malloc o) (os_sigblock o) (os_signalfd o)
    (os_openpty o) (os_access o) (os_open o) (os_open_unpriv o) (os_fcntl o)
    (os_mainloop_open o) (os_mainloop_add o) f
    (os_cmd_console o) (os_setsid o).

(** A process that has made no call yet: nothing blocked, nothing
    allocated, an empty registry. *)
Definition world0 : World := mk_World [] 0 ∅ 1 [].

(** The events a run added to the trace. *)
Definition new_events (w w' : World) : list Event :=
  drop (length (w_trace w)) (w_trace w').

Definition res_value {A} (r : Res A) : option A :=
  match r with
  | Ok a _ => Some a
  | Fault _ _ => None
  end.

Definition res_world {A} (r : Res A) : World :=
  match r with
  | Ok _ w => w
  | Fault _ w => w
  end.

(** * Terminal modes *)



(** Environments for terminal modes: one where the kernel refuses
    tcsetattr, one whose terminal has BRKINT set. *)
Definition os_tcset_refused : OS :=
  with_tcsetattr (fun _ _ _ _ => -1) os_ok.

(** * Pumps *)

(** A process holding one tracker, at address 1 and registered. *)
Definition world_tracker (st : lxc_tty_state) : World :=
  mk_World [] 0 {[ 1 := st ]} 2 [1].

(** The tracker of an attach session: stdin 0, master 3, escape Ctrl-a. *)
Definition attach_tracker : lxc_tty_state :=
  mk_tty_state 0 0 3 1 0 None None 9 0.

(** A handler invoked [n] times in a row; the values it returned. *)
Fixpoint invoke (n : nat) (handler : M Z) : M (list Z) :=
  match n with
  | O => ret []
  | S n' =>
    r <- handler ;;
    rs <- invoke n' handler ;;
    ret (r :: rs)
  end.

Definition is_read_on (fd : Z) (e : Event) : bool :=
  match e with
  | EvRead fd' _ _ => fd' =? fd
  | _ => false
  end.

(** How many reads on [fd] the history holds. *)
Definition count_reads (fd : Z) (h : list Event) : nat :=
  length (filter (fun e => is_read_on fd e = true) h).

(** The environment [o], except that the reads on [fd] deliver [input],
    one byte per read, and report end of file after it. *)
Definition feeding (fd : Z) (input : list Z) (o : OS) : OS :=
  with_read
    (fun h fd' n =>
       if fd' =? fd then
         match input !! count_reads fd h with
         | Some b => ReadBytes [b]
         | None => ReadBytes []
         end
       else os_read o h fd' n)
    o.

(** What the writes of a history offered, oldest first: the descriptor and
    the bytes, whatever the write returned. *)
Definition offered (h : list Event) : list (Z * list Z) :=
  omap (fun e => match e with
                 | EvWrite fd buf _ => Some (fd, buf)
                 | _ => None
                 end) h.

(** The console of a container with a log and an attached peer, and an
    environment whose reads deliver two bytes. *)
Definition console_logged : lxc_console_t :=
  mk_console 2 3 8 (mk_pty_info "/dev/pts/3" 7 8 11) 20 None
    (Some "/var/log/console"%string) 10 "/dev/pts/1" None 1.
Definition os_two_bytes : OS :=
  with_read (fun _ _ _ => ReadBytes [104; 105]) os_ok.

(** How one invocation of the stdin pump on byte [b], after history [h],
    relates the tracker before ([st]) and after ([st']), the value returned
    ([r]) and the events added ([evs]): the escape state machine. *)
Definition stdin_transition (os : OS) (h : list Event) (fd b : Z)
    (st st' : lxc_tty_state) (r : Z) (evs : list Event) : Prop :=
  let rd := EvRead fd 1 (ReadBytes [b]) in
  if (char_of_byte b =? escape st) && (saw_escape st =? 0) then
    r = 0 /\ st' = set_saw_escape st 1 /\ evs = [rd]
  else if (char_of_byte b =? 113) && negb (saw_escape st =? 0) then
    r = 1 /\ st' = st /\ evs = [rd]
  else
    let wr := os_write os (h ++ [rd]) (masterfd st) [b] in
    st' = set_saw_escape st 0
    /\ evs = [rd; EvWrite (masterfd st) [b] wr]
    /\ r = (if wr <? 0 then 1 else 0).

(** * Allocation *)

(** Every slot is in use. *)
Definition all_busy (l : list lxc_pty_info) : Prop :=
  forall j q, l !! j = Some q -> busy q <> 0.

(** Slot [i] (0-based) holds [p], is free, and every slot before it is in
    use. *)
Definition first_free (l : list lxc_pty_info) (i : nat) (p : lxc_pty_info)
  : Prop :=
  l !! i = Some p /\ busy p = 0
  /\ forall j q, (j < i)%nat -> l !! j = Some q -> busy q <> 0.

(** The array holds [nbtty] slots. *)
Definition tty_info_wf (ti : lxc_tty_info) : Prop :=
  nbtty ti = Z.of_nat (length (pty_info ti)).

(** A configuration with two ttys, masters 11 and 13. *)
Definition slot (m b : Z) : lxc_pty_info := mk_pty_info "" m (m + 1) b.
Definition console_unattached : lxc_console_t :=
  mk_console 2 3 (-1) (mk_pty_info "" (-1) (-1) (-1)) 20 None None (-1)
    "/dev/pts/1" None 0.
Definition conf_two (b1 b2 : Z) : lxc_conf :=
  mk_conf 0 (Some "/var/lib/lxc/c1/rootfs"%string)
    (mk_tty_info 2 [slot 11 b1; slot 13 b2]) console_unattached.

(** * Trackers *)

(** malloc has handed out only addresses below [w_brk]: no tracker lives,
    and no node is registered, at or above it; address 0 is NULL. *)
Definition world_wf (w : World) : Prop :=
  0 < w_brk w
  /\ forall p, w_brk w <= p -> w_heap w !! p = None /\ p ∉ lxc_ttys w.

(** The set lxc_console_sigwinch_init blocks. *)
Definition winch_mask : sigset := sigaddset sigemptyset SIGWINCH.

(** The tracker lxc_console_sigwinch_init returns. *)
Definition fresh_tracker (srcfd dstfd fd : Z) (old : sigset) : lxc_tty_state :=
  mk_tty_state srcfd 0 dstfd 0 0 None None fd old.

(** Environments in which the tracker cannot be set up. *)
Definition os_block_refused : OS := with_sigblock (fun _ _ => -1) os_ok.
Definition os_no_signalfd : OS := with_signalfd (fun _ => -1) os_ok.

(** A process that already blocks SIGINT and holds one tracker. *)
Definition world_busy : World :=
  mk_World [] 2 {[ 1 := attach_tracker ]} 2 [1].

(** * Release *)

(** What lxc_console_free does to one slot. *)
Definition release (fd : Z) (p : lxc_pty_info) : lxc_pty_info :=
  if busy p =? fd then set_busy p 0 else p.

Definition released (fd : Z) (ti : lxc_tty_info) : lxc_tty_info :=
  mk_tty_info (nbtty ti) (release fd <$> pty_info ti).

(** The console as lxc_console_peer_proxy_free leaves it. *)
Definition proxy_cleared (c : lxc_console_t) : lxc_console_t :=
  mk_console (slave c) (master c) (-1) (mk_pty_info "" (-1) (-1) (-1))
    (descr c) (path c) (log_path c) (log_fd c) (name c) (tios c) 0.

Definition log_events (es : list Event) (w : World) : World :=
  mk_World (w_trace w ++ es) (w_sigmask w) (w_heap w) (w_brk w) (lxc_ttys w).

(** The calls of lxc_console_sigwinch_fini on tracker [st] at [ts], and the
    world it leaves. *)
Definition fini_events (ts : Z) (st : lxc_tty_state) : list Event :=
  (if 0 <=? sigfd st then [EvClose (sigfd st)] else [])
  ++ [EvSigprocmask SIG_SETMASK (oldmask st) 0; EvFree ts].

Definition after_fini (ts : Z) (st : lxc_tty_state) (w : World) : World :=
  mk_World (w_trace w ++ fini_events ts st) (oldmask st)
    (delete ts (w_heap w)) (w_brk w)
    (filter (fun q => q <> ts) (lxc_ttys w)).

(** The tracker of the console, if it has one, is a live tracker. *)
Definition tracker_live (c : lxc_console_t) (w : World) : Prop :=
  tty_state c <> 0 -> is_Some (w_heap w !! tty_state c).

(** The calls of the proxy teardown of lxc_console_free, given the tracker
    the console points to (if any). *)
Definition teardown_events (c : lxc_console_t) (st : option lxc_tty_state)
  : list Event :=
  [EvMainloopDel (descr c) (pty_slave (peerpty c))]
  ++ match st with
     | Some st => fini_events (tty_state c) st
     | None => []
     end
  ++ [EvClose (pty_master (peerpty c)); EvClose (pty_slave (peerpty c))].

(** The tracker a console points to. *)
Definition console_tracker (c : lxc_console_t) (w : World)
  : option lxc_tty_state :=
  if tty_state c =? 0 then None else w_heap w !! tty_state c.

(** The invariant of section 3 of the specification: the proxy is owned
    by a client exactly when the peer is the proxy slave and the console
    has a tracker. *)
Definition console_inv (c : lxc_console_t) : Prop :=
  0 <= busy (peerpty c)
  <-> (peer c = pty_slave (peerpty c) /\ tty_state c <> 0).

(** A console attached to a proxy pty on behalf of client 5, and its
    tracker at address 1. *)
Definition console_attached : lxc_console_t :=
  mk_console 2 3 8 (mk_pty_info "/dev/pts/3" 7 8 5) 20 None None (-1)
    "/dev/pts/1" None 1.
Definition proxy_tracker : lxc_tty_state := fresh_tracker 7 3 9 0.
Definition conf_attached (b1 b2 : Z) : lxc_conf :=
  mk_conf 0 (Some "/var/lib/lxc/c1/rootfs"%string)
    (mk_tty_info 2 [slot 11 b1; slot 13 b2]) console_attached.

(** The process of a container whose console is attached. *)
Definition world_attached : World :=
  mk_World [] winch_mask {[ 1 := proxy_tracker ]} 2 [1].

(** A configuration before lxc_console_create: no descriptor is open, no
    proxy client, no tracker; the console is to mirror to /dev/tty1. *)
Definition console_fresh : lxc_console_t :=
  mk_console (-1) (-1) (-1) (mk_pty_info "" (-1) (-1) (-1)) 0
    (Some "/dev/tty1"%string) None (-1) "" None 0.
Definition conf_fresh : lxc_conf :=
  mk_conf 0 (Some "/var/lib/lxc/c1/rootfs"%string) (mk_tty_info 0 [])
    console_fresh.

(** * The attach driver *)

(** The four steps in which lxc_console gives back what it holds. *)
Definition close_loop (d : Z) : list Event := [EvMainloopClose d].
Definition teardown_tracker (p sfd : Z) (m0 : sigset) : list Event :=
  [EvClose sfd; EvSigprocmask SIG_SETMASK m0 0; EvFree p].
Definition close_channel (mfd tfd : Z) : list Event :=
  [EvClose mfd; EvClose tfd].
Definition restore_termios (fd : Z) (old : termios) (rx : Z) : list Event :=
  [EvTcsetattr fd TCSAFLUSH old rx].

(** The last event of a run that never put the terminal in raw mode. *)
Definition setup_refused (fd : Z) (e : Event) : Prop :=
  e = EvIsatty fd 0 \/ e = EvTcgetattr fd None
  \/ exists t r, r <> 0 /\ e = EvTcsetattr fd TCSAFLUSH t r.

(** The last event before the unwinding when the tracker could not be set
    up. *)
Definition tracker_refused (e : Event) : Prop :=
  e = EvMalloc 0 \/ exists p, e = EvFree p.

(** The last event before the unwinding once the loop is open: a handler
    that could not be added, or the return of the loop. *)
Definition loop_ended (d p r : Z) (e : Event) : Prop :=
  e = EvMainloop d (-1) r
  \/ exists fd cb, r <> 0 /\ e = EvMainloopAdd d fd cb (DataTracker p) r.

(** What a history shows lxc_console to hold when it leaves. *)

(** The attributes to put back on [fd]: those the history read from it,
    if it went on to set new ones with success. *)
Definition raw_mode_of (fd : Z) (h : list Event) : option termios :=
  if existsb (fun e => match e with
                       | EvTcsetattr fd' _ _ r => (fd' =? fd) && (r =? 0)
                       | _ => false
                       end) h
  then head (omap (fun e => match e with
                            | EvTcgetattr fd' (Some t) =>
                              if fd' =? fd then Some t else None
                            | _ => None
                            end) h)
  else None.

(** The command channel the history got: the channel fd and the master
    fd that came with it. *)
Definition channel_of (h : list Event) : option (Z * Z) :=
  head (omap (fun e => match e with
                       | EvCmdConsole _ _ _ (tfd, _, mfd) =>
                         if 0 <=? tfd then Some (tfd, mfd) else None
                       | _ => None
                       end) h).

(** The tracker the history set up: its address and its signal fd. *)
Definition tracker_of (h : list Event) : option (Z * Z) :=
  match head (omap (fun e => match e with
                             | EvSignalfd _ _ _ sfd =>
                               if 0 <=? sfd then Some sfd else None
                             | _ => None
                             end) h),
        head (omap (fun e => match e with
                             | EvMalloc p => Some p
                             | _ => None
                             end) h) with
  | Some sfd, Some p => Some (p, sfd)
  | _, _ => None
  end.

(** The history opened the loop [d]. *)
Definition loop_opened (d : Z) (h : list Event) : bool :=
  existsb (fun e => match e with
                    | EvMainloopOpen d' r => (d' =? d) && (r =? 0)
                    | _ => false
                    end) h.

(** The unwinding that goes with the history [pre]: the loop is closed if
    [pre] opened it, then the tracker is torn down if [pre] set one up,
    then the channel is closed if [pre] got one, then the attributes of
    stdin are put back if [pre] changed them; nothing else, and in this
    order.  [m0] is the signal mask on entry, [rx] what the last
    tcsetattr answered. *)
Definition unwinding (d stdin_fd : Z) (m0 : sigset) (pre : list Event)
    (rx : Z) : list Event :=
  (if loop_opened d pre then close_loop d else [])
  ++ match tracker_of pre with
     | Some (p, sfd) => teardown_tracker p sfd m0
     | None => []
     end
  ++ match channel_of pre with
     | Some (tfd, mfd) => close_channel mfd tfd
     | None => []
     end
  ++ match raw_mode_of stdin_fd pre with
     | Some old => restore_termios stdin_fd old rx
     | None => []
     end.

(** The call whose answer made lxc_console leave, and the value it
    returns then. *)
Definition exit_point (c : lxc_container) (ttynum stdin_fd d : Z) (ret : Z)
    (e : Event) : Prop :=
  (ret = -1 /\ setup_refused stdin_fd e)
  \/ (ret < 0
      /\ exists tn mfd,
           e = EvCmdConsole (ct_name c) ttynum (config_path c) (ret, tn, mfd))
  \/ (ret = -1 /\ tracker_refused e)
  \/ (ret <> 0 /\ e = EvMainloopOpen d ret)
  \/ (exists p, loop_ended d p ret e).

Definition container0 : lxc_container := mk_container "c1" "/var/lib/lxc".
Definition os_loop_error : OS := with_mainloop (fun _ _ _ => -1) os_ok.

(** * The rest of console.c *)

(** [sizeof(struct signalfd_siginfo)], signalfd(2). *)
Definition sizeof_siginfo : Z := 128.

(** [size_t] is [unsigned long]: an [ssize_t] compared with a [size_t] is
    first converted to it. *)
Definition uint64 (z : Z) : Z := z mod 2 ^ 64.

Definition set_descr (c : lxc_console_t) (v : Z) :=
  mk_console (slave c) (master c) (peer c) (peerpty c) v (path c)
    (log_path c) (log_fd c) (name c) (tios c) (tty_state c).

Section ConsoleHandlers.

Variable os : OS.

(** The walk of lxc_console_sigwinch over the nodes of the registry. *)
Fixpoint winch_each (nodes : list Z) : M unit :=
  match nodes with
  | [] => ret tt
  | ts :: rest => lxc_console_winch os ts ;; winch_each rest
  end.

(** ** lxc_console_sigwinch (console.c:102) *)
Definition lxc_console_sigwinch (sig : Z) : M unit := fun w =>
  winch_each (lxc_ttys w) w.

(** ** lxc_console_cb_sigwinch_fd (console.c:113)

    [read(...) < sizeof(siginfo)] compares an [ssize_t] with a [size_t]. *)
Definition lxc_console_cb_sigwinch_fd (fd events cbdata d : Z) : M Z :=
  let ts := cbdata in
  got <- sys_read os fd sizeof_siginfo ;;
  if uint64 (read_count got) <? uint64 sizeof_siginfo then ret (-1)
  else
    lxc_console_winch os ts ;;
    ret 0.

(** ** lxc_console_mainloop_add (console.c:268)

    [handler->conf] is passed and returned; [d] is [descr]. *)
Definition lxc_console_mainloop_add (d : Z) (conf : lxc_conf)
  : M (Z * lxc_conf) :=
  let c := console conf in
  if negb (is_execute conf =? 0) then ret (0, conf)
  else if negb (bool_decide (is_Some (rootfs_path conf))) then ret (0, conf)
  else if master c <? 0 then ret (0, conf)
  else
    r <- lxc_mainloop_add_handler os d (master c) CbCon DataConsole ;;
    if negb (r =? 0) then ret (-1, conf)
    else
      let c := set_descr c d in
      lxc_console_mainloop_add_peer os c ;;
      ret (0, set_console conf c).

End ConsoleHandlers.

(** * Words for the further properties *)

(** The console is set up and nobody is attached to it: what
    lxc_console_peer_proxy_alloc asks for. *)
Definition console_available (c : lxc_console_t) : Prop :=
  0 <= master c /\ busy (peerpty c) = -1 /\ peer c = -1 /\ tty_state c = 0.

(** The console [c] attached to the proxy pty [(m, s)] named [nm] on
    behalf of [sockfd], with its tracker at [p]. *)
Definition attached (c : lxc_console_t) (m s : Z) (nm : string)
    (sockfd p : Z) : lxc_console_t :=
  mk_console (slave c) (master c) s (mk_pty_info nm m s sockfd) (descr c)
    (path c) (log_path c) (log_fd c) (name c) (tios c) p.

(** The handlers a history registered, oldest first, whatever the loop
    answered. *)
Definition registered (h : list Event) : list (Z * Z * callback * cbdata) :=
  omap (fun e => match e with
                 | EvMainloopAdd d fd cb data _ => Some (d, fd, cb, data)
                 | _ => None
                 end) h.

(** No slot is marked with [fd]. *)
Definition owns_no_tty (fd : Z) (l : list lxc_pty_info) : Prop :=
  forall j q, l !! j = Some q -> busy q <> fd.

(** A console that can be attached to, in a configuration with two ttys. *)
Definition conf_ready (b1 b2 : Z) : lxc_conf :=
  mk_conf 0 (Some "/var/lib/lxc/c1/rootfs"%string)
    (mk_tty_info 2 [slot 11 b1; slot 13 b2]) console_unattached.

(** An environment whose reads fail. *)
Definition os_read_fails : OS := with_read (fun _ _ _ => ReadFail) os_ok.

(** The descriptors a history asked isatty about, oldest first. *)
Definition probed (h : list Event) : list Z :=
  omap (fun e => match e with
                 | EvIsatty fd _ => Some fd
                 | _ => None
                 end) h.

(** The descriptors a history closed, oldest first. *)
Definition closed (h : list Event) : list Z :=
  omap (fun e => match e with
                 | EvClose fd => Some fd
                 | _ => None
                 end) h.

(** The calls of lxc_console_winch on the tracker [st], given the calls
    [esw] of its lxc_console_winsz. *)
Definition winch_events (st : lxc_tty_state) (esw : list Event) : list Event :=
  esw ++ match winch_proxy st with
         | Some _ =>
           [EvCmdConsoleWinch (winch_proxy st) (winch_proxy_lxcpath st)]
         | None => []
         end.

(** Every node of the registry is a live tracker. *)
Definition registry_live (w : World) : Prop :=
  Forall (fun p => is_Some (w_heap w !! p)) (lxc_ttys w).

(** The console as lxc_console_delete leaves it. *)
Definition deleted (c : lxc_console_t) : lxc_console_t :=
  mk_console (-1) (-1) (-1) (peerpty c) (descr c) (path c) (log_path c) (-1)
    (name c) None (tty_state c).

(** The configuration has no console to set up: lxc-execute, no rootfs,
    or console path "none". *)
Definition no_console (conf : lxc_conf) : Prop :=
  is_execute conf <> 0 \/ rootfs_path conf = None
  \/ path (console conf) = Some "none"%string.

(** A process with two trackers, for stdin 0 and for a proxy master 7. *)
Definition world_two_trackers : World :=
  mk_World [] winch_mask {[ 1 := attach_tracker; 2 := proxy_tracker ]} 3 [1; 2].

(** An environment whose reads deliver a whole signalfd_siginfo, and one
    whose reads are short. *)
Definition os_siginfo : OS :=
  with_read (fun _ _ _ => ReadBytes (replicate 128 0)) os_ok.
Definition os_short_read : OS :=
  with_read (fun _ _ _ => ReadBytes (replicate 16 0)) os_ok.

(** An environment in which no pty can be made, and configurations that
    are to have no console. *)
Definition os_no_pty : OS :=
  mk_OS (os_isatty os_ok) (os_tcgetattr os_ok) (os_tcsetattr os_ok)
    (os_getwinsz os_ok) (os_read os_ok) (os_write os_ok) (os_malloc os_ok)
    (os_sigblock os_ok) (os_signalfd os_ok) (fun _ => None) (os_access os_ok)
    (os_open os_ok) (os_open_unpriv os_ok) (os_fcntl os_ok)
    (os_mainloop_open os_ok) (os_mainloop_add os_ok) (os_mainloop os_ok)
    (os_cmd_console os_ok) (os_setsid os_ok).
Definition conf_execute : lxc_conf :=
  mk_conf 1 None (mk_tty_info 0 []) console_fresh.

(** What of the process outlives a call is the same in [w'] as in [w]:
    the signal mask, the trackers and the registry. *)
Definition same_process (w w' : World) : Prop :=
  w_sigmask w' = w_sigmask w
  /\ w_heap w' = w_heap w
  /\ lxc_ttys w' = lxc_ttys w.

(** [w'] is [w] after some more calls. *)
Definition extends (w w' : World) : Prop :=
  exists es, w_trace w' = w_trace w ++ es.

(** The calls of lxc_console_delete on the console [c] after the history
    [h]. *)
Definition delete_events (os : OS) (c : lxc_console_t) (h : list Event)
  : list Event :=
  match tios c with
  | Some t =>
    (if 0 <=? peer c
     then [EvTcsetattr (peer c) TCSAFLUSH t
             (os_tcsetattr os h (peer c) TCSAFLUSH t)]
     else [])
    ++ [EvFreeTios]
  | None => []
  end
  ++ [EvClose (peer c); EvClose (master c); EvClose (slave c)]
  ++ (if 0 <=? log_fd c then [EvClose (log_fd c)] else []).

(** An environment in which close-on-exec cannot be set. *)
Definition os_no_cloexec : OS :=
  mk_OS (os_isatty os_ok) (os_tcgetattr os_ok) (os_tcsetattr os_ok)
    (os_getwinsz os_ok) (os_read os_ok) (os_write os_ok) (os_malloc os_ok)
    (os_sigblock os_ok) (os_signalfd os_ok) (os_openpty os_ok)
    (os_access os_ok) (os_open os_ok) (os_open_unpriv os_ok) (fun _ _ => -1)
    (os_mainloop_open os_ok) (os_mainloop_add os_ok) (os_mainloop os_ok)
    (os_cmd_console os_ok) (os_setsid os_ok).

Section PeerDefault.

Variable os : OS.

(** The first lines of lxc_console_peer_default (console.c:483-495): the
    path of the file to open.  It is the path of the console if it has
    one; otherwise /dev/tty, if access finds it and it can be opened, the
    descriptor of this trial being closed at once; otherwise none. *)
Definition peer_default_path (c : lxc_console_t) : M (option string) :=
  let dev_tty := "/dev/tty"%string in
  match path c with
  | Some f => ret (Some f)
  | None =>
    a <- sys_access os dev_tty F_OK ;;
    if a =? 0 then
      fd <- sys_open os dev_tty ;;
      if 0 <=? fd then sys_close fd ;; ret (Some dev_tty)
      else ret None
    else ret None
  end.

End PeerDefault.

(** ** lxc_console_set_stdfds (console.c:614)

    dup2 is the one call of console.c for which the trace has no event,
    and this function makes no other call: its calls are kept in a list of
    their own, the pairs (oldfd, newfd), oldest first, and answered by
    [dup2] from the calls made before.  [||] evaluates left to right and
    stops at the first operand that holds. *)
Definition lxc_console_set_stdfds (dup2 : list (Z * Z) -> Z -> Z -> Z)
    (conf : lxc_conf) (h : list (Z * Z)) : Z * list (Z * Z) :=
  let c := console conf in
  if slave c <? 0 then (0, h)
  else
    let r0 := dup2 h (slave c) 0 in
    let h0 := h ++ [(slave c, 0)] in
    if r0 <? 0 then (-1, h0)
    else
      let r1 := dup2 h0 (slave c) 1 in
      let h1 := h0 ++ [(slave c, 1)] in
      if r1 <? 0 then (-1, h1)
      else
        let r2 := dup2 h1 (slave c) 2 in
        let h2 := h1 ++ [(slave c, 2)] in
        if r2 <? 0 then (-1, h2) else (0, h2).

(** The redirections of the standard descriptors to [s], in the order
    lxc_console_set_stdfds makes them. *)
Definition stdfds_onto (s : Z) : list (Z * Z) := [(s, 0); (s, 1); (s, 2)].

(** The calls of lxc_console_winsz from [srcfd] to [dstfd] after the
    history [h]: isatty on [srcfd]; if it is a tty, TIOCGWINSZ on it; if
    that gave a size, TIOCSWINSZ of this size on [dstfd]. *)
Definition winsz_events (os : OS) (h : list Event) (srcfd dstfd : Z)
  : list Event :=
  let tty := os_isatty os h srcfd in
  EvIsatty srcfd tty
  :: (if tty =? 0 then []
      else
        let got := os_getwinsz os (h ++ [EvIsatty srcfd tty]) srcfd in
        EvGetWinsz srcfd got
        :: match got with
           | Some wsz => [EvSetWinsz dstfd wsz]
           | None => []
           end).

(** The calls of lxc_console_winch on the tracker [st] after [h]: the size
    goes from its stdin to its master, then the proxy is told, if the
    tracker has one. *)
Definition propagation (os : OS) (h : list Event) (st : lxc_tty_state)
  : list Event :=
  winch_events st (winsz_events os h (stdinfd st) (masterfd st)).

(** The calls of a walk over the trackers [sts], each after the calls for
    the trackers before it. *)
Fixpoint walk_events (os : OS) (h : list Event) (sts : list lxc_tty_state)
  : list Event :=
  match sts with
  | [] => []
  | st :: rest =>
    propagation os h st ++ walk_events os (h ++ propagation os h st) rest
  end.

(** The trackers of the registry, in registry order. *)
Definition registered_trackers (w : World) : list lxc_tty_state :=
  omap (fun p => w_heap w !! p) (lxc_ttys w).

(** * Theorems *)

Lemma uint32_low a n : 0 <= n < 32 -> Z.testbit (uint32 a) n = Z.testbit a n.
Proof. intros Hn. unfold uint32. apply Z.mod_pow2_bits_low. lia. Qed.




(** What the two assignments to [c_iflag] amount to: only the BRKINT bit
    of the old word survives. *)
Lemma setup_tios_iflag word :
  uint32 (Z.land (uint32 (Z.land word (uint32 (Z.lnot IGNBRK)))) BRKINT)
  = Z.land word BRKINT.
Proof.
  apply Z.bits_inj'. intros n Hn.
  destruct (Z.eq_dec n 1) as [->|Hne].
  - rewrite uint32_low, !Z.land_spec, uint32_low, Z.land_spec, uint32_low
      by lia.
    rewrite Z.lnot_spec by lia. unfold IGNBRK, BRKINT. simpl.
    rewrite andb_true_r. reflexivity.
  - assert (Hb : Z.testbit BRKINT n = false).
    { unfold BRKINT. change 2 with (2 ^ 1). rewrite Z.pow2_bits_eqb by lia.
      apply Z.eqb_neq. lia. }
    rewrite Z.land_spec, Hb, andb_false_r.
    unfold uint32 at 1.
    destruct (Z.ltb_spec n 32).
    + rewrite Z.mod_pow2_bits_low, Z.land_spec, Hb by lia. apply andb_false_r.
    + apply Z.mod_pow2_bits_high. lia.
Qed.

(** Projections of a world built by the setters. *)
Ltac wsimpl :=
  cbn [w_trace w_sigmask w_heap w_brk lxc_ttys
       log_event set_sigmask set_heap set_brk set_ttys] in *.

(** Worlds in normal form: the setters unfolded, the projections of the
    resulting records computed, reads of cells just written resolved. *)
Ltac hsimpl :=
  repeat (progress
            (unfold log_event, set_sigmask, set_heap, set_brk, set_ttys;
             cbn [w_trace w_sigmask w_heap w_brk lxc_ttys];
             rewrite ?lookup_insert_eq)).

(** ** setup_tios *)




(** ** The pumps of the attach driver *)

Lemma take_read_buf (bs : list Z) :
  take (Z.to_nat (Z.of_nat (length bs))) bs = bs.
Proof. rewrite Nat2Z.id. apply firstn_all. Qed.

(** C3, as amended: lxc_console_cb_tty_master returns 1 ("terminate") when
    the read fails, and when the write to stdoutfd returns anything but the
    number of bytes read (an error or a short write); otherwise it returns
    0.  A read of no bytes is offered to stdoutfd like any other, and ends
    the loop only if that write does not return 0. *)
Theorem cb_tty_master_result (os : OS) (fd events p d : Z) (w : World)
    (st : lxc_tty_state) :
  w_heap w !! p = Some st ->
  fd = masterfd st ->
  let got := os_read os (w_trace w) fd 1024 in
  let e1 := EvRead fd 1024 got in
  match got with
  | ReadFail =>
    lxc_console_cb_tty_master os fd events p d w = Ok 1 (log_event e1 w)
  | ReadBytes bs =>
    let wr := os_write os (w_trace w ++ [e1]) (stdoutfd st) bs in
    lxc_console_cb_tty_master os fd events p d w
    = Ok (if wr =? Z.of_nat (length bs) then 0 else 1)
         (log_event (EvWrite (stdoutfd st) bs wr) (log_event e1 w))
  end.
Proof.
  intros Hp Hfd got e1.
  unfold lxc_console_cb_tty_master, bind, load, sys_read, sys_write, ret.
  rewrite Hp, <- Hfd, Z.eqb_refl. cbn [negb].
  fold got. fold e1. destruct got as [|bs] eqn:Hgot; cbn [read_count].
  - reflexivity.
  - destruct (Z.ltb_spec (Z.of_nat (length bs)) 0) as [Hneg|_]; [lia|].
    cbn [read_buf w_trace log_event]. rewrite take_read_buf.
    set (wr := os_write os (w_trace w ++ [e1]) (stdoutfd st) bs).
    destruct (Z.eqb_spec wr (Z.of_nat (length bs))) as [Heq|Hne].
    + assert ((wr <? 0) = false) as -> by (apply Z.ltb_ge; lia). reflexivity.
    + cbn [negb]. rewrite orb_true_r. reflexivity.
Qed.

Lemma cb_tty_master_result_witness :
  lxc_console_cb_tty_master os_ok 3 0 1 0 (world_tracker attach_tracker)
  = Ok 0 (log_event (EvWrite 0 [] 0)
            (log_event (EvRead 3 1024 (ReadBytes []))
               (world_tracker attach_tracker))).
Proof.
  apply (cb_tty_master_result os_ok 3 0 1 0 (world_tracker attach_tracker)
           attach_tracker).
  - reflexivity.
  - reflexivity.
Defined.

(** C3, as stated, fails at end of file: the read on the master returns 0
    bytes, the write of 0 bytes returns 0, and the handler returns 0
    ("keep the loop alive"). *)
Lemma cb_tty_master_eof_keeps_loop :
  os_read os_ok [] 3 1024 = ReadBytes []
  /\ res_value
       (lxc_console_cb_tty_master os_ok 3 0 1 0 (world_tracker attach_tracker))
     = Some 0.
Proof. split; reflexivity. Qed.

(** ** The console pump *)

(** C7: when the fd that became readable is the console master and the
    read delivered r > 0 bytes, lxc_console_cb_con offers all r bytes to
    log_fd when log_fd >= 0 and all r bytes to peer when peer >= 0, whatever
    any of the writes returns, and returns 0.  (If the peer is the master
    itself, the branch for the peer offers the same bytes to the master
    first.) *)
Theorem cb_con_fans_out (os : OS) (fd events d : Z) (c : lxc_console_t)
    (w : World) (bs : list Z) :
  fd = master c ->
  os_read os (w_trace w) fd 1024 = ReadBytes bs ->
  bs <> [] ->
  exists w',
    lxc_console_cb_con os fd events c d w = Ok 0 w'
    /\ offered (new_events w w')
       = (if fd =? peer c then [(master c, bs)] else [])
         ++ (if 0 <=? log_fd c then [(log_fd c, bs)] else [])
         ++ (if 0 <=? peer c then [(peer c, bs)] else []).
Proof.
  intros Hfd Hread Hbs.
  assert (Hlen : (0 < length bs)%nat) by (destruct bs; [congruence|simpl; lia]).
  unfold lxc_console_cb_con, bind, sys_read, sys_write, ret. rewrite Hread.
  cbn [read_count read_buf w_trace log_event]. rewrite take_read_buf.
  destruct (Z.ltb_spec (Z.of_nat (length bs)) 0) as [?|_]; [lia|].
  destruct (Z.eqb_spec (Z.of_nat (length bs)) 0) as [?|_]; [lia|].
  rewrite <- Hfd, Z.eqb_refl. unfold new_events.
  destruct (fd =? peer c), (0 <=? log_fd c), (0 <=? peer c).
  all: cbn [w_trace log_event].
  all: eexists; split; [reflexivity|].
  all: cbn [w_trace log_event].
  all: rewrite <- ?app_assoc, drop_app_length; reflexivity.
Qed.

Lemma cb_con_fans_out_witness :
  exists w',
    lxc_console_cb_con os_two_bytes 3 0 console_logged 20 world0 = Ok 0 w'
    /\ offered (new_events world0 w')
       = [(10, [104; 105]); (8, [104; 105])].
Proof.
  apply (cb_con_fans_out os_two_bytes 3 0 20 console_logged world0 [104; 105]).
  - reflexivity.
  - reflexivity.
  - discriminate.
Defined.

(** ** The stdin pump and its escape state machine *)

Lemma invoke_S (n : nat) (h : M Z) (w w1 : World) (r : Z) :
  h w = Ok r w1 ->
  invoke (S n) h w
  = match invoke n h w1 with
    | Ok rs w' => Ok (r :: rs) w'
    | Fault f w' => Fault f w'
    end.
Proof. intros H. cbn [invoke]. unfold bind at 1. rewrite H. reflexivity. Qed.

Lemma count_reads_app (fd : Z) (h l : list Event) :
  count_reads fd (h ++ l) = (count_reads fd h + count_reads fd l)%nat.
Proof. unfold count_reads. rewrite filter_app, length_app. reflexivity. Qed.

Lemma count_reads_read (fd n : Z) (res : read_result) :
  count_reads fd [EvRead fd n res] = 1%nat.
Proof.
  unfold count_reads. rewrite filter_cons_True; [reflexivity|].
  simpl. apply Z.eqb_refl.
Qed.

Lemma count_reads_other (fd : Z) (e : Event) :
  is_read_on fd e = false -> count_reads fd [e] = 0%nat.
Proof.
  intros H. unfold count_reads. rewrite filter_cons_False; [reflexivity|].
  rewrite H. discriminate.
Qed.

(** One invocation of lxc_console_cb_tty_stdin in an environment that
    feeds [input] to stdin: it consumes the next byte and moves the tracker
    along the escape state machine. *)
Lemma cb_tty_stdin_step (os : OS) (fd events p d : Z) (w : World)
    (st : lxc_tty_state) (input : list Z) (k : nat) (b : Z) :
  w_heap w !! p = Some st ->
  stdinfd st = fd ->
  count_reads fd (w_trace w) = k ->
  input !! k = Some b ->
  exists r w' st',
    lxc_console_cb_tty_stdin (feeding fd input os) fd events p d w = Ok r w'
    /\ w_heap w' !! p = Some st'
    /\ stdinfd st' = fd /\ escape st' = escape st
    /\ masterfd st' = masterfd st
    /\ count_reads fd (w_trace w') = S k
    /\ (exists evs, w_trace w' = w_trace w ++ evs
                    /\ stdin_transition os (w_trace w) fd b st st' r evs).
Proof.
  intros Hp Hfd Hk Hb.
  unfold lxc_console_cb_tty_stdin, bind, load, sys_read, sys_write, store, ret.
  rewrite Hp, Hfd, Z.eqb_refl. cbn [negb].
  cbn [feeding with_read os_read]. rewrite Z.eqb_refl, Hk, Hb.
  cbn [read_count read_buf length w_trace w_heap log_event set_heap].
  change (Z.of_nat 1 <? 0) with false. cbv iota.
  unfold stdin_transition.
  destruct ((char_of_byte b =? escape st) && (saw_escape st =? 0)) eqn:Hesc.
  - wsimpl. rewrite Hp.
    eexists _, _, _. split; [reflexivity|]. wsimpl.
    rewrite lookup_insert_eq. repeat split; try assumption.
    + rewrite count_reads_app, count_reads_read. lia.
    + eexists. split; [reflexivity|]. repeat split.
  - destruct ((char_of_byte b =? 113) && negb (saw_escape st =? 0)) eqn:Hq.
    + eexists _, _, _. split; [reflexivity|]. wsimpl.
      repeat split; try eassumption; try reflexivity.
      * rewrite count_reads_app, count_reads_read. lia.
      * eexists. split; [reflexivity|]. repeat split.
    + wsimpl. rewrite Hp. wsimpl.
      change (take (Z.to_nat 1) [b]) with [b].
      set (wr := os_write _ _ _ _).
      assert (Hrun : forall w1,
                 (if wr <? 0 then (fun w0 => Ok 1 w0) else (fun w0 => Ok 0 w0))
                   w1 = Ok (if wr <? 0 then 1 else 0) w1)
        by (intros w1; destruct (wr <? 0); reflexivity).
      rewrite Hrun.
      eexists _, _, _. split; [reflexivity|]. wsimpl.
      rewrite lookup_insert_eq. repeat split; try assumption.
      * rewrite !count_reads_app, count_reads_read.
        rewrite count_reads_other by reflexivity. lia.
      * eexists. split; [rewrite <- app_assoc; reflexivity|].
        split; [reflexivity|]. split; reflexivity.
Qed.

(** C1: a tracker with escape byte 1 and saw_escape clear, whose stdin
    delivers 0x01, 0x01, 'x', 0x01, 'q' one byte per read and whose writes to
    the master succeed.  Five invocations of lxc_console_cb_tty_stdin return
    0, 0, 0, 0 and 1; exactly two bytes are written to masterfd, 0x01 then
    'x'; the last invocation reads 'q' and writes nothing. *)
Theorem stdin_pump_escape_scenario (os : OS) (fd events p d : Z) (w : World)
    (st : lxc_tty_state) :
  w_heap w !! p = Some st ->
  stdinfd st = fd ->
  escape st = 1 ->
  saw_escape st = 0 ->
  count_reads fd (w_trace w) = 0%nat ->
  (forall h buf, 0 <= os_write os h (masterfd st) buf) ->
  exists w' w1 w2,
    invoke 5
      (lxc_console_cb_tty_stdin (feeding fd [1; 1; 120; 1; 113] os)
         fd events p d) w
    = Ok [0; 0; 0; 0; 1] w'
    /\ w_trace w'
       = w_trace w
         ++ [EvRead fd 1 (ReadBytes [1]);
             EvRead fd 1 (ReadBytes [1]); EvWrite (masterfd st) [1] w1;
             EvRead fd 1 (ReadBytes [120]); EvWrite (masterfd st) [120] w2;
             EvRead fd 1 (ReadBytes [1]);
             EvRead fd 1 (ReadBytes [113])]
    /\ offered (new_events w w') = [(masterfd st, [1]); (masterfd st, [120])].
Proof.
  intros Hp Hfd Hesc Hsaw Hk Hwr.
  set (input := [1; 1; 120; 1; 113]).
  destruct (cb_tty_stdin_step os fd events p d w st input 0 1 Hp Hfd Hk eq_refl)
    as (r1 & wa & sa & Ha & Hpa & Hfa & Hea & Hma & Hka & ev1 & Hta & Tr1).
  unfold stdin_transition in Tr1. rewrite Hesc, Hsaw in Tr1. cbn in Tr1.
  destruct Tr1 as (-> & -> & ->).
  destruct (cb_tty_stdin_step os fd events p d wa _ input 1 1 Hpa Hfa Hka eq_refl)
    as (r2 & wb & sb & Hb & Hpb & Hfb & Heb & Hmb & Hkb & ev2 & Htb & Tr2).
  unfold stdin_transition in Tr2. cbn in Tr2. rewrite Hesc in Tr2. cbn in Tr2.
  destruct Tr2 as (-> & -> & Hr2).
  rewrite (proj2 (Z.ltb_ge _ _) (Hwr _ _)) in Hr2. subst r2.
  cbn [masterfd set_saw_escape] in *.
  destruct (cb_tty_stdin_step os fd events p d wb _ input 2 120 Hpb Hfb Hkb eq_refl)
    as (r3 & wc & sc & Hc & Hpc & Hfc & Hec & Hmc & Hkc & ev3 & Htc & Tr3).
  unfold stdin_transition in Tr3. cbn in Tr3. rewrite Hesc in Tr3. cbn in Tr3.
  destruct Tr3 as (-> & -> & Hr3).
  rewrite (proj2 (Z.ltb_ge _ _) (Hwr _ _)) in Hr3. subst r3.
  cbn [masterfd set_saw_escape] in *.
  destruct (cb_tty_stdin_step os fd events p d wc _ input 3 1 Hpc Hfc Hkc eq_refl)
    as (r4 & wd & sd & Hd & Hpd & Hfd' & Hed & Hmd & Hkd & ev4 & Htd & Tr4).
  unfold stdin_transition in Tr4. cbn in Tr4. rewrite Hesc in Tr4. cbn in Tr4.
  destruct Tr4 as (-> & -> & ->).
  destruct (cb_tty_stdin_step os fd events p d wd _ input 4 113 Hpd Hfd' Hkd eq_refl)
    as (r5 & we & se & He & Hpe & Hfe & Hee & Hme & Hke & ev5 & Hte & Tr5).
  unfold stdin_transition in Tr5. cbn in Tr5. rewrite Hesc in Tr5. cbn in Tr5.
  destruct Tr5 as (-> & -> & ->).
  exists we. eexists _, _.
  split; [|split].
  - rewrite (invoke_S _ _ _ _ _ Ha), (invoke_S _ _ _ _ _ Hb),
      (invoke_S _ _ _ _ _ Hc), (invoke_S _ _ _ _ _ Hd),
      (invoke_S _ _ _ _ _ He).
    reflexivity.
  - rewrite Hte, Htd, Htc, Htb, Hta, <- !app_assoc. reflexivity.
  - unfold new_events.
    rewrite Hte, Htd, Htc, Htb, Hta, <- !app_assoc, drop_app_length.
    reflexivity.
Qed.

Lemma stdin_pump_escape_scenario_witness :
  exists w' w1 w2,
    invoke 5
      (lxc_console_cb_tty_stdin (feeding 0 [1; 1; 120; 1; 113] os_ok) 0 0 1 0)
      (world_tracker attach_tracker)
    = Ok [0; 0; 0; 0; 1] w'
    /\ w_trace w'
       = [EvRead 0 1 (ReadBytes [1]);
          EvRead 0 1 (ReadBytes [1]); EvWrite 3 [1] w1;
          EvRead 0 1 (ReadBytes [120]); EvWrite 3 [120] w2;
          EvRead 0 1 (ReadBytes [1]);
          EvRead 0 1 (ReadBytes [113])]
    /\ offered (new_events (world_tracker attach_tracker) w')
       = [(3, [1]); (3, [120])].
Proof.
  apply (stdin_pump_escape_scenario os_ok 0 0 1 0
           (world_tracker attach_tracker) attach_tracker).
  - reflexivity.
  - reflexivity.
  - reflexivity.
  - reflexivity.
  - reflexivity.
  - intros h buf. simpl. lia.
Defined.

(** ** lxc_console_allocate, any free tty *)

Lemma pty_at_lookup (ti : lxc_tty_info) (i : nat) (p : lxc_pty_info)
    (w : World) :
  pty_info ti !! i = Some p -> pty_at ti (Z.of_nat i + 1 - 1) w = Ok p w.
Proof.
  intros H. unfold pty_at.
  destruct (Z.ltb_spec (Z.of_nat i + 1 - 1) 0); [lia|].
  replace (Z.to_nat (Z.of_nat i + 1 - 1)) with i by lia.
  rewrite H. reflexivity.
Qed.

(** The search stops at the first free slot... *)
Lemma search_tty_free (ti : lxc_tty_info) (i : nat) (p : lxc_pty_info)
    (w : World) :
  tty_info_wf ti ->
  first_free (pty_info ti) i p ->
  forall (n k : nat), (k <= i)%nat -> (i - k < n)%nat ->
    search_tty n ti (Z.of_nat k + 1) w = Ok (Z.of_nat i + 1) w.
Proof.
  intros Hwf (Hi & Hfree & Hbefore).
  assert (Hlt : (i < length (pty_info ti))%nat) by (eapply lookup_lt_Some; eauto).
  induction n as [|n IH]; intros k Hk Hn; [lia|].
  cbn [search_tty].
  destruct (Z.leb_spec (Z.of_nat k + 1) (nbtty ti)) as [_|Hgt];
    [|unfold tty_info_wf in Hwf; lia].
  destruct (decide (k = i)) as [->|Hne].
  - unfold bind. rewrite (pty_at_lookup _ _ _ _ Hi), Hfree. reflexivity.
  - destruct (lookup_lt_is_Some_2 (pty_info ti) k) as [q Hq]; [lia|].
    unfold bind. rewrite (pty_at_lookup _ _ _ _ Hq).
    destruct (Z.eqb_spec (busy q) 0) as [Hz|_].
    + exfalso. apply (Hbefore k q); [lia|assumption|assumption].
    + cbn [negb]. replace (Z.of_nat k + 1 + 1) with (Z.of_nat (S k) + 1) by lia.
      apply IH; lia.
Qed.

(** ... and runs past the last slot when none is free. *)
Lemma search_tty_busy (ti : lxc_tty_info) (w : World) :
  tty_info_wf ti ->
  all_busy (pty_info ti) ->
  forall (n k : nat), (k <= length (pty_info ti))%nat ->
    (length (pty_info ti) - k <= n)%nat ->
    search_tty n ti (Z.of_nat k + 1) w
    = Ok (Z.of_nat (length (pty_info ti)) + 1) w.
Proof.
  intros Hwf Hbusy.
  induction n as [|n IH]; intros k Hk Hn.
  - cbn [search_tty]. unfold ret. do 2 f_equal. lia.
  - cbn [search_tty]. unfold tty_info_wf in Hwf.
    destruct (Z.leb_spec (Z.of_nat k + 1) (nbtty ti)) as [Hle|Hgt].
    + destruct (lookup_lt_is_Some_2 (pty_info ti) k) as [q Hq]; [lia|].
      unfold bind. rewrite (pty_at_lookup _ _ _ _ Hq).
      destruct (Z.eqb_spec (busy q) 0) as [Hz|_].
      * exfalso. apply (Hbusy k q); assumption.
      * cbn [negb].
        replace (Z.of_nat k + 1 + 1) with (Z.of_nat (S k) + 1) by lia.
        apply IH; lia.
    + unfold ret. do 2 f_equal. lia.
Qed.

Lemma search_tty_from_1_free (ti : lxc_tty_info) (i : nat) (p : lxc_pty_info)
    (w : World) :
  tty_info_wf ti ->
  first_free (pty_info ti) i p ->
  search_tty (Z.to_nat (nbtty ti)) ti 1 w = Ok (Z.of_nat i + 1) w.
Proof.
  intros Hwf Hfirst.
  assert (Hlt := lookup_lt_Some _ _ _ (proj1 Hfirst)).
  apply (search_tty_free ti i p w Hwf Hfirst _ 0%nat);
    unfold tty_info_wf in Hwf; lia.
Qed.

Lemma search_tty_from_1_busy (ti : lxc_tty_info) (w : World) :
  tty_info_wf ti ->
  all_busy (pty_info ti) ->
  search_tty (Z.to_nat (nbtty ti)) ti 1 w
  = Ok (Z.of_nat (length (pty_info ti)) + 1) w.
Proof.
  intros Hwf Hbusy.
  apply (search_tty_busy ti w Hwf Hbusy _ 0%nat);
    unfold tty_info_wf in Hwf; lia.
Qed.

(** lxc_console_allocate with a negative request and a free slot. *)
Lemma allocate_any_takes (os : OS) (conf : lxc_conf) (sockfd ttyreq : Z)
    (w : World) (i : nat) (p : lxc_pty_info) :
  ttyreq < 0 ->
  tty_info_wf (tty_info conf) ->
  first_free (pty_info (tty_info conf)) i p ->
  lxc_console_allocate os conf sockfd ttyreq w
  = Ok (pty_master p,
        set_tty_info conf
          (mk_tty_info (nbtty (tty_info conf))
             (<[i := set_busy p sockfd]> (pty_info (tty_info conf)))),
        Z.of_nat i + 1) w.
Proof.
  intros Hneg Hwf Hfirst.
  assert (Hi := proj1 Hfirst).
  assert (Hlt := lookup_lt_Some _ _ _ Hi).
  unfold lxc_console_allocate.
  rewrite (proj2 (Z.eqb_neq _ _)), (proj2 (Z.ltb_ge _ _)) by lia.
  unfold bind at 1.
  rewrite (search_tty_from_1_free _ i p w Hwf Hfirst).
  destruct (Z.ltb_spec (nbtty (tty_info conf)) (Z.of_nat i + 1)) as [Hgt|_];
    [unfold tty_info_wf in Hwf; lia|].
  unfold pty_set_busy, bind, ret.
  rewrite (pty_at_lookup _ _ _ _ Hi).
  replace (Z.to_nat (Z.of_nat i + 1 - 1)) with i by lia.
  rewrite (pty_at_lookup _ i (set_busy p sockfd))
    by (cbn [pty_info]; apply list_lookup_insert_eq; assumption).
  reflexivity.
Qed.

(** lxc_console_allocate with a negative request and no free slot. *)
Lemma allocate_any_refuses (os : OS) (conf : lxc_conf) (sockfd ttyreq : Z)
    (w : World) :
  ttyreq < 0 ->
  tty_info_wf (tty_info conf) ->
  all_busy (pty_info (tty_info conf)) ->
  lxc_console_allocate os conf sockfd ttyreq w = Ok (-1, conf, ttyreq) w.
Proof.
  intros Hneg Hwf Hbusy.
  unfold lxc_console_allocate.
  rewrite (proj2 (Z.eqb_neq _ _)), (proj2 (Z.ltb_ge _ _)) by lia.
  unfold bind at 1.
  rewrite (search_tty_from_1_busy _ w Hwf Hbusy).
  destruct (Z.ltb_spec (nbtty (tty_info conf))
              (Z.of_nat (length (pty_info (tty_info conf))) + 1)) as [_|Hle];
    [reflexivity | unfold tty_info_wf in Hwf; lia].
Qed.

(** C5: with *ttyreq negative, lxc_console_allocate takes the first slot,
    in index order, whose busy is 0: it stores the client socket fd in its
    busy, stores its 1-based index in *ttyreq and returns its master fd.
    When every slot is busy it returns -1 and leaves the configuration and
    *ttyreq as they were.  Neither case makes a call or touches the rest of
    the process state. *)
Theorem allocate_any_first_free (os : OS) (conf : lxc_conf)
    (sockfd ttyreq : Z) (w : World) :
  ttyreq < 0 ->
  tty_info_wf (tty_info conf) ->
  (forall i p,
      first_free (pty_info (tty_info conf)) i p ->
      lxc_console_allocate os conf sockfd ttyreq w
      = Ok (pty_master p,
            set_tty_info conf
              (mk_tty_info (nbtty (tty_info conf))
                 (<[i := set_busy p sockfd]> (pty_info (tty_info conf)))),
            Z.of_nat i + 1) w)
  /\ (all_busy (pty_info (tty_info conf)) ->
      lxc_console_allocate os conf sockfd ttyreq w = Ok (-1, conf, ttyreq) w).
Proof.
  intros Hneg Hwf. split.
  - intros i p Hfirst. apply allocate_any_takes; assumption.
  - intros Hbusy. apply allocate_any_refuses; assumption.
Qed.

Lemma allocate_any_first_free_witness :
  lxc_console_allocate os_ok (conf_two 5 0) 6 (-1) world0
  = Ok (13, conf_two 5 6, 2) world0.
Proof.
  refine (proj1 (allocate_any_first_free os_ok (conf_two 5 0) 6 (-1) world0 _ _)
            1%nat (slot 13 0) _).
  - lia.
  - reflexivity.
  - split; [reflexivity|]. split; [reflexivity|].
    intros j q Hj Hq. destruct j as [|j]; [|lia].
    injection Hq as <-. discriminate.
Defined.

(** Scenario S2 of the specification: with two ttys, two clients asking
    for any tty get 1 and 2, a third is refused, and after the first client
    has gone a fourth gets 1. *)
Example two_clients_any_tty :
  lxc_console_allocate os_ok (conf_two 0 0) 5 (-1) world0
  = Ok (11, conf_two 5 0, 1) world0
  /\ lxc_console_allocate os_ok (conf_two 5 0) 6 (-1) world0
     = Ok (13, conf_two 5 6, 2) world0
  /\ lxc_console_allocate os_ok (conf_two 5 6) 7 (-1) world0
     = Ok (-1, conf_two 5 6, -1) world0
  /\ lxc_console_free os_ok (conf_two 5 6) 5 world0
     = Ok (conf_two 0 6) world0
  /\ lxc_console_allocate os_ok (conf_two 0 6) 8 (-1) world0
     = Ok (11, conf_two 8 6, 1) world0.
Proof. repeat split. Qed.

(** ** The winsize tracker *)

Lemma filter_ne_id (p : Z) (l : list Z) :
  p ∉ l -> filter (fun q => q <> p) l = l.
Proof.
  induction l as [|x l IH]; intros Hp; [reflexivity|].
  apply not_elem_of_cons in Hp as [Hx Hl].
  rewrite filter_cons_True by congruence. rewrite IH by assumption.
  reflexivity.
Qed.

(** Unlinking the node that was linked in last restores the registry. *)
Lemma list_del_add_tail (p : Z) (l : list Z) :
  p ∉ l -> filter (fun q => q <> p) (l ++ [p]) = l.
Proof.
  intros Hp. rewrite filter_app, filter_ne_id by assumption.
  rewrite filter_cons_False by (intros H; apply H; reflexivity).
  apply app_nil_r.
Qed.

(** lxc_console_sigwinch_init in closed form: the four ways it can end. *)
Lemma sigwinch_init_eq (os : OS) (srcfd dstfd : Z) (w : World) :
  world_wf w ->
  let p := w_brk w in
  let h := w_trace w in
  let e1 := EvMalloc p in
  let r := os_sigblock os (h ++ [e1]) winch_mask in
  let e2 := EvSigprocmask SIG_BLOCK winch_mask 0 in
  let fd := os_signalfd os (h ++ [e1; e2]) in
  let e3 := EvSignalfd (-1) winch_mask 0 fd in
  lxc_console_sigwinch_init os srcfd dstfd w
  = if os_malloc os h then
      if r =? 0 then
        if fd <? 0 then
          Ok 0 (mk_World
                  (h ++ [e1; e2; e3;
                         EvSigprocmask SIG_SETMASK (w_sigmask w) 0; EvFree p])
                  (w_sigmask w) (w_heap w) (p + 1) (lxc_ttys w))
        else
          Ok p (mk_World (h ++ [e1; e2; e3])
                  (Z.lor (w_sigmask w) winch_mask)
                  (<[p := fresh_tracker srcfd dstfd fd (w_sigmask w)]>
                     (w_heap w))
                  (p + 1) (lxc_ttys w ++ [p]))
      else
        Ok 0 (mk_World
                (h ++ [e1; EvSigprocmask SIG_BLOCK winch_mask r; EvFree p])
                (w_sigmask w) (w_heap w) (p + 1) (lxc_ttys w))
    else
      Ok 0 (mk_World (h ++ [EvMalloc 0]) (w_sigmask w) (w_heap w) (w_brk w)
              (lxc_ttys w)).
Proof.
  intros [Hbrk Hfresh] p h e1 r e2 fd e3.
  destruct (Hfresh p) as [Hnone Hnotin]; [lia|].
  unfold lxc_console_sigwinch_init, bind at 1, malloc_tty_state.
  fold h. destruct (os_malloc os h); [|reflexivity].
  fold p. destruct (Z.eqb_spec p 0) as [?|_]; [lia|].
  unfold bind, store, load, lxc_list_add_tail, lxc_list_del, sys_sigprocmask,
    sys_signalfd, free_tty_state, ret.
  hsimpl.
  change (SIG_BLOCK =? SIG_SETMASK) with false. cbv iota.
  fold h e1 winch_mask r.
  destruct (Z.eqb_spec r 0) as [Hr|Hr]; cbn [fst snd].
  - change (0 =? 0) with true. cbn [negb]. hsimpl.
    rewrite <- !app_assoc. cbn [app]. fold h e2 fd e3.
    destruct (fd <? 0).
    + hsimpl.
      change (SIG_SETMASK =? SIG_SETMASK) with true. cbv iota. hsimpl.
      rewrite !insert_insert_eq, delete_insert_eq, delete_id by assumption.
      rewrite list_del_add_tail by assumption.
      rewrite <- !app_assoc. reflexivity.
    + rewrite !insert_insert_eq. reflexivity.
  - rewrite (proj2 (Z.eqb_neq _ _) Hr). cbn [negb]. hsimpl.
    rewrite !insert_insert_eq, delete_insert_eq, delete_id by assumption.
    rewrite list_del_add_tail by assumption.
    rewrite <- !app_assoc. reflexivity.
Qed.

(** lxc_console_sigwinch_init: NULL after a last event that says why, or a
    registered tracker with a signal descriptor. *)
Lemma sigwinch_init_cases (os : OS) (srcfd dstfd : Z) (w : World) :
  world_wf w ->
  (exists w' es e,
      lxc_console_sigwinch_init os srcfd dstfd w = Ok 0 w'
      /\ w_trace w' = w_trace w ++ es
      /\ last es = Some e /\ tracker_refused e)
  \/ (exists sfd,
         0 <= sfd
         /\ w_brk w <> 0
         /\ lxc_console_sigwinch_init os srcfd dstfd w
            = Ok (w_brk w)
                 (mk_World
                    (w_trace w
                     ++ [EvMalloc (w_brk w);
                         EvSigprocmask SIG_BLOCK winch_mask 0;
                         EvSignalfd (-1) winch_mask 0 sfd])
                    (Z.lor (w_sigmask w) winch_mask)
                    (<[w_brk w := fresh_tracker srcfd dstfd sfd (w_sigmask w)]>
                       (w_heap w))
                    (w_brk w + 1) (lxc_ttys w ++ [w_brk w]))).
Proof.
  intros Hwf. rewrite (sigwinch_init_eq os srcfd dstfd w Hwf). cbv zeta.
  destruct (os_malloc os (w_trace w)).
  - destruct (os_sigblock os _ winch_mask =? 0).
    + destruct (Z.ltb_spec (os_signalfd os
                   (w_trace w ++ [EvMalloc (w_brk w);
                                  EvSigprocmask SIG_BLOCK winch_mask 0])) 0)
        as [Hneg|Hpos].
      * left. eexists _, _, _. split; [reflexivity|]. cbn [w_trace].
        split; [reflexivity|]. split; [reflexivity|]. right. eauto.
      * right. eexists. split; [exact Hpos|].
        split; [destruct Hwf; lia|reflexivity].
    + left. eexists _, _, _. split; [reflexivity|]. cbn [w_trace].
      split; [reflexivity|]. split; [reflexivity|]. right. eauto.
  - left. eexists _, _, _. split; [reflexivity|]. cbn [w_trace].
    split; [reflexivity|]. split; [reflexivity|]. left. reflexivity.
Qed.

(** C6: when lxc_console_sigwinch_init fails after it has allocated and
    registered the tracker, nothing of it is left.  If blocking SIGWINCH is
    refused, the node is unlinked again, the signal mask was never changed
    and no mask is set; if signalfd fails, the mask saved by the block is
    set again and the node is unlinked.  In both cases the tracker is freed
    (the heap is what it was) and NULL is returned. *)
Theorem sigwinch_init_rolls_back (os : OS) (srcfd dstfd : Z) (w : World) :
  world_wf w ->
  os_malloc os (w_trace w) = true ->
  let p := w_brk w in
  let e1 := EvMalloc p in
  let r := os_sigblock os (w_trace w ++ [e1]) winch_mask in
  let e2 := EvSigprocmask SIG_BLOCK winch_mask 0 in
  let fd := os_signalfd os (w_trace w ++ [e1; e2]) in
  (r <> 0 ->
   exists w',
     lxc_console_sigwinch_init os srcfd dstfd w = Ok 0 w'
     /\ lxc_ttys w' = lxc_ttys w
     /\ w_sigmask w' = w_sigmask w
     /\ w_heap w' = w_heap w
     /\ w_heap w' !! p = None
     /\ new_events w w' = [e1; EvSigprocmask SIG_BLOCK winch_mask r; EvFree p])
  /\ (r = 0 -> fd < 0 ->
      exists w',
        lxc_console_sigwinch_init os srcfd dstfd w = Ok 0 w'
        /\ lxc_ttys w' = lxc_ttys w
        /\ w_sigmask w' = w_sigmask w
        /\ w_heap w' = w_heap w
        /\ w_heap w' !! p = None
        /\ new_events w w'
           = [e1; e2; EvSignalfd (-1) winch_mask 0 fd;
              EvSigprocmask SIG_SETMASK (w_sigmask w) 0; EvFree p]).
Proof.
  intros Hwf Hmalloc p e1 r e2 fd.
  assert (Hnone : w_heap w !! p = None) by (apply Hwf; unfold p; lia).
  pose proof (sigwinch_init_eq os srcfd dstfd w Hwf) as Heq.
  cbv zeta in Heq. rewrite Hmalloc in Heq. fold p e1 r e2 fd in Heq.
  split.
  - intros Hr. rewrite (proj2 (Z.eqb_neq _ _) Hr) in Heq.
    eexists. split; [exact Heq|].
    unfold new_events. cbn [w_trace w_sigmask w_heap lxc_ttys].
    rewrite drop_app_length. repeat split; assumption.
  - intros Hr Hfd. rewrite Hr in Heq. change (0 =? 0) with true in Heq.
    rewrite (proj2 (Z.ltb_lt _ _) Hfd) in Heq.
    eexists. split; [exact Heq|].
    unfold new_events. cbn [w_trace w_sigmask w_heap lxc_ttys].
    rewrite drop_app_length. repeat split; assumption.
Qed.

Lemma world_busy_wf : world_wf world_busy.
Proof.
  split; [reflexivity|]. intros p Hp. cbn in Hp. split.
  - apply lookup_singleton_ne. lia.
  - cbn. intros H. apply list_elem_of_singleton in H. lia.
Defined.

Lemma sigwinch_init_rolls_back_witness :
  (exists w',
      lxc_console_sigwinch_init os_block_refused 0 3 world_busy = Ok 0 w'
      /\ lxc_ttys w' = [1]
      /\ w_sigmask w' = 2
      /\ w_heap w' = w_heap world_busy
      /\ w_heap w' !! 2 = None
      /\ new_events world_busy w'
         = [EvMalloc 2; EvSigprocmask SIG_BLOCK winch_mask (-1); EvFree 2])
  /\ (exists w',
         lxc_console_sigwinch_init os_no_signalfd 0 3 world_busy = Ok 0 w'
         /\ lxc_ttys w' = [1]
         /\ w_sigmask w' = 2
         /\ w_heap w' = w_heap world_busy
         /\ w_heap w' !! 2 = None
         /\ new_events world_busy w'
            = [EvMalloc 2; EvSigprocmask SIG_BLOCK winch_mask 0;
               EvSignalfd (-1) winch_mask 0 (-1);
               EvSigprocmask SIG_SETMASK 2 0; EvFree 2]).
Proof.
  split.
  - refine (proj1 (sigwinch_init_rolls_back os_block_refused 0 3 world_busy
                     world_busy_wf eq_refl) _).
    simpl. lia.
  - refine (proj2 (sigwinch_init_rolls_back os_no_signalfd 0 3 world_busy
                     world_busy_wf eq_refl) _ _).
    + reflexivity.
    + simpl. lia.
Defined.

(** lxc_console_sigwinch_fini in closed form. *)
Lemma sigwinch_fini_eq (os : OS) (ts : Z) (w : World) (st : lxc_tty_state) :
  w_heap w !! ts = Some st ->
  lxc_console_sigwinch_fini os ts w
  = Ok tt (mk_World
             (w_trace w
              ++ (if 0 <=? sigfd st then [EvClose (sigfd st)] else [])
              ++ [EvSigprocmask SIG_SETMASK (oldmask st) 0; EvFree ts])
             (oldmask st) (delete ts (w_heap w)) (w_brk w)
             (filter (fun q => q <> ts) (lxc_ttys w))).
Proof.
  intros Hts.
  unfold lxc_console_sigwinch_fini, bind, load, sys_close, lxc_list_del,
    sys_sigprocmask, free_tty_state, ret.
  rewrite Hts.
  change (SIG_SETMASK =? SIG_SETMASK) with true. cbv iota.
  destruct (0 <=? sigfd st); hsimpl; rewrite Hts; hsimpl; rewrite Hts;
    rewrite <- ?app_assoc; reflexivity.
Qed.

(** ** lxc_console_free *)

Lemma pty_at_Z (ti : lxc_tty_info) (i : nat) (p : lxc_pty_info) (w : World) :
  pty_info ti !! i = Some p -> pty_at ti (Z.of_nat i) w = Ok p w.
Proof.
  intros H. unfold pty_at. destruct (Z.ltb_spec (Z.of_nat i) 0); [lia|].
  rewrite Nat2Z.id, H. reflexivity.
Qed.

Lemma insert_middle {A} (l1 l2 : list A) (x y : A) :
  <[length l1 := x]> (l1 ++ y :: l2) = l1 ++ x :: l2.
Proof.
  rewrite <- (Nat.add_0_r (length l1)). rewrite insert_app_r. reflexivity.
Qed.

(** The loop of lxc_console_free, started at slot [length done]. *)
Lemma free_ttys_from (N fd : Z) (w : World) (rest done : list lxc_pty_info) :
  free_ttys (length rest) (mk_tty_info N (done ++ rest))
    (Z.of_nat (length done)) fd w
  = Ok (mk_tty_info N (done ++ (release fd <$> rest))) w.
Proof.
  revert done. induction rest as [|p rest IH]; intros done; [reflexivity|].
  cbn [free_ttys length]. unfold bind at 1.
  rewrite (pty_at_Z _ _ p) by (cbn; apply list_lookup_middle; reflexivity).
  assert (Hstep : forall q,
             mk_tty_info N (done ++ q :: rest)
             = mk_tty_info N ((done ++ [q]) ++ rest))
    by (intros q; rewrite <- app_assoc; reflexivity).
  assert (Hnext : Z.of_nat (length done) + 1 = Z.of_nat (length (done ++ [p])))
    by (rewrite length_app; cbn; lia).
  rewrite fmap_cons. unfold release at 1. unfold bind.
  destruct (busy p =? fd).
  - unfold pty_set_busy, bind, ret.
    rewrite (pty_at_Z _ _ p) by (cbn; apply list_lookup_middle; reflexivity).
    rewrite Nat2Z.id. cbn [pty_info nbtty].
    rewrite insert_middle. rewrite Hstep.
    replace (Z.of_nat (length done) + 1)
      with (Z.of_nat (length (done ++ [set_busy p 0])))
      by (rewrite length_app; cbn; lia).
    rewrite IH, <- app_assoc. reflexivity.
  - unfold ret. rewrite Hstep, Hnext, IH, <- app_assoc. reflexivity.
Qed.

Lemma free_ttys_eq (ti : lxc_tty_info) (fd : Z) (w : World) :
  tty_info_wf ti ->
  free_ttys (Z.to_nat (nbtty ti)) ti 0 fd w = Ok (released fd ti) w.
Proof.
  intros Hwf. unfold tty_info_wf in Hwf. rewrite Hwf, Nat2Z.id.
  destruct ti as [N l]. cbn [pty_info nbtty] in *.
  apply (free_ttys_from N fd w l []).
Qed.

(** Releasing twice is releasing once. *)
Lemma release_idem (fd : Z) (p : lxc_pty_info) :
  release fd (release fd p) = release fd p.
Proof.
  unfold release. destruct (Z.eqb_spec (busy p) fd) as [E|E].
  - cbn [busy set_busy]. destruct (0 =? fd); reflexivity.
  - rewrite (proj2 (Z.eqb_neq _ _) E). reflexivity.
Qed.

Lemma released_idem (fd : Z) (ti : lxc_tty_info) :
  released fd (released fd ti) = released fd ti.
Proof.
  unfold released. cbn [nbtty pty_info]. f_equal.
  rewrite <- list_fmap_compose. apply list_fmap_ext. intros i p _.
  apply release_idem.
Qed.

Lemma released_wf (fd : Z) (ti : lxc_tty_info) :
  tty_info_wf ti -> tty_info_wf (released fd ti).
Proof.
  unfold tty_info_wf, released. cbn [nbtty pty_info].
  rewrite length_fmap. trivial.
Qed.

(** lxc_console_peer_proxy_free in closed form. *)
Lemma peer_proxy_free_eq (os : OS) (c : lxc_console_t) (w : World) :
  tracker_live c w ->
  lxc_console_peer_proxy_free os c w
  = Ok (proxy_cleared c)
       (log_events [EvClose (pty_master (peerpty c));
                    EvClose (pty_slave (peerpty c))]
          match console_tracker c w with
          | Some st => after_fini (tty_state c) st w
          | None => w
          end).
Proof.
  intros Hlive. unfold lxc_console_peer_proxy_free, console_tracker.
  unfold bind at 1.
  destruct (Z.eqb_spec (tty_state c) 0) as [Hz|Hnz]; cbn [negb].
  - unfold bind, sys_close, ret. hsimpl. unfold log_events, proxy_cleared.
    destruct c; cbn in *. subst. rewrite <- app_assoc. reflexivity.
  - destruct (Hlive Hnz) as [st Hst]. rewrite Hst.
    unfold bind at 1. rewrite (sigwinch_fini_eq os _ _ st Hst).
    unfold bind, sys_close, ret. hsimpl.
    unfold log_events, after_fini, fini_events.
    cbn [w_trace w_sigmask w_heap w_brk lxc_ttys].
    rewrite <- !app_assoc. destruct c; reflexivity.
Qed.

(** lxc_console_free in closed form. *)
Lemma console_free_eq (os : OS) (conf : lxc_conf) (fd : Z) (w : World) :
  tty_info_wf (tty_info conf) ->
  tracker_live (console conf) w ->
  let c := console conf in
  let conf1 := set_tty_info conf (released fd (tty_info conf)) in
  lxc_console_free os conf fd w
  = if busy (peerpty c) =? fd then
      Ok (set_console conf1 (proxy_cleared c))
         (log_events [EvClose (pty_master (peerpty c));
                      EvClose (pty_slave (peerpty c))]
            match console_tracker c w with
            | Some st =>
              after_fini (tty_state c) st
                (log_event (EvMainloopDel (descr c) (pty_slave (peerpty c))) w)
            | None =>
              log_event (EvMainloopDel (descr c) (pty_slave (peerpty c))) w
            end)
    else Ok conf1 w.
Proof.
  intros Hwf Hlive c conf1.
  unfold lxc_console_free. unfold bind at 1. rewrite (free_ttys_eq _ _ _ Hwf).
  cbn [console set_tty_info]. fold c.
  destruct (busy (peerpty c) =? fd); [|reflexivity].
  unfold bind, lxc_mainloop_del_handler.
  rewrite peer_proxy_free_eq by exact Hlive.
  unfold console_tracker. hsimpl. reflexivity.
Qed.

(** C8: lxc_console_free applied a second time with the same fd returns
    the configuration the first application left, so no slot's busy field
    changes; and for a client descriptor (any fd but -1, which is no
    descriptor) the second application makes no call at all: the proxy
    teardown does not run again. *)
Theorem free_idempotent (os : OS) (conf : lxc_conf) (fd : Z) (w : World) :
  tty_info_wf (tty_info conf) ->
  tracker_live (console conf) w ->
  exists conf1 w1,
    lxc_console_free os conf fd w = Ok conf1 w1
    /\ exists w2,
         lxc_console_free os conf1 fd w1 = Ok conf1 w2
         /\ (fd <> -1 -> w2 = w1).
Proof.
  intros Hwf Hlive.
  rewrite (console_free_eq os conf fd w Hwf Hlive). cbv zeta.
  set (c := console conf).
  set (conf1 := set_tty_info conf (released fd (tty_info conf))).
  assert (Hwf1 : forall c', tty_info_wf (tty_info (set_console conf1 c')))
    by (intros c'; apply released_wf; exact Hwf).
  destruct (Z.eqb_spec (busy (peerpty c)) fd) as [Hown|Hother].
  - eexists _, _. split; [reflexivity|].
    rewrite console_free_eq;
      [| apply Hwf1 | intros Hts; cbn in Hts; congruence].
    cbv zeta. cbn [console set_console proxy_cleared peerpty busy].
    destruct (Z.eqb_spec (-1) fd) as [Hm|Hm].
    + eexists. split; [|intros; congruence].
      f_equal. unfold conf1.
      cbn [set_console set_tty_info tty_info is_execute rootfs_path console].
      rewrite released_idem. reflexivity.
    + eexists. split; [|reflexivity].
      f_equal. unfold conf1.
      cbn [set_console set_tty_info tty_info is_execute rootfs_path console].
      rewrite released_idem. reflexivity.
  - eexists _, _. split; [reflexivity|].
    rewrite console_free_eq; [| apply (released_wf fd _ Hwf) | exact Hlive].
    cbv zeta. unfold conf1 at 1. cbn [console set_tty_info]. fold c.
    rewrite (proj2 (Z.eqb_neq _ _) Hother).
    eexists. split; [|reflexivity].
    f_equal. unfold conf1.
    cbn [set_console set_tty_info tty_info is_execute rootfs_path console].
    rewrite released_idem. reflexivity.
Qed.

Lemma world_attached_live (b1 b2 : Z) :
  tracker_live (console (conf_attached b1 b2)) world_attached.
Proof. intros _. exists proxy_tracker. reflexivity. Defined.

Lemma free_idempotent_witness :
  exists conf1 w1,
    lxc_console_free os_ok (conf_attached 5 6) 5 world_attached = Ok conf1 w1
    /\ exists w2,
         lxc_console_free os_ok conf1 5 w1 = Ok conf1 w2
         /\ (5 <> -1 -> w2 = w1).
Proof.
  apply (free_idempotent os_ok (conf_attached 5 6) 5 world_attached).
  - reflexivity.
  - apply world_attached_live.
Defined.

(** C10: on a configuration whose console has no proxy client
    (peerpty.busy == -1), lxc_console_free with fd == -1 takes the console
    branch and runs the whole proxy teardown: it deregisters peerpty.slave
    from the loop, finishes the console's tracker if it has one, closes
    peerpty.master and peerpty.slave and resets peer and the peerpty fields
    to -1.  Nothing restricts fd to descriptors. *)
Theorem free_minus_one_tears_down (os : OS) (conf : lxc_conf) (w : World) :
  tty_info_wf (tty_info conf) ->
  tracker_live (console conf) w ->
  busy (peerpty (console conf)) = -1 ->
  exists w',
    lxc_console_free os conf (-1) w
    = Ok (set_console (set_tty_info conf (released (-1) (tty_info conf)))
            (proxy_cleared (console conf))) w'
    /\ new_events w w'
       = teardown_events (console conf) (console_tracker (console conf) w).
Proof.
  intros Hwf Hlive Hbusy.
  rewrite (console_free_eq os conf (-1) w Hwf Hlive). cbv zeta.
  rewrite Hbusy. change (-1 =? -1) with true. cbv iota.
  eexists. split; [reflexivity|].
  unfold new_events, teardown_events, log_events.
  destruct (console_tracker (console conf) w) as [st|];
    unfold after_fini, log_event; cbn [w_trace];
    rewrite <- !app_assoc, drop_app_length; reflexivity.
Qed.

Lemma free_minus_one_tears_down_witness :
  exists w',
    lxc_console_free os_ok (conf_two 5 0) (-1) world0
    = Ok (set_console (conf_two 5 0) (proxy_cleared console_unattached)) w'
    /\ new_events world0 w' = [EvMainloopDel 20 (-1); EvClose (-1); EvClose (-1)].
Proof.
  apply (free_minus_one_tears_down os_ok (conf_two 5 0) world0).
  - reflexivity.
  - intros H. exfalso. apply H. reflexivity.
  - reflexivity.
Defined.

(** ** The console invariant *)

Lemma log_event_events (e : Event) (es : list Event) (w : World) :
  log_event e (log_events es w) = log_events (es ++ [e]) w.
Proof. unfold log_event, log_events. cbn. rewrite <- app_assoc. reflexivity. Qed.

Lemma log_event_single (e : Event) (w : World) :
  log_event e w = log_events [e] w.
Proof. reflexivity. Qed.

Lemma world_wf_log_events (es : list Event) (w : World) :
  world_wf w -> world_wf (log_events es w).
Proof. intros H. exact H. Qed.

(** setup_tios always returns, and only adds to the trace. *)
Lemma setup_tios_total (os : OS) (fd : Z) (w : World) :
  exists r es, setup_tios os fd w = Ok r (log_events es w).
Proof.
  unfold setup_tios, bind, sys_isatty, sys_tcgetattr, sys_tcsetattr, ret.
  destruct (os_isatty os (w_trace w) fd =? 0).
  - eexists _, _. rewrite log_event_single. reflexivity.
  - rewrite log_event_single.
    destruct (os_tcgetattr os _ fd) as [old|].
    + rewrite !log_event_events.
      match goal with |- context [if ?b then _ else _] => destruct b end;
        eexists _, _; reflexivity.
    + rewrite !log_event_events. eexists _, _. reflexivity.
Qed.

(** The invariant holds of a console the proxy teardown has cleared. *)
Lemma proxy_cleared_inv (c : lxc_console_t) : console_inv (proxy_cleared c).
Proof.
  unfold console_inv. cbn. split; [lia|]. intros [_ H]. congruence.
Qed.

(** lxc_console_peer_proxy_alloc always returns; it either leaves the
    console alone, or leaves it cleared, or attaches it: tracker, peer and
    owner are set together. *)
Lemma peer_proxy_alloc_spec (os : OS) (c : lxc_console_t) (sockfd : Z)
    (w : World) :
  world_wf w ->
  exists r c' w',
    lxc_console_peer_proxy_alloc os c sockfd w = Ok (r, c') w'
    /\ ((r = -1 /\ (c' = c \/ exists c0, c' = proxy_cleared c0))
        \/ (r = 0
            /\ tty_state c' <> 0
            /\ peer c' = pty_slave (peerpty c')
            /\ busy (peerpty c') = sockfd
            /\ is_Some (w_heap w' !! tty_state c'))).
Proof.
  intros Hwf. unfold lxc_console_peer_proxy_alloc.
  destruct (master c <? 0); [eexists _, _, _; split; [reflexivity|]; auto|].
  destruct (negb (busy (peerpty c) =? -1) || negb (peer c =? -1));
    [eexists _, _, _; split; [reflexivity|]; auto|].
  destruct (Z.eqb_spec (tty_state c) 0) as [Hnull|_]; cbn [negb];
    [|eexists _, _, _; split; [reflexivity|]; auto].
  unfold bind at 1, process_lock. unfold bind at 1, sys_openpty.
  unfold bind at 1, process_unlock.
  rewrite (log_event_single EvProcessLock), !log_event_events. cbn [app].
  destruct (os_openpty os _) as [[[m s] nm]|];
    [|eexists _, _, _; split; [reflexivity|]; auto].
  set (c1 := set_peerpty c _).
  assert (Hlive1 : forall w0, tracker_live c1 w0)
    by (intros w0 H; cbn in H; congruence).
  match goal with |- context [log_events ?es w] => set (es0 := es) end.
  destruct (setup_tios_total os (pty_slave (peerpty c1)) (log_events es0 w))
    as (rt & es1 & Htios).
  unfold bind at 1. rewrite Htios.
  destruct (fst rt <? 0).
  - unfold bind, ret. rewrite peer_proxy_free_eq by apply Hlive1.
    eexists _, _, _. split; [reflexivity|]. left. eauto.
  - unfold bind at 1.
    destruct (sigwinch_init_cases os (pty_master (peerpty c1)) (master c1)
                (log_events es1 (log_events es0 w)) Hwf)
      as [(w1 & es & e & Hrun & _)|(sfd & Hsfd & Hbrk & Hrun)];
      rewrite Hrun; clear Hrun.
    + change (0 =? 0) with true. cbv iota.
      unfold bind, ret. rewrite peer_proxy_free_eq by apply Hlive1.
      eexists _, _, _. split; [reflexivity|]. left. eauto.
    + pose proof (proj2 (Z.eqb_neq _ _) Hbrk) as Hp. rewrite Hp.
      unfold lxc_console_mainloop_add_peer, bind, ret,
        lxc_mainloop_add_handler, load.
      cbn [tty_state set_peerpty set_peer set_tty_state peer peerpty].
      rewrite Hp. cbn [negb].
      destruct (0 <=? pty_slave (peerpty c1)); hsimpl;
        (eexists _, _, _; split; [reflexivity|]; right;
         cbn [tty_state set_peerpty set_peer set_tty_state peer peerpty busy
              set_busy pty_slave];
         hsimpl;
         repeat split; [exact Hbrk | eauto]).
Qed.

(** The invariant survives lxc_console_peer_proxy_alloc on behalf of a
    client descriptor. *)
Lemma peer_proxy_alloc_inv (os : OS) (c : lxc_console_t) (sockfd : Z)
    (w : World) :
  world_wf w -> 0 <= sockfd -> console_inv c ->
  exists r c' w',
    lxc_console_peer_proxy_alloc os c sockfd w = Ok (r, c') w'
    /\ console_inv c'.
Proof.
  intros Hwf Hfd Hinv.
  destruct (peer_proxy_alloc_spec os c sockfd w Hwf)
    as (r & c' & w' & Hrun & Hcases).
  exists r, c', w'. split; [exact Hrun|].
  destruct Hcases as [[_ [->|[c0 ->]]]|(_ & Hts & Hpeer & Hbusy & _)].
  - exact Hinv.
  - apply proxy_cleared_inv.
  - unfold console_inv. rewrite Hbusy. split; [auto|intros _; exact Hfd].
Qed.

Lemma pty_at_in_range (ti : lxc_tty_info) (i : Z) :
  0 <= i < Z.of_nat (length (pty_info ti)) ->
  exists p, pty_info ti !! Z.to_nat i = Some p
            /\ forall w, pty_at ti i w = Ok p w.
Proof.
  intros Hi.
  destruct (lookup_lt_is_Some_2 (pty_info ti) (Z.to_nat i)) as [p Hp]; [lia|].
  exists p. split; [exact Hp|]. intros w. unfold pty_at.
  destruct (Z.ltb_spec i 0); [lia|]. rewrite Hp. reflexivity.
Qed.

(** A list of slots has a first free slot or none. *)
Lemma first_free_or_all_busy (l : list lxc_pty_info) :
  (exists i p, first_free l i p) \/ all_busy l.
Proof.
  destruct (list_find (fun p => busy p = 0) l) as [[i p]|] eqn:Hfind.
  - left. exists i, p. apply list_find_Some in Hfind as (Hi & Hp & Hbefore).
    repeat split; [exact Hi | exact Hp |].
    intros j q Hj Hq. exact (Hbefore j q Hq Hj).
  - right. intros j q Hq. apply list_find_None in Hfind.
    rewrite Forall_lookup in Hfind. exact (Hfind j q Hq).
Qed.

(** The invariant is preserved by lxc_console_allocate on behalf of a
    client descriptor, whatever is requested; the call always returns. *)
Lemma allocate_preserves_inv (os : OS) (conf : lxc_conf) (sockfd ttyreq : Z)
    (w : World) :
  world_wf w ->
  tty_info_wf (tty_info conf) ->
  0 <= sockfd ->
  console_inv (console conf) ->
  exists m conf' t' w',
    lxc_console_allocate os conf sockfd ttyreq w = Ok (m, conf', t') w'
    /\ console_inv (console conf').
Proof.
  intros Hw Hwf Hfd Hinv.
  destruct (Z.lt_trichotomy ttyreq 0) as [Hneg|[Hzero|Hpos]].
  - destruct (first_free_or_all_busy (pty_info (tty_info conf)))
      as [(i & p & Hfirst)|Hall].
    + eexists _, _, _, _.
      split; [apply (allocate_any_takes os conf sockfd ttyreq w i p);
              assumption|exact Hinv].
    + eexists _, _, _, _.
      split; [apply allocate_any_refuses; assumption|exact Hinv].
  - subst ttyreq. unfold lxc_console_allocate. change (0 =? 0) with true.
    cbv iota.
    destruct (peer_proxy_alloc_inv os (console conf) sockfd w Hw Hfd Hinv)
      as (r & c' & w' & Hrun & Hinv').
    unfold bind. rewrite Hrun. cbn [fst snd].
    destruct (r <? 0); eexists _, _, _, _; (split; [reflexivity|exact Hinv']).
  - unfold lxc_console_allocate.
    rewrite (proj2 (Z.eqb_neq _ _)) by lia.
    rewrite (proj2 (Z.ltb_lt _ _) Hpos).
    destruct (Z.ltb_spec (nbtty (tty_info conf)) ttyreq) as [Hout|Hin];
      [eexists _, _, _, _; split; [reflexivity|exact Hinv]|].
    destruct (pty_at_in_range (tty_info conf) (ttyreq - 1)) as (p & Hp & Hat);
      [unfold tty_info_wf in Hwf; lia|].
    unfold bind at 1. rewrite Hat.
    destruct (busy p =? 0); cbn [negb];
      [|eexists _, _, _, _; split; [reflexivity|exact Hinv]].
    unfold pty_set_busy, bind, ret. rewrite Hat.
    unfold pty_at. destruct (Z.ltb_spec (ttyreq - 1) 0); [lia|].
    cbn [pty_info]. rewrite list_lookup_insert_eq by (eapply lookup_lt_Some; eauto).
    eexists _, _, _, _. split; [reflexivity|exact Hinv].
Qed.

(** The invariant is preserved, indeed established, by lxc_console_free. *)
Lemma free_preserves_inv (os : OS) (conf : lxc_conf) (fd : Z) (w : World) :
  tty_info_wf (tty_info conf) ->
  tracker_live (console conf) w ->
  console_inv (console conf) ->
  exists conf' w',
    lxc_console_free os conf fd w = Ok conf' w'
    /\ console_inv (console conf').
Proof.
  intros Hwf Hlive Hinv.
  rewrite (console_free_eq os conf fd w Hwf Hlive). cbv zeta.
  destruct (busy (peerpty (console conf)) =? fd); eexists _, _;
    (split; [reflexivity|]).
  - apply proxy_cleared_inv.
  - exact Hinv.
Qed.

(** The invariant holds of the console before lxc_console_create. *)
Lemma console_fresh_inv : console_inv (console conf_fresh).
Proof. unfold console_inv. cbn. split; [lia|]. intros [_ H]. congruence. Qed.

(** C9 fails after console creation.  The console is to mirror to a
    terminal; the terminal is opened and its tracker installed, then
    setup_tios fails (the kernel refuses tcsetattr).  The error exit of
    lxc_console_peer_default closes the peer and sets peer to -1, but
    leaves tty_state pointing to the tracker, which stays registered with
    SIGWINCH blocked; lxc_console_create returns 0.  Now peerpty.busy is -1
    although peer == peerpty.slave and the console has a tracker, and every
    later request for the console is turned down. *)
Lemma console_create_leaks_tracker :
  let run := lxc_console_create os_tcset_refused conf_fresh world0 in
  exists conf',
    res_value run = Some (0, conf')
    /\ busy (peerpty (console conf')) = -1
    /\ peer (console conf') = pty_slave (peerpty (console conf'))
    /\ tty_state (console conf') = 1
    /\ w_heap (res_world run) !! 1 = Some (fresh_tracker 6 7 9 0)
    /\ lxc_ttys (res_world run) = [1]
    /\ ~ console_inv (console conf')
    /\ res_value (lxc_console_allocate os_ok conf' 5 0 (res_world run))
       = Some (-1, conf', 0).
Proof.
  cbv zeta. eexists. split; [vm_compute; reflexivity|].
  repeat split; try reflexivity.
  unfold console_inv. cbn. intros [_ H].
  assert (Hneg : 0 <= -1) by (apply H; split; [reflexivity|discriminate]).
  lia.
Qed.

(** ** The attach driver *)

Lemma err1_trace (os : OS) (fd : Z) (old : termios) (r : Z) (w : World) :
  exists w' rx,
    lxc_console_err1 os fd old r w = Ok r w'
    /\ w_trace w' = w_trace w ++ restore_termios fd old rx.
Proof.
  unfold lxc_console_err1, bind, sys_tcsetattr, ret.
  eexists _, _. split; reflexivity.
Qed.

Lemma err2_trace (os : OS) (fd : Z) (old : termios) (mfd tfd r : Z)
    (w : World) :
  exists w' rx,
    lxc_console_err2 os fd old mfd tfd r w = Ok r w'
    /\ w_trace w'
       = w_trace w ++ close_channel mfd tfd ++ restore_termios fd old rx.
Proof.
  unfold lxc_console_err2, bind at 1, sys_close. unfold bind at 1.
  destruct (err1_trace os fd old r
              (log_event (EvClose tfd) (log_event (EvClose mfd) w)))
    as (w' & rx & Hrun & Htr).
  exists w', rx. split; [exact Hrun|].
  rewrite Htr. cbn [w_trace log_event]. rewrite <- !app_assoc. reflexivity.
Qed.

Lemma err3_trace (os : OS) (fd : Z) (old : termios) (mfd tfd ts r : Z)
    (w : World) (st : lxc_tty_state) :
  w_heap w !! ts = Some st ->
  0 <= sigfd st ->
  exists w' rx,
    lxc_console_err3 os fd old mfd tfd ts r w = Ok r w'
    /\ w_trace w'
       = w_trace w ++ teardown_tracker ts (sigfd st) (oldmask st)
                   ++ close_channel mfd tfd ++ restore_termios fd old rx.
Proof.
  intros Hts Hfd. unfold lxc_console_err3, bind.
  rewrite (sigwinch_fini_eq os ts w st Hts).
  destruct (err2_trace os fd old mfd tfd r
              (mk_World
                 (w_trace w
                  ++ (if 0 <=? sigfd st then [EvClose (sigfd st)] else [])
                  ++ [EvSigprocmask SIG_SETMASK (oldmask st) 0; EvFree ts])
                 (oldmask st) (delete ts (w_heap w)) (w_brk w)
                 (filter (fun q => q <> ts) (lxc_ttys w))))
    as (w' & rx & Hrun & Htr).
  exists w', rx. split; [exact Hrun|].
  rewrite Htr. cbn [w_trace].
  rewrite (proj2 (Z.leb_le _ _) Hfd), <- !app_assoc. reflexivity.
Qed.

Lemma err4_trace (os : OS) (fd : Z) (old : termios) (mfd tfd ts d r : Z)
    (w : World) (st : lxc_tty_state) :
  w_heap w !! ts = Some st ->
  0 <= sigfd st ->
  exists w' rx,
    lxc_console_err4 os fd old mfd tfd ts d r w = Ok r w'
    /\ w_trace w'
       = w_trace w ++ close_loop d
                   ++ teardown_tracker ts (sigfd st) (oldmask st)
                   ++ close_channel mfd tfd ++ restore_termios fd old rx.
Proof.
  intros Hts Hfd. unfold lxc_console_err4, bind, lxc_mainloop_close.
  destruct (err3_trace os fd old mfd tfd ts r
              (log_event (EvMainloopClose d) w) st Hts Hfd)
    as (w' & rx & Hrun & Htr).
  exists w', rx. split; [exact Hrun|].
  rewrite Htr. cbn [w_trace log_event]. rewrite <- !app_assoc. reflexivity.
Qed.

(** setup_tios: refused, or the three calls that put the terminal in raw
    mode. *)
Lemma setup_tios_cases (os : OS) (fd : Z) (w : World) :
  exists r es,
    setup_tios os fd w = Ok r (log_events es w)
    /\ ((fst r = -1 /\ exists e, last es = Some e /\ setup_refused fd e)
        \/ exists tty old t,
             r = (0, Some old)
             /\ es = [EvIsatty fd tty; EvTcgetattr fd (Some old);
                      EvTcsetattr fd TCSAFLUSH t 0]).
Proof.
  unfold setup_tios, bind, sys_isatty, sys_tcgetattr, sys_tcsetattr, ret.
  destruct (Z.eqb_spec (os_isatty os (w_trace w) fd) 0) as [Htty|Htty].
  - eexists _, _. rewrite log_event_single. split; [reflexivity|].
    left. split; [reflexivity|]. eexists. split; [reflexivity|].
    left. congruence.
  - rewrite log_event_single.
    destruct (os_tcgetattr os _ fd) as [old|].
    + rewrite !log_event_events. cbn [app].
      match goal with |- context [if ?b =? 0 then _ else _] =>
        destruct (Z.eqb_spec b 0) as [Hr|Hr] end.
      * eexists _, _. split; [reflexivity|]. right.
        eexists _, _, _. split; [reflexivity|]. rewrite Hr. reflexivity.
      * eexists _, _. split; [reflexivity|]. left. split; [reflexivity|].
        eexists. split; [reflexivity|]. right. right. eauto.
    + rewrite !log_event_events. cbn [app].
      eexists _, _. split; [reflexivity|]. left. split; [reflexivity|].
      eexists. split; [reflexivity|]. right. left. reflexivity.
Qed.

(** lxc_console_winsz: one, two or three calls; only the trace grows. *)
Lemma winsz_cases (os : OS) (srcfd dstfd : Z) (w : World) :
  exists es,
    lxc_console_winsz os srcfd dstfd w = Ok tt (log_events es w)
    /\ ((exists r, es = [EvIsatty srcfd r])
        \/ (exists r, es = [EvIsatty srcfd r; EvGetWinsz srcfd None])
        \/ (exists r z, es = [EvIsatty srcfd r; EvGetWinsz srcfd (Some z);
                              EvSetWinsz dstfd z])).
Proof.
  unfold lxc_console_winsz, bind, sys_isatty, sys_getwinsz, sys_setwinsz, ret.
  destruct (os_isatty os (w_trace w) srcfd =? 0).
  - eexists. rewrite log_event_single. split; [reflexivity|]. eauto.
  - rewrite log_event_single.
    destruct (os_getwinsz os _ srcfd) as [z|];
      rewrite !log_event_events; cbn [app];
      eexists; (split; [reflexivity|]); eauto.
Qed.

(** The trace of a world built by logging, as the old trace and what was
    added. *)
Ltac trace_eq :=
  unfold log_event, log_events; cbn [w_trace]; rewrite <- ?app_assoc;
  reflexivity.


(** Histories in one shape everywhere: the old trace, then the events
    added, written out. *)
Ltac flat :=
  unfold log_event, log_events in *; cbn [w_trace] in *;
  rewrite <- ?app_assoc in *; cbn [app] in *.

(** One call that returns a status: the case of a refusal, then the case
    of success with the status rewritten to 0. *)
Ltac on_status call :=
  flat;
  match goal with
  | |- context [negb (?r =? 0)] =>
    match r with
    | context [call] =>
      let H := fresh "Hstatus" in
      destruct (Z.eqb_spec r 0) as [H|H]; cbn [negb]; cbv beta iota;
      [rewrite ?H|]
    end
  end.

(** setup_tios and lxc_console_sigwinch_init with their calls written
    out. *)
Lemma setup_tios_calls (os : OS) (fd : Z) (w : World) :
  exists r es,
    setup_tios os fd w = Ok r (log_events es w)
    /\ ((fst r = -1 /\ es = [EvIsatty fd 0])
        \/ (fst r = -1 /\ exists tty, es = [EvIsatty fd tty; EvTcgetattr fd None])
        \/ (fst r = -1
            /\ exists tty old t rr,
                 rr <> 0
                 /\ es = [EvIsatty fd tty; EvTcgetattr fd (Some old);
                          EvTcsetattr fd TCSAFLUSH t rr])
        \/ exists tty old t,
             r = (0, Some old)
             /\ es = [EvIsatty fd tty; EvTcgetattr fd (Some old);
                      EvTcsetattr fd TCSAFLUSH t 0]).
Proof.
  unfold setup_tios, bind, sys_isatty, sys_tcgetattr, sys_tcsetattr, ret.
  destruct (Z.eqb_spec (os_isatty os (w_trace w) fd) 0) as [Htty|Htty].
  - eexists _, _. rewrite log_event_single, Htty. split; [reflexivity|].
    left. split; reflexivity.
  - rewrite log_event_single.
    destruct (os_tcgetattr os _ fd) as [old|].
    + rewrite !log_event_events. cbn [app].
      match goal with |- context [if ?b =? 0 then _ else _] =>
        destruct (Z.eqb_spec b 0) as [Hr|Hr] end.
      * eexists _, _. split; [reflexivity|]. right. right. right.
        eexists _, _, _. split; [reflexivity|]. rewrite Hr. reflexivity.
      * eexists _, _. split; [reflexivity|]. right. right. left.
        split; [reflexivity|]. eexists _, _, _, _. split; [exact Hr|].
        reflexivity.
    + rewrite !log_event_events. cbn [app].
      eexists _, _. split; [reflexivity|]. right. left.
      split; [reflexivity|]. eexists. reflexivity.
Qed.

Lemma sigwinch_init_calls (os : OS) (srcfd dstfd : Z) (w : World) :
  world_wf w ->
  (exists w' es,
      lxc_console_sigwinch_init os srcfd dstfd w = Ok 0 w'
      /\ w_trace w' = w_trace w ++ es
      /\ (es = [EvMalloc 0]
          \/ (exists p r, r <> 0
                /\ es = [EvMalloc p; EvSigprocmask SIG_BLOCK winch_mask r;
                         EvFree p])
          \/ (exists p sfd m, sfd < 0
                /\ es = [EvMalloc p; EvSigprocmask SIG_BLOCK winch_mask 0;
                         EvSignalfd (-1) winch_mask 0 sfd;
                         EvSigprocmask SIG_SETMASK m 0; EvFree p])))
  \/ (exists sfd,
         0 <= sfd
         /\ w_brk w <> 0
         /\ lxc_console_sigwinch_init os srcfd dstfd w
            = Ok (w_brk w)
                 (mk_World
                    (w_trace w
                     ++ [EvMalloc (w_brk w);
                         EvSigprocmask SIG_BLOCK winch_mask 0;
                         EvSignalfd (-1) winch_mask 0 sfd])
                    (Z.lor (w_sigmask w) winch_mask)
                    (<[w_brk w := fresh_tracker srcfd dstfd sfd (w_sigmask w)]>
                       (w_heap w))
                    (w_brk w + 1) (lxc_ttys w ++ [w_brk w]))).
Proof.
  intros Hwf. rewrite (sigwinch_init_eq os srcfd dstfd w Hwf). cbv zeta.
  destruct (os_malloc os (w_trace w)).
  2: { left. eexists _, _. split; [reflexivity|]. split; [reflexivity|].
       left. reflexivity. }
  destruct (Z.eqb_spec (os_sigblock os (w_trace w ++ [EvMalloc (w_brk w)])
                          winch_mask) 0) as [_|Hr].
  2: { left. eexists _, _. split; [reflexivity|]. split; [reflexivity|].
       right. left. eexists _, _. split; [exact Hr|reflexivity]. }
  match goal with |- context [os_signalfd os ?h] =>
    destruct (Z.ltb_spec (os_signalfd os h) 0) as [Hneg|Hsfd]
  end.
  { left. eexists _, _. split; [reflexivity|]. split; [reflexivity|].
    right. right. eexists _, _, _. split; [exact Hneg|reflexivity]. }
  right. eexists. split; [exact Hsfd|]. split; [destruct Hwf; lia|].
  reflexivity.
Qed.

(** The unwinding that goes with a history, computed: the tests on the
    events of the history are settled by what is known of their answers. *)
Ltac settle :=
  repeat match goal with
         | H : 0 <= ?x |- context [0 <=? ?x] =>
           rewrite (proj2 (Z.leb_le 0 x) H)
         | H : ?x < 0 |- context [0 <=? ?x] =>
           rewrite (proj2 (Z.leb_gt 0 x) H)
         | H : ?x <> 0 |- context [?x =? 0] =>
           rewrite (proj2 (Z.eqb_neq x 0) H)
         | |- context [?x =? ?x] => rewrite (Z.eqb_refl x)
         end.

Ltac unwind :=
  unfold unwinding, loop_opened, tracker_of, channel_of, raw_mode_of;
  repeat (progress (cbn [existsb omap list_omap head andb orb app]; settle));
  try reflexivity.

(** The events of a run that left at once, and of one that left through
    a label. *)
Lemma leave_at (w w' : World) (pre cl : list Event) :
  w_trace w' = w_trace w ++ pre -> cl = [] -> new_events w w' = pre ++ cl.
Proof.
  intros Htr ->. rewrite app_nil_r. unfold new_events. rewrite Htr.
  apply drop_app_length.
Qed.

Lemma leave_through (w W w' : World) (pre cl cl' : list Event) :
  w_trace w' = w_trace W ++ cl' ->
  w_trace W = w_trace w ++ pre ->
  cl = cl' ->
  new_events w w' = pre ++ cl.
Proof.
  intros Htr HW ->. unfold new_events. rewrite Htr, HW, <- app_assoc.
  apply drop_app_length.
Qed.

Ltac exit3 Hsfd :=
  flat;
  match goal with
  | |- context [lxc_console_err3 ?o ?fd ?old ?m ?t ?p ?r ?W] =>
    let w' := fresh "w'" in
    let rx := fresh "rx" in
    let Hrun := fresh "Hrun" in
    let Htr := fresh "Htr" in
    edestruct (err3_trace o fd old m t p r W) as (w' & rx & Hrun & Htr);
    [cbn [w_heap]; apply lookup_insert_eq | exact Hsfd |];
    rewrite Hrun; clear Hrun;
    eexists _, _, _, _, rx; split; [reflexivity|];
    split; [eapply leave_through; [exact Htr|trace_eq|unwind]|];
    split; [cbn [app]; reflexivity|];
    right; right; right; left; split; [assumption|reflexivity]
  end.

Ltac exit4 Hsfd :=
  flat;
  match goal with
  | |- context [lxc_console_err4 ?o ?fd ?old ?m ?t ?p ?d ?r ?W] =>
    let w' := fresh "w'" in
    let rx := fresh "rx" in
    let Hrun := fresh "Hrun" in
    let Htr := fresh "Htr" in
    edestruct (err4_trace o fd old m t p d r W) as (w' & rx & Hrun & Htr);
    [cbn [w_heap]; apply lookup_insert_eq | exact Hsfd |];
    rewrite Hrun; clear Hrun;
    eexists _, _, _, _, rx; split; [reflexivity|];
    split; [eapply leave_through; [exact Htr|trace_eq|unwind]|];
    split; [cbn [app]; reflexivity|];
    right; right; right; right; exists p;
    first [left; reflexivity
          | right; eexists _, _; split; [eassumption|reflexivity]]
  end.

(** C4, as amended: lxc_console gives back exactly what it has acquired,
    in the reverse order of acquisition.  Its calls are a set-up [pre],
    which ends with the call whose answer made it leave, followed by the
    unwinding that goes with [pre] and by nothing else: the event loop is
    closed first, if [pre] opened it; then the tracker is torn down, if
    [pre] set it up; then the master fd and the command-channel fd are
    closed, if [pre] got them; then the termios of stdin are restored, if
    [pre] changed them.  What [pre] did not acquire is not released, and
    what it acquired is, on every exit. *)
Theorem lxc_console_unwinds (os : OS) (c : lxc_container)
    (ttynum stdin_fd stdout_fd stderr_fd escape_byte d : Z) (w : World) :
  world_wf w ->
  exists ret w' pre e rx,
    lxc_console os c ttynum stdin_fd stdout_fd stderr_fd escape_byte d w
    = Ok ret w'
    /\ new_events w w' = pre ++ unwinding d stdin_fd (w_sigmask w) pre rx
    /\ last pre = Some e
    /\ exit_point c ttynum stdin_fd d ret e.
Proof.
  intros Hwf.
  unfold lxc_console, bind, sys_isatty, lxc_cmd_console, print_banner,
    sys_setsid, load, store, lxc_cmd_console_winch, lxc_mainloop_open,
    lxc_mainloop_add_handler, lxc_mainloop, ret, raise.
  destruct (Z.eqb_spec (os_isatty os (w_trace w) stdin_fd) 0) as [Htty|Htty].
  { eexists _, _, _, _, 0. split; [reflexivity|].
    split; [eapply leave_at; [trace_eq|unwind]|].
    split; [reflexivity|]. left. split; [reflexivity|].
    left. rewrite Htty. reflexivity. }
  match goal with |- context [setup_tios os ?fd ?W] =>
    destruct (setup_tios_calls os fd W)
      as (rt & es & Hrun
          & [(Hrt & ->)|[(Hrt & tty & ->)
            |[(Hrt & tty & old & t & rr & Hrr & ->)
             |(tty & old & t & -> & ->)]]]);
    rewrite Hrun; clear Hrun
  end.
  1-3: rewrite Hrt; change (negb (-1 =? 0)) with true; cbv iota.
  1-3: eexists _, _, _, _, 0; (split; [reflexivity|]).
  1-3: split; [eapply leave_at; [trace_eq|unwind]|].
  1-3: split; [reflexivity|]; left; (split; [reflexivity|]).
  { left. reflexivity. }
  { right. left. reflexivity. }
  { right. right. eauto. }
  cbn [fst snd]. change (negb (0 =? 0)) with false. cbv beta iota zeta.
  match goal with |- context [os_cmd_console os ?h ?n ?t ?l] =>
    destruct (os_cmd_console os h n t l) as [[tfd tn] mfd] eqn:Hcmd
  end.
  destruct (Z.ltb_spec tfd 0) as [Hneg|Hpos].
  { match goal with |- context [lxc_console_err1 os ?fd ?o ?r ?W] =>
      destruct (err1_trace os fd o r W) as (w' & rx & Hrun & Htr);
      rewrite Hrun; clear Hrun
    end.
    eexists _, _, _, _, rx. split; [reflexivity|].
    split; [eapply leave_through; [exact Htr|trace_eq|unwind]|].
    split; [reflexivity|]. right. left. split; [exact Hneg|]. eauto. }
  match goal with |- context [lxc_console_sigwinch_init os ?s ?m ?W] =>
    set (W0 := W);
    destruct (sigwinch_init_calls os s m W0 Hwf)
      as [(w1 & es & Hrun & Htr1
           & [->|[(p & r & Hr & ->)|(p & sfd & m1 & Hsfd & ->)]])
         |(sfd & Hsfd & Hbrk & Hrun)];
    rewrite Hrun; clear Hrun
  end.
  1-3: change (0 =? 0) with true; cbv iota.
  1-3: destruct (err2_trace os stdin_fd old mfd tfd (-1) w1)
         as (w' & rx & Hrun & Htr); rewrite Hrun; clear Hrun.
  1-3: eexists _, _, _, _, rx; (split; [reflexivity|]).
  1-3: split; [eapply leave_through;
                [exact Htr|rewrite Htr1; unfold W0; trace_eq|unwind]|].
  1-3: split; [cbn [app]; reflexivity|].
  1-3: right; right; left; (split; [reflexivity|]).
  { left. reflexivity. }
  { right. eauto. }
  { right. eauto. }
  rewrite (proj2 (Z.eqb_neq _ _) Hbrk). cbv beta iota.
  change (w_brk W0) with (w_brk w) in *.
  change (w_sigmask W0) with (w_sigmask w) in *.
  set (p := w_brk w) in *.
  hsimpl. rewrite !insert_insert_eq.
  set (st := set_winch_proxy_lxcpath _ _).
  assert (Hst_fd : 0 <= sigfd st) by exact Hsfd.
  match goal with |- context [lxc_console_winsz os ?s ?m ?W] =>
    destruct (winsz_cases os s m W) as (esw & Hrun & Hcases);
    rewrite Hrun; clear Hrun
  end.
  unfold log_events. hsimpl. subst W0.
  destruct Hcases as [(r1 & ->)|[(r1 & ->)|(r1 & z & ->)]].
  all: on_status os_mainloop_open; [|exit3 Hst_fd].
  all: hsimpl; on_status os_mainloop_add; [|exit4 Hst_fd].
  all: hsimpl; on_status os_mainloop_add; [|exit4 Hst_fd].
  all: hsimpl; on_status os_mainloop_add; [|exit4 Hst_fd].
  all: on_status os_mainloop; exit4 Hst_fd.
Qed.

Lemma world0_wf : world_wf world0.
Proof.
  split; [reflexivity|]. intros p Hp. split.
  - apply lookup_empty.
  - apply not_elem_of_nil.
Defined.

Lemma lxc_console_unwinds_witness :
  exists ret w' pre e rx,
    lxc_console os_loop_error container0 0 0 1 2 1 100 world0 = Ok ret w'
    /\ new_events world0 w' = pre ++ unwinding 100 0 0 pre rx
    /\ last pre = Some e
    /\ exit_point container0 0 0 100 ret e.
Proof.
  exact (lxc_console_unwinds os_loop_error container0 0 0 1 2 1 100 world0
           world0_wf).
Defined.

(** C4, as stated, fails: after full setup, when the loop returns an
    error, the first thing lxc_console does is close the event loop; the
    tracker is torn down after that (its signal descriptor closed, the mask
    restored, the tracker freed), then the master fd and the
    command-channel fd are closed and the termios restored. *)
Lemma lxc_console_closes_loop_first :
  let run := lxc_console os_loop_error container0 0 0 1 2 1 100 world0 in
  res_value run = Some (-1)
  /\ drop 18 (w_trace (res_world run))
     = [EvMainloop 100 (-1) (-1);
        EvMainloopClose 100;
        EvClose 9; EvSigprocmask SIG_SETMASK 0 0; EvFree 1;
        EvClose 3; EvClose 4;
        EvTcsetattr 0 TCSAFLUSH termios0 0].
Proof. split; reflexivity. Qed.

(** * Further properties of console.c *)

(** ** Trackers: set-up, tear-down and the round trip *)

(** X1: a tracker lxc_console_sigwinch_init returns is a fresh, live
    tracker: it carries the two descriptors given, a signal descriptor that
    is not negative and the signal mask found on entry; it is linked in at
    the end of the registry, SIGWINCH is blocked, no other signal's blocking
    changes, and no other tracker is touched. *)
Theorem sigwinch_init_success (os : OS) (srcfd dstfd : Z) (w w1 : World)
    (p : Z) :
  world_wf w ->
  lxc_console_sigwinch_init os srcfd dstfd w = Ok p w1 ->
  p <> 0 ->
  w_heap w !! p = None
  /\ (p ∉ lxc_ttys w)
  /\ (exists sfd,
         0 <= sfd
         /\ w_heap w1 !! p
            = Some (mk_tty_state srcfd 0 dstfd 0 0 None None sfd (w_sigmask w)))
  /\ (forall q, q <> p -> w_heap w1 !! q = w_heap w !! q)
  /\ lxc_ttys w1 = lxc_ttys w ++ [p]
  /\ Z.testbit (w_sigmask w1) (SIGWINCH - 1) = true
  /\ (forall n, 0 <= n -> n <> SIGWINCH - 1 ->
                Z.testbit (w_sigmask w1) n = Z.testbit (w_sigmask w) n).
Proof.
  intros Hwf Hrun Hp.
  destruct (sigwinch_init_cases os srcfd dstfd w Hwf)
    as [(w' & es & e & Hnull & _)|(sfd & Hsfd & Hbrk & Hok)].
  { rewrite Hnull in Hrun. congruence. }
  rewrite Hok in Hrun. injection Hrun as <- <-.
  destruct Hwf as [Hpos Hfresh]. destruct (Hfresh (w_brk w)) as [Hnone Hnotin];
    [lia|].
  cbn [w_heap lxc_ttys w_sigmask].
  split; [exact Hnone|]. split; [exact Hnotin|].
  split; [exists sfd; split; [exact Hsfd|apply lookup_insert_eq]|].
  split; [intros q Hq; apply lookup_insert_ne; congruence|].
  split; [reflexivity|].
  change winch_mask with (2 ^ 27). change (SIGWINCH - 1) with 27.
  split.
  - rewrite Z.lor_spec, Z.pow2_bits_true by lia. apply orb_true_r.
  - intros n Hn Hne.
    rewrite Z.lor_spec, Z.pow2_bits_false by lia. apply orb_false_r.
Qed.

Lemma sigwinch_init_success_witness :
  w_heap world_busy !! 2 = None
  /\ (2 ∉ lxc_ttys world_busy)
  /\ (exists sfd,
         0 <= sfd
         /\ w_heap (res_world (lxc_console_sigwinch_init os_ok 0 3 world_busy))
              !! 2
            = Some (mk_tty_state 0 0 3 0 0 None None sfd 2))
  /\ (forall q, q <> 2 ->
        w_heap (res_world (lxc_console_sigwinch_init os_ok 0 3 world_busy)) !! q
        = w_heap world_busy !! q)
  /\ lxc_ttys (res_world (lxc_console_sigwinch_init os_ok 0 3 world_busy))
     = [1; 2]
  /\ Z.testbit
       (w_sigmask (res_world (lxc_console_sigwinch_init os_ok 0 3 world_busy)))
       (SIGWINCH - 1) = true
  /\ (forall n, 0 <= n -> n <> SIGWINCH - 1 ->
        Z.testbit
          (w_sigmask
             (res_world (lxc_console_sigwinch_init os_ok 0 3 world_busy))) n
        = Z.testbit 2 n).
Proof.
  apply (sigwinch_init_success os_ok 0 3 world_busy _ 2 world_busy_wf).
  - vm_compute. reflexivity.
  - lia.
Defined.

(** X2: lxc_console_sigwinch_fini on a live tracker closes its signal
    descriptor (when it has one), sets the signal mask the tracker saved,
    unlinks its node and frees it: afterwards the tracker is neither in the
    registry nor in the heap, and the other nodes, in their order, and the
    other trackers are as before. *)
Theorem sigwinch_fini_removes (os : OS) (ts : Z) (w : World)
    (st : lxc_tty_state) :
  w_heap w !! ts = Some st ->
  exists w',
    lxc_console_sigwinch_fini os ts w = Ok tt w'
    /\ w_heap w' !! ts = None
    /\ (ts ∉ lxc_ttys w')
    /\ (forall q, q <> ts -> w_heap w' !! q = w_heap w !! q)
    /\ lxc_ttys w' = filter (fun q => q <> ts) (lxc_ttys w)
    /\ w_sigmask w' = oldmask st
    /\ new_events w w'
       = (if 0 <=? sigfd st then [EvClose (sigfd st)] else [])
         ++ [EvSigprocmask SIG_SETMASK (oldmask st) 0; EvFree ts].
Proof.
  intros Hts. rewrite (sigwinch_fini_eq os ts w st Hts).
  eexists. split; [reflexivity|]. cbn [w_heap lxc_ttys w_sigmask].
  split; [apply lookup_delete_eq|].
  split; [intros Hin; apply list_elem_of_filter in Hin as [Hne _];
          apply Hne; reflexivity|].
  split; [intros q Hq; apply lookup_delete_ne; congruence|].
  split; [reflexivity|]. split; [reflexivity|].
  unfold new_events. cbn [w_trace]. apply drop_app_length.
Qed.

Lemma sigwinch_fini_removes_witness :
  exists w',
    lxc_console_sigwinch_fini os_ok 1 world_attached = Ok tt w'
    /\ w_heap w' !! 1 = None
    /\ (1 ∉ lxc_ttys w')
    /\ (forall q, q <> 1 -> w_heap w' !! q = w_heap world_attached !! q)
    /\ lxc_ttys w' = filter (fun q => q <> 1) (lxc_ttys world_attached)
    /\ w_sigmask w' = 0
    /\ new_events world_attached w'
       = [EvClose 9; EvSigprocmask SIG_SETMASK 0 0; EvFree 1].
Proof.
  apply (sigwinch_fini_removes os_ok 1 world_attached proxy_tracker).
  reflexivity.
Defined.

(** X3: set-up followed by tear-down is a round trip: after
    lxc_console_sigwinch_fini on the tracker lxc_console_sigwinch_init
    returned, the signal mask, the registry and the heap are what they were
    before the tracker was made. *)
Theorem sigwinch_init_fini_round_trip (os : OS) (srcfd dstfd : Z)
    (w w1 : World) (p : Z) :
  world_wf w ->
  lxc_console_sigwinch_init os srcfd dstfd w = Ok p w1 ->
  p <> 0 ->
  exists w2,
    lxc_console_sigwinch_fini os p w1 = Ok tt w2
    /\ w_sigmask w2 = w_sigmask w
    /\ lxc_ttys w2 = lxc_ttys w
    /\ w_heap w2 = w_heap w.
Proof.
  intros Hwf Hrun Hp.
  destruct (sigwinch_init_cases os srcfd dstfd w Hwf)
    as [(w' & es & e & Hnull & _)|(sfd & Hsfd & Hbrk & Hok)].
  { rewrite Hnull in Hrun. congruence. }
  rewrite Hok in Hrun. injection Hrun as <- <-.
  destruct Hwf as [Hpos Hfresh]. destruct (Hfresh (w_brk w)) as [Hnone Hnotin];
    [lia|].
  erewrite sigwinch_fini_eq by (cbn [w_heap]; apply lookup_insert_eq).
  eexists. split; [reflexivity|]. cbn [w_sigmask lxc_ttys w_heap oldmask
                                       fresh_tracker].
  split; [reflexivity|].
  split; [apply list_del_add_tail; exact Hnotin|].
  rewrite delete_insert_eq. apply delete_id. exact Hnone.
Qed.

Lemma sigwinch_init_fini_round_trip_witness :
  exists w2,
    lxc_console_sigwinch_fini os_ok 2
      (res_world (lxc_console_sigwinch_init os_ok 0 3 world_busy)) = Ok tt w2
    /\ w_sigmask w2 = 2
    /\ lxc_ttys w2 = [1]
    /\ w_heap w2 = w_heap world_busy.
Proof.
  apply (sigwinch_init_fini_round_trip os_ok 0 3 world_busy _ 2 world_busy_wf).
  - vm_compute. reflexivity.
  - lia.
Defined.

(** ** lxc_console_allocate: a given tty, and the console *)

(** X4: asked for tty n > 0, lxc_console_allocate turns the request down
    (-1, nothing changed) when n is past the last tty or tty n is in use;
    otherwise it marks tty n with the client's socket fd and returns its
    master.  In no case does it change *ttyreq or make a call. *)
Theorem allocate_specific_tty (os : OS) (conf : lxc_conf) (sockfd ttyreq : Z)
    (w : World) :
  0 < ttyreq ->
  tty_info_wf (tty_info conf) ->
  (nbtty (tty_info conf) < ttyreq ->
   lxc_console_allocate os conf sockfd ttyreq w = Ok (-1, conf, ttyreq) w)
  /\ (forall p,
         pty_info (tty_info conf) !! Z.to_nat (ttyreq - 1) = Some p ->
         lxc_console_allocate os conf sockfd ttyreq w
         = if busy p =? 0 then
             Ok (pty_master p,
                 set_tty_info conf
                   (mk_tty_info (nbtty (tty_info conf))
                      (<[Z.to_nat (ttyreq - 1) := set_busy p sockfd]>
                         (pty_info (tty_info conf)))),
                 ttyreq) w
           else Ok (-1, conf, ttyreq) w).
Proof.
  intros Hpos Hwf. unfold lxc_console_allocate.
  rewrite (proj2 (Z.eqb_neq _ _)) by lia.
  rewrite (proj2 (Z.ltb_lt _ _) Hpos).
  split.
  - intros Hout. rewrite (proj2 (Z.ltb_lt _ _) Hout). reflexivity.
  - intros p Hp. assert (Hlt := lookup_lt_Some _ _ _ Hp).
    unfold tty_info_wf in Hwf.
    destruct (Z.ltb_spec (nbtty (tty_info conf)) ttyreq) as [?|_]; [lia|].
    assert (Hat : forall ti q w0,
               pty_info ti !! Z.to_nat (ttyreq - 1) = Some q ->
               pty_at ti (ttyreq - 1) w0 = Ok q w0).
    { intros ti q w0 Hq. unfold pty_at.
      destruct (Z.ltb_spec (ttyreq - 1) 0); [lia|]. rewrite Hq. reflexivity. }
    unfold bind at 1. rewrite (Hat _ p w Hp).
    destruct (busy p =? 0); cbn [negb]; [|reflexivity].
    unfold pty_set_busy, bind, ret. rewrite (Hat _ p w Hp).
    rewrite (Hat _ (set_busy p sockfd))
      by (cbn [pty_info]; apply list_lookup_insert_eq; exact Hlt).
    reflexivity.
Qed.

Lemma allocate_specific_tty_witness :
  lxc_console_allocate os_ok (conf_two 5 0) 6 3 world0
  = Ok (-1, conf_two 5 0, 3) world0
  /\ lxc_console_allocate os_ok (conf_two 5 0) 6 2 world0
     = Ok (13, conf_two 5 6, 2) world0
  /\ lxc_console_allocate os_ok (conf_two 5 0) 6 1 world0
     = Ok (-1, conf_two 5 0, 1) world0.
Proof.
  split; [|split].
  - refine (proj1 (allocate_specific_tty os_ok (conf_two 5 0) 6 3 world0 _ _) _).
    + lia.
    + reflexivity.
    + simpl. lia.
  - refine (proj2 (allocate_specific_tty os_ok (conf_two 5 0) 6 2 world0 _ _)
              (slot 13 0) _).
    + lia.
    + reflexivity.
    + reflexivity.
  - refine (proj2 (allocate_specific_tty os_ok (conf_two 5 0) 6 1 world0 _ _)
              (slot 11 5) _).
    + lia.
    + reflexivity.
    + reflexivity.
Defined.

(** X5: asked for the console, *ttyreq being 0, when the console is not set
    up (master < 0), or is in use (peerpty.busy or peer is not -1), or
    already has a tracker, lxc_console_allocate returns -1 at once: no
    call is made, not even openpty, and nothing changes. *)
Theorem allocate_console_rejected (os : OS) (conf : lxc_conf) (sockfd : Z)
    (w : World) :
  master (console conf) < 0
  \/ busy (peerpty (console conf)) <> -1
  \/ peer (console conf) <> -1
  \/ tty_state (console conf) <> 0 ->
  lxc_console_allocate os conf sockfd 0 w = Ok (-1, conf, 0) w.
Proof.
  intros Hrej. unfold lxc_console_allocate. change (0 =? 0) with true.
  cbv iota. unfold bind, lxc_console_peer_proxy_alloc.
  assert (Hsame : set_console conf (console conf) = conf)
    by (destruct conf; reflexivity).
  destruct (Z.ltb_spec (master (console conf)) 0) as [_|Hm].
  { cbn. rewrite Hsame. reflexivity. }
  destruct (Z.eqb_spec (busy (peerpty (console conf))) (-1)) as [Hb|_];
    cbn [negb orb]; [|cbn; rewrite Hsame; reflexivity].
  destruct (Z.eqb_spec (peer (console conf)) (-1)) as [Hp|_];
    cbn [negb]; [|cbn; rewrite Hsame; reflexivity].
  destruct (Z.eqb_spec (tty_state (console conf)) 0) as [Ht|_];
    cbn [negb]; [|cbn; rewrite Hsame; reflexivity].
  exfalso. destruct Hrej as [?|[?|[?|?]]]; [lia|congruence..].
Qed.

Lemma allocate_console_rejected_witness :
  lxc_console_allocate os_ok (conf_attached 0 0) 6 0 world_attached
  = Ok (-1, conf_attached 0 0, 0) world_attached.
Proof.
  apply (allocate_console_rejected os_ok (conf_attached 0 0) 6 world_attached).
  right. left. simpl. lia.
Defined.

(** The events of a run whose trace is known. *)
Lemma new_events_app (w w' : World) (evs : list Event) :
  w_trace w' = w_trace w ++ evs -> new_events w w' = evs.
Proof. intros Ht. unfold new_events. rewrite Ht. apply drop_app_length. Qed.

(** lxc_console_sigwinch_init: the failure leaves the process as it was;
    the success is as in [sigwinch_init_cases]. *)
Lemma sigwinch_init_world (os : OS) (srcfd dstfd : Z) (w : World) :
  world_wf w ->
  (exists w',
      lxc_console_sigwinch_init os srcfd dstfd w = Ok 0 w'
      /\ same_process w w')
  \/ (exists sfd,
         0 <= sfd
         /\ w_brk w <> 0
         /\ lxc_console_sigwinch_init os srcfd dstfd w
            = Ok (w_brk w)
                 (mk_World
                    (w_trace w
                     ++ [EvMalloc (w_brk w);
                         EvSigprocmask SIG_BLOCK winch_mask 0;
                         EvSignalfd (-1) winch_mask 0 sfd])
                    (Z.lor (w_sigmask w) winch_mask)
                    (<[w_brk w := fresh_tracker srcfd dstfd sfd (w_sigmask w)]>
                       (w_heap w))
                    (w_brk w + 1) (lxc_ttys w ++ [w_brk w]))).
Proof.
  intros Hwf. rewrite (sigwinch_init_eq os srcfd dstfd w Hwf). cbv zeta.
  destruct (os_malloc os (w_trace w));
    [|left; eexists; split; [reflexivity|repeat split]].
  destruct (Z.eqb_spec (os_sigblock os (w_trace w ++ [EvMalloc (w_brk w)])
                          winch_mask) 0) as [_|_];
    [|left; eexists; split; [reflexivity|repeat split]].
  match goal with |- context [os_signalfd os ?h] =>
    destruct (Z.ltb_spec (os_signalfd os h) 0) as [_|Hsfd]
  end; [left; eexists; split; [reflexivity|repeat split]|].
  right. eexists. split; [exact Hsfd|]. split; [destruct Hwf; lia|].
  reflexivity.
Qed.


(** ** Attaching to the console, and detaching *)

(** X6: asked for the console, *ttyreq being 0, of a container whose console
    is set up and free, lxc_console_allocate first makes a pty; if that
    fails it returns -1 and nothing has changed.  It then puts the slave in
    raw mode (setup_tios) and, if that went well, sets up a tracker from the
    proxy master to the console master (lxc_console_sigwinch_init).  The
    attach succeeds exactly when setup_tios does not return a negative
    value and the tracker is not NULL: it then returns the master of the
    new pty, the console has the slave as its peer, the client's fd as the
    owner of the proxy and the tracker, and the peer (when its fd is not
    negative) and the tracker's signal fd are registered, in this order,
    with the loop of the console, nothing else of the process changing.
    In the two other cases it returns -1, its last two calls close the
    master and the slave of the new pty, the console is cleared, and the
    signal mask, the heap and the registry are what they were on entry. *)
Theorem allocate_console_outcome (os : OS) (conf : lxc_conf) (sockfd : Z)
    (w : World) :
  world_wf w ->
  console_available (console conf) ->
  let c := console conf in
  let run := lxc_console_allocate os conf sockfd 0 w in
  match os_openpty os (w_trace w ++ [EvProcessLock]) with
  | None =>
    run = Ok (-1, conf, 0)
            (log_events [EvProcessLock; EvOpenpty None; EvProcessUnlock] w)
  | Some (m, s, nm) =>
    let W1 := log_events [EvProcessLock; EvOpenpty (Some (m, s, nm));
                          EvProcessUnlock] w in
    let given_up (W : World) :=
        Ok (-1, set_console conf (proxy_cleared c), 0)
           (log_events [EvClose m; EvClose s] W) in
    match setup_tios os s W1 with
    | Fault _ _ => False
    | Ok r W2 =>
      if fst r <? 0 then run = given_up W2 /\ same_process w W2
      else
        match lxc_console_sigwinch_init os m (master c) W2 with
        | Fault _ _ => False
        | Ok ts W3 =>
          if ts =? 0 then run = given_up W3 /\ same_process w W3
          else
            exists sfd W4,
              run = Ok (m, set_console conf (attached c m s nm sockfd ts), 0)
                      W4
              /\ w_heap W3 !! ts
                 = Some (fresh_tracker m (master c) sfd (w_sigmask w))
              /\ registered (new_events W3 W4)
                 = (if 0 <=? s then [(descr c, s, CbCon, DataConsole)] else [])
                   ++ [(descr c, sfd, CbSigwinchFd, DataTracker ts)]
              /\ same_process W3 W4
        end
    end
  end.
Proof.
  intros Hwf (Hm & Hb & Hp & Ht) c run. subst run.
  fold c in Hm, Hb, Hp, Ht.
  assert (Hsame : set_console conf c = conf) by (destruct conf; reflexivity).
  match goal with |- ?G =>
    let G' := eval pattern (lxc_console_allocate os conf sockfd 0 w) in G in
    match G' with ?F _ => set (P := F) end
  end.
  change (P (lxc_console_allocate os conf sockfd 0 w)).
  unfold lxc_console_allocate. change (0 =? 0) with true. cbv iota.
  unfold bind at 1. unfold lxc_console_peer_proxy_alloc. fold c.
  destruct (Z.ltb_spec (master c) 0) as [?|_]; [lia|].
  rewrite Hb, Hp, Ht. cbn [Z.eqb negb orb Pos.eqb].
  unfold bind at 1, process_lock. unfold bind at 1, sys_openpty.
  unfold bind at 1, process_unlock.
  rewrite (log_event_single EvProcessLock), !log_event_events. cbn [app].
  change (w_trace (log_events [EvProcessLock] w))
    with (w_trace w ++ [EvProcessLock]).
  destruct (os_openpty os _) as [[[m s] nm]|] eqn:Hpty.
  2: { subst P. cbv beta. rewrite ?Hpty. unfold ret. cbn [fst snd].
       change (-1 <? 0) with true. cbv iota. rewrite Hsame. reflexivity. }
  cbv zeta. cbn [pty_slave pty_master peerpty set_peerpty master].
  set (W1 := log_events _ w).
  set (c1 := set_peerpty c _).
  assert (Hlive1 : forall w0, tracker_live c1 w0)
    by (intros w0 H; cbn in H; congruence).
  assert (Hnone1 : forall w0, console_tracker c1 w0 = None)
    by (intros w0; unfold console_tracker; cbn; rewrite Ht; reflexivity).
  assert (Hgiven_up : forall W,
             match
               match lxc_console_peer_proxy_free os c1 W with
               | Ok c' w'' => Ok (-1, c') w''
               | Fault f w'' => Fault f w''
               end
             with
             | Ok a w' =>
               (if fst a <? 0
                then ret (-1, set_console conf (snd a), 0)
                else ret (pty_master (peerpty (console
                                                 (set_console conf (snd a)))),
                          set_console conf (snd a), 0)) w'
             | Fault f w' => Fault f w'
             end
             = Ok (-1, set_console conf (proxy_cleared c), 0)
                  (log_events [EvClose m; EvClose s] W)).
  { intros W. rewrite peer_proxy_free_eq by apply Hlive1. rewrite Hnone1.
    reflexivity. }
  destruct (setup_tios_total os s W1) as (r & es & Htios).
  unfold bind at 1. rewrite Htios.
  destruct (fst r <? 0) eqn:Hr.
  { subst P. cbv beta zeta. rewrite ?Hpty. fold W1. rewrite ?Htios, ?Hr.
    unfold bind, ret. split; [apply Hgiven_up|]. repeat split. }
  unfold bind at 1.
  destruct (sigwinch_init_world os m (master c) (log_events es W1) Hwf)
    as [(w3 & Hrun & Hsame3)|(sfd & Hsfd & Hbrk & Hrun)]; rewrite Hrun.
  { subst P. cbv beta zeta. rewrite ?Hpty. fold W1. rewrite ?Htios, ?Hr, ?Hrun.
    change (0 =? 0) with true. cbv iota. unfold bind, ret.
    split; [apply Hgiven_up|]. exact Hsame3. }
  subst P. cbv beta zeta. rewrite ?Hpty. fold W1. rewrite ?Htios, ?Hr, ?Hrun.
  change (w_brk (log_events es W1)) with (w_brk w) in *.
  rewrite (proj2 (Z.eqb_neq _ _) Hbrk).
  unfold lxc_console_mainloop_add_peer, bind, ret, lxc_mainloop_add_handler,
    load.
  cbn [tty_state set_peerpty set_peer set_tty_state peer peerpty pty_slave
       set_busy descr c1 fst snd].
  rewrite (proj2 (Z.eqb_neq _ _) Hbrk). cbn [negb].
  exists sfd.
  destruct (0 <=? s) eqn:Hs; hsimpl.
  all: eexists; split; [reflexivity|].
  all: split; [reflexivity|].
  all: split; [|repeat split].
  all: erewrite new_events_app
    by (cbn [w_trace]; rewrite <- ?app_assoc; reflexivity).
  all: reflexivity.
Qed.

Lemma allocate_console_outcome_witness :
  let W3 :=
      res_world
        (lxc_console_sigwinch_init os_ok 7 3
           (res_world
              (setup_tios os_ok 8
                 (log_events
                    [EvProcessLock;
                     EvOpenpty (Some (7, 8, "/dev/pts/3"%string));
                     EvProcessUnlock] world0)))) in
  exists sfd W4,
    lxc_console_allocate os_ok (conf_ready 5 0) 6 0 world0
    = Ok (7, set_console (conf_ready 5 0)
               (attached console_unattached 7 8 "/dev/pts/3" 6 1), 0) W4
    /\ w_heap W3 !! 1 = Some (fresh_tracker 7 3 sfd 0)
    /\ registered (new_events W3 W4)
       = [(20, 8, CbCon, DataConsole); (20, sfd, CbSigwinchFd, DataTracker 1)]
    /\ same_process W3 W4.
Proof.
  assert (Hav : console_available (console (conf_ready 5 0)))
    by (unfold console_available; simpl; lia).
  pose proof (allocate_console_outcome os_ok (conf_ready 5 0) 6 world0
                world0_wf Hav) as H.
  cbv zeta in H.
  change (os_openpty os_ok _) with (Some (7, 8, "/dev/pts/3"%string)) in H.
  cbv beta iota in H.
  set (W1 := log_events _ world0) in H.
  set (S2 := setup_tios os_ok 8 W1) in H.
  assert (E2 : S2 = Ok (0, Some termios0) (res_world S2))
    by (vm_compute; reflexivity).
  rewrite E2 in H. cbv beta iota in H.
  change (fst (0, Some termios0) <? 0) with false in H. cbv beta iota in H.
  set (S3 := lxc_console_sigwinch_init os_ok 7 _ (res_world S2)) in H.
  assert (E3 : S3 = Ok 1 (res_world S3)) by (vm_compute; reflexivity).
  rewrite E3 in H. cbv beta iota in H.
  change (1 =? 0) with false in H. cbv beta iota in H.
  exact H.
Defined.



(** ** lxc_console_free: what it releases, and what it leaves alone *)

Lemma set_tty_info_same (conf : lxc_conf) :
  set_tty_info conf (tty_info conf) = conf.
Proof. destruct conf; reflexivity. Qed.

Lemma release_not_owned (fd : Z) (l : list lxc_pty_info) :
  owns_no_tty fd l -> release fd <$> l = l.
Proof.
  intros Hno. induction l as [|q l IH]; [reflexivity|].
  cbn [fmap list_fmap]. f_equal.
  - unfold release. specialize (Hno 0%nat q eq_refl).
    rewrite (proj2 (Z.eqb_neq _ _) Hno). reflexivity.
  - apply IH. intros j q' Hj. exact (Hno (S j) q' Hj).
Qed.

Lemma owns_no_tty_forallb (fd : Z) (l : list lxc_pty_info) :
  forallb (fun q => negb (busy q =? fd)) l = true -> owns_no_tty fd l.
Proof.
  intros Hall j q Hq. rewrite forallb_forall in Hall.
  apply list_elem_of_lookup_2, list_elem_of_In, Hall in Hq.
  apply negb_true_iff, Z.eqb_neq in Hq. exact Hq.
Qed.

Lemma released_lookup (fd : Z) (ti : lxc_tty_info) (j : nat) :
  pty_info (released fd ti) !! j = release fd <$> (pty_info ti !! j).
Proof. unfold released. cbn [pty_info]. apply list_lookup_fmap. Qed.

(** X8: lxc_console_free leaves nothing in the hands of the client [fd].
    Every tty marked with [fd] is free afterwards and every other tty is
    as it was; so no tty is marked with [fd] any more (0, which marks a
    free tty, apart), and the console proxy is not owned by [fd] any more
    (-1, which marks a proxy nobody owns, apart). *)
Theorem free_releases_all (os : OS) (conf : lxc_conf) (fd : Z) (w : World) :
  tty_info_wf (tty_info conf) ->
  tracker_live (console conf) w ->
  exists conf' w',
    lxc_console_free os conf fd w = Ok conf' w'
    /\ nbtty (tty_info conf') = nbtty (tty_info conf)
    /\ (forall j q,
           pty_info (tty_info conf) !! j = Some q ->
           pty_info (tty_info conf') !! j
           = Some (if busy q =? fd then set_busy q 0 else q))
    /\ (fd <> 0 -> owns_no_tty fd (pty_info (tty_info conf')))
    /\ (fd <> -1 -> busy (peerpty (console conf')) <> fd).
Proof.
  intros Hti Hlive.
  assert (Hslots : forall j q,
             pty_info (tty_info conf) !! j = Some q ->
             pty_info (released fd (tty_info conf)) !! j
             = Some (if busy q =? fd then set_busy q 0 else q)).
  { intros j q Hq. rewrite released_lookup, Hq. reflexivity. }
  assert (Hnone : fd <> 0 ->
                  owns_no_tty fd (pty_info (released fd (tty_info conf)))).
  { intros Hfd j q Hq. rewrite released_lookup in Hq.
    destruct (pty_info (tty_info conf) !! j) as [q0|]; [|discriminate].
    injection Hq as <-. unfold release.
    destruct (Z.eqb_spec (busy q0) fd) as [_|Hne]; [cbn; congruence|exact Hne]. }
  rewrite (console_free_eq os conf fd w Hti Hlive). cbv zeta.
  destruct (Z.eqb_spec (busy (peerpty (console conf))) fd) as [Hown|Hother].
  - eexists _, _. split; [reflexivity|]. cbn [tty_info set_console set_tty_info
                                               console].
    split; [reflexivity|]. split; [exact Hslots|]. split; [exact Hnone|].
    cbn. congruence.
  - eexists _, _. split; [reflexivity|]. cbn [tty_info set_tty_info console].
    split; [reflexivity|]. split; [exact Hslots|]. split; [exact Hnone|].
    intros _. exact Hother.
Qed.

Lemma free_releases_all_witness :
  exists conf' w',
    lxc_console_free os_ok (conf_attached 5 6) 5 world_attached = Ok conf' w'
    /\ nbtty (tty_info conf') = nbtty (tty_info (conf_attached 5 6))
    /\ (forall j q,
           pty_info (tty_info (conf_attached 5 6)) !! j = Some q ->
           pty_info (tty_info conf') !! j
           = Some (if busy q =? 5 then set_busy q 0 else q))
    /\ (5 <> 0 -> owns_no_tty 5 (pty_info (tty_info conf')))
    /\ (5 <> -1 -> busy (peerpty (console conf')) <> 5).
Proof.
  apply (free_releases_all os_ok (conf_attached 5 6) 5 world_attached).
  - reflexivity.
  - apply world_attached_live.
Defined.

(** X9: lxc_console_free for a client that owns neither a tty nor the
    console proxy does nothing at all: no call is made and the
    configuration is unchanged. *)
Theorem free_of_stranger (os : OS) (conf : lxc_conf) (fd : Z) (w : World) :
  tty_info_wf (tty_info conf) ->
  owns_no_tty fd (pty_info (tty_info conf)) ->
  busy (peerpty (console conf)) <> fd ->
  lxc_console_free os conf fd w = Ok conf w.
Proof.
  intros Hti Hno Hother. unfold lxc_console_free, bind.
  rewrite (free_ttys_eq (tty_info conf) fd w Hti).
  assert (Hsame : released fd (tty_info conf) = tty_info conf).
  { unfold released. rewrite (release_not_owned fd _ Hno).
    destruct (tty_info conf); reflexivity. }
  rewrite Hsame, set_tty_info_same.
  rewrite (proj2 (Z.eqb_neq _ _) Hother). reflexivity.
Qed.

Lemma free_of_stranger_witness :
  lxc_console_free os_ok (conf_attached 5 6) 7 world_attached
  = Ok (conf_attached 5 6) world_attached.
Proof.
  apply (free_of_stranger os_ok (conf_attached 5 6) 7 world_attached).
  - reflexivity.
  - apply owns_no_tty_forallb. reflexivity.
  - simpl. lia.
Defined.

(** X10: allocating any tty and freeing it again is a round trip.  For a
    client that holds nothing, lxc_console_allocate with *ttyreq < 0
    followed by lxc_console_free gives back the configuration as it was,
    whether a tty was free or not; neither makes a call. *)
Theorem allocate_any_free_round_trip (os : OS) (conf : lxc_conf)
    (sockfd ttyreq : Z) (w : World) :
  ttyreq < 0 ->
  tty_info_wf (tty_info conf) ->
  owns_no_tty sockfd (pty_info (tty_info conf)) ->
  busy (peerpty (console conf)) <> sockfd ->
  exists m conf1 t,
    lxc_console_allocate os conf sockfd ttyreq w = Ok (m, conf1, t) w
    /\ lxc_console_free os conf1 sockfd w = Ok conf w.
Proof.
  intros Hneg Hti Hno Hother.
  destruct (first_free_or_all_busy (pty_info (tty_info conf)))
    as [(i & p & Hfree)|Hbusy].
  - rewrite (allocate_any_takes os conf sockfd ttyreq w i p Hneg Hti Hfree).
    eexists _, _, _. split; [reflexivity|].
    destruct Hfree as (Hi & Hp & _).
    assert (Hlen := lookup_lt_Some _ _ _ Hi).
    unfold lxc_console_free, bind. cbn [tty_info set_tty_info].
    rewrite free_ttys_eq
      by (unfold tty_info_wf in *; cbn [nbtty pty_info];
          rewrite length_insert; exact Hti).
    unfold released. cbn [nbtty pty_info console set_tty_info].
    rewrite list_fmap_insert, (release_not_owned sockfd _ Hno).
    assert (Hback : release sockfd (set_busy p sockfd) = p).
    { unfold release. cbn [busy set_busy]. rewrite Z.eqb_refl.
      clear Hi. destruct p as [n m s b]. cbn in Hp |- *. subst b.
      reflexivity. }
    rewrite Hback, (list_insert_id _ _ _ Hi).
    rewrite (proj2 (Z.eqb_neq _ _) Hother). unfold ret.
    destruct conf as [? ? [? ?] ?]; reflexivity.
  - rewrite (allocate_any_refuses os conf sockfd ttyreq w Hneg Hti Hbusy).
    eexists _, _, _. split; [reflexivity|].
    unfold lxc_console_free, bind.
    rewrite (free_ttys_eq (tty_info conf) sockfd w Hti).
    unfold released. rewrite (release_not_owned sockfd _ Hno).
    cbn [console set_tty_info].
    rewrite (proj2 (Z.eqb_neq _ _) Hother). unfold ret.
    destruct conf as [? ? [? ?] ?]; reflexivity.
Qed.

Lemma allocate_any_free_round_trip_witness :
  exists m conf1 t,
    lxc_console_allocate os_ok (conf_two 5 0) 6 (-1) world0
    = Ok (m, conf1, t) world0
    /\ lxc_console_free os_ok conf1 6 world0 = Ok (conf_two 5 0) world0.
Proof.
  apply (allocate_any_free_round_trip os_ok (conf_two 5 0) 6 (-1) world0).
  - lia.
  - reflexivity.
  - apply owns_no_tty_forallb. reflexivity.
  - simpl. lia.
Defined.

(** ** lxc_console_cb_con: the ends of the stream, and the way back *)

(** X11: when its read fails lxc_console_cb_con returns 1 and has made no
    other call; at end of file it takes the descriptor out of the loop,
    closes it and returns 0.  In neither case is anything written. *)
Theorem cb_con_end_of_input (os : OS) (fd events d : Z) (c : lxc_console_t)
    (w : World) :
  (os_read os (w_trace w) fd 1024 = ReadFail ->
   lxc_console_cb_con os fd events c d w
   = Ok 1 (log_events [EvRead fd 1024 ReadFail] w))
  /\ (os_read os (w_trace w) fd 1024 = ReadBytes [] ->
      lxc_console_cb_con os fd events c d w
      = Ok 0 (log_events [EvRead fd 1024 (ReadBytes []);
                          EvMainloopDel d fd; EvClose fd] w)).
Proof.
  split; intros Hread.
  all: unfold lxc_console_cb_con, bind, sys_read, lxc_mainloop_del_handler,
         sys_close, ret.
  all: rewrite Hread; cbn [read_count read_buf length].
  - change (-1 <? 0) with true. cbv iota. reflexivity.
  - change (Z.of_nat 0 <? 0) with false. change (Z.of_nat 0 =? 0) with true.
    cbv iota. unfold log_event, log_events. cbn [w_trace w_sigmask w_heap
                                                   w_brk lxc_ttys].
    rewrite <- !app_assoc. reflexivity.
Qed.

Lemma cb_con_end_of_input_witness :
  lxc_console_cb_con os_read_fails 8 0 console_logged 20 world0
  = Ok 1 (log_events [EvRead 8 1024 ReadFail] world0)
  /\ lxc_console_cb_con os_ok 8 0 console_logged 20 world0
     = Ok 0 (log_events [EvRead 8 1024 (ReadBytes []);
                         EvMainloopDel 20 8; EvClose 8] world0).
Proof.
  split.
  - apply (proj1 (cb_con_end_of_input os_read_fails 8 0 20 console_logged
                    world0)).
    reflexivity.
  - apply (proj2 (cb_con_end_of_input os_ok 8 0 20 console_logged world0)).
    reflexivity.
Defined.

(** X12: what lxc_console_cb_con reads on a descriptor other than the
    console master goes to the console master if the descriptor is the
    peer, and nowhere otherwise; it is never written to the log or back to
    the peer.  The handler returns 0 whatever the write returned. *)
Theorem cb_con_from_peer (os : OS) (fd events d : Z) (c : lxc_console_t)
    (w : World) (bs : list Z) :
  fd <> master c ->
  os_read os (w_trace w) fd 1024 = ReadBytes bs ->
  bs <> [] ->
  exists w',
    lxc_console_cb_con os fd events c d w = Ok 0 w'
    /\ offered (new_events w w')
       = (if fd =? peer c then [(master c, bs)] else []).
Proof.
  intros Hfd Hread Hbs.
  assert (Hlen : (0 < length bs)%nat) by (destruct bs; [congruence|simpl; lia]).
  unfold lxc_console_cb_con, bind, sys_read, sys_write, ret. rewrite Hread.
  cbn [read_count read_buf w_trace log_event]. rewrite take_read_buf.
  destruct (Z.ltb_spec (Z.of_nat (length bs)) 0) as [?|_]; [lia|].
  destruct (Z.eqb_spec (Z.of_nat (length bs)) 0) as [?|_]; [lia|].
  rewrite (proj2 (Z.eqb_neq _ _) Hfd). unfold new_events.
  destruct (fd =? peer c).
  all: cbn [w_trace log_event].
  all: eexists; split; [reflexivity|].
  all: cbn [w_trace log_event].
  all: rewrite <- ?app_assoc, drop_app_length; reflexivity.
Qed.

Lemma cb_con_from_peer_witness :
  exists w',
    lxc_console_cb_con os_two_bytes 8 0 console_logged 20 world0 = Ok 0 w'
    /\ offered (new_events world0 w') = [(3, [104; 105])].
Proof.
  apply (cb_con_from_peer os_two_bytes 8 0 20 console_logged world0
           [104; 105]).
  - simpl. lia.
  - reflexivity.
  - simpl. congruence.
Defined.

(** ** The stdin pump on any input *)

Lemma offered_app (h1 h2 : list Event) :
  offered (h1 ++ h2) = offered h1 ++ offered h2.
Proof. apply omap_app. Qed.

(** The pump run over [rest], the reads before having delivered [done]:
    while no byte of [rest] is the escape byte, each is written to the
    master and the pump stays out of the escape state. *)
Lemma stdin_pump_plain (os : OS) (fd events p d : Z) (rest : list Z) :
  forall (done : list Z) (w : World) (st : lxc_tty_state),
    w_heap w !! p = Some st ->
    stdinfd st = fd ->
    saw_escape st = 0 ->
    count_reads fd (w_trace w) = length done ->
    Forall (fun b => char_of_byte b <> escape st) rest ->
    (forall h buf, 0 <= os_write os h (masterfd st) buf) ->
    exists w' st' evs,
      invoke (length rest)
        (lxc_console_cb_tty_stdin (feeding fd (done ++ rest) os) fd events p d)
        w
      = Ok (replicate (length rest) 0) w'
      /\ w_heap w' !! p = Some st'
      /\ saw_escape st' = 0
      /\ w_trace w' = w_trace w ++ evs
      /\ offered evs = (fun b => (masterfd st, [b])) <$> rest.
Proof.
  induction rest as [|b rest IH]; intros done w st Hp Hfd Hsaw Hk Hplain Hwr.
  - exists w, st, []. cbn. rewrite app_nil_r. auto.
  - apply Forall_cons in Hplain as [Hb Hplain].
    destruct (cb_tty_stdin_step os fd events p d w st (done ++ b :: rest)
                (length done) b Hp Hfd Hk)
      as (r & w1 & st1 & Hrun & Hp1 & Hfd1 & Hesc1 & Hm1 & Hk1 & ev1 & Ht1
          & Tr).
    { rewrite lookup_app_r by lia. rewrite Nat.sub_diag. reflexivity. }
    unfold stdin_transition in Tr.
    rewrite (proj2 (Z.eqb_neq _ _) Hb), Hsaw in Tr. cbn in Tr.
    rewrite andb_false_r in Tr. destruct Tr as (-> & -> & Hr).
    rewrite (proj2 (Z.ltb_ge _ _) (Hwr _ _)) in Hr. subst r.
    destruct (IH (done ++ [b]) w1 (set_saw_escape st 0))
      as (w' & st' & evs & Hrest & Hp' & Hsaw' & Ht' & Hoff);
      try assumption; try reflexivity.
    { rewrite length_app. cbn. lia. }
    rewrite <- app_assoc in Hrest. cbn [app] in Hrest.
    exists w', st'. eexists. cbn [length].
    rewrite (invoke_S _ _ _ _ _ Hrun), Hrest.
    split; [reflexivity|]. split; [exact Hp'|]. split; [exact Hsaw'|].
    split; [rewrite Ht', Ht1, <- app_assoc; reflexivity|].
    rewrite offered_app, Hoff. reflexivity.
Qed.

(** X13: terminal input that does not contain the escape byte reaches the
    container byte for byte: invoked once per byte, the stdin pump returns
    0 each time and has written every byte, alone and in order, to the
    master, provided no write fails. *)
Theorem stdin_pump_forwards_plain_input (os : OS) (fd events p d : Z)
    (input : list Z) (w : World) (st : lxc_tty_state) :
  w_heap w !! p = Some st ->
  stdinfd st = fd ->
  saw_escape st = 0 ->
  count_reads fd (w_trace w) = 0%nat ->
  Forall (fun b => char_of_byte b <> escape st) input ->
  (forall h buf, 0 <= os_write os h (masterfd st) buf) ->
  exists w',
    invoke (length input)
      (lxc_console_cb_tty_stdin (feeding fd input os) fd events p d) w
    = Ok (replicate (length input) 0) w'
    /\ offered (new_events w w') = (fun b => (masterfd st, [b])) <$> input.
Proof.
  intros Hp Hfd Hsaw Hk Hplain Hwr.
  destruct (stdin_pump_plain os fd events p d input [] w st Hp Hfd Hsaw Hk
              Hplain Hwr)
    as (w' & st' & evs & Hrun & _ & _ & Ht & Hoff).
  exists w'. split; [exact Hrun|].
  rewrite (new_events_app w w' evs Ht). exact Hoff.
Qed.

Lemma stdin_pump_forwards_plain_input_witness :
  exists w',
    invoke 3
      (lxc_console_cb_tty_stdin (feeding 0 [108; 115; 10] os_ok) 0 0 1 0)
      (world_tracker attach_tracker)
    = Ok [0; 0; 0] w'
    /\ offered (new_events (world_tracker attach_tracker) w')
       = [(3, [108]); (3, [115]); (3, [10])].
Proof.
  apply (stdin_pump_forwards_plain_input os_ok 0 0 1 0 [108; 115; 10]
           (world_tracker attach_tracker) attach_tracker).
  - reflexivity.
  - reflexivity.
  - reflexivity.
  - reflexivity.
  - repeat (constructor 2; [vm_compute; lia|]). constructor 1.
  - intros h buf. simpl. lia.
Defined.

(** X14: the two commands of the escape byte, whatever byte it is.  From
    the idle state, the escape byte followed by 'q' ends the session (0,
    then 1) and neither byte is written to the master; the escape byte
    twice, when it is not 'q' itself, writes one escape byte to the master
    and leaves the pump idle again. *)
Theorem stdin_pump_escape_commands (os : OS) (fd events p d e : Z) (w : World)
    (st : lxc_tty_state) :
  w_heap w !! p = Some st ->
  stdinfd st = fd ->
  char_of_byte e = escape st ->
  saw_escape st = 0 ->
  count_reads fd (w_trace w) = 0%nat ->
  (forall h buf, 0 <= os_write os h (masterfd st) buf) ->
  (exists w',
      invoke 2 (lxc_console_cb_tty_stdin (feeding fd [e; 113] os) fd events p d)
        w
      = Ok [0; 1] w'
      /\ offered (new_events w w') = [])
  /\ (char_of_byte e <> 113 ->
      exists w' st',
        invoke 2 (lxc_console_cb_tty_stdin (feeding fd [e; e] os) fd events p d)
          w
        = Ok [0; 0] w'
        /\ offered (new_events w w') = [(masterfd st, [e])]
        /\ w_heap w' !! p = Some st'
        /\ saw_escape st' = 0).
Proof.
  intros Hp Hfd He Hsaw Hk Hwr. split.
  - destruct (cb_tty_stdin_step os fd events p d w st [e; 113] 0 e Hp Hfd Hk
                eq_refl)
      as (r1 & wa & sa & Ha & Hpa & Hfa & Hea & Hma & Hka & ev1 & Hta & Tr1).
    unfold stdin_transition in Tr1. rewrite He, Hsaw, !Z.eqb_refl in Tr1.
    cbn in Tr1. destruct Tr1 as (-> & -> & ->).
    destruct (cb_tty_stdin_step os fd events p d wa _ [e; 113] 1 113 Hpa Hfa
                Hka eq_refl)
      as (r2 & wb & sb & Hb & Hpb & Hfb & Heb & Hmb & Hkb & ev2 & Htb & Tr2).
    unfold stdin_transition in Tr2. cbn in Tr2.
    rewrite andb_false_r in Tr2. cbn in Tr2. destruct Tr2 as (-> & -> & ->).
    exists wb. split.
    + rewrite (invoke_S _ _ _ _ _ Ha), (invoke_S _ _ _ _ _ Hb). reflexivity.
    + erewrite new_events_app
        by (rewrite Htb, Hta, <- app_assoc; reflexivity).
      reflexivity.
  - intros Hq.
    destruct (cb_tty_stdin_step os fd events p d w st [e; e] 0 e Hp Hfd Hk
                eq_refl)
      as (r1 & wa & sa & Ha & Hpa & Hfa & Hea & Hma & Hka & ev1 & Hta & Tr1).
    unfold stdin_transition in Tr1. rewrite He, Hsaw, !Z.eqb_refl in Tr1.
    cbn in Tr1. destruct Tr1 as (-> & -> & ->).
    destruct (cb_tty_stdin_step os fd events p d wa _ [e; e] 1 e Hpa Hfa
                Hka eq_refl)
      as (r2 & wb & sb & Hb & Hpb & Hfb & Heb & Hmb & Hkb & ev2 & Htb & Tr2).
    unfold stdin_transition in Tr2. cbn in Tr2.
    rewrite andb_false_r in Tr2.
    rewrite (proj2 (Z.eqb_neq _ _) Hq) in Tr2. cbn in Tr2.
    destruct Tr2 as (-> & -> & Hr2).
    rewrite (proj2 (Z.ltb_ge _ _) (Hwr _ _)) in Hr2. subst r2.
    exists wb. eexists. split; [|split; [|split; [exact Hpb|reflexivity]]].
    + rewrite (invoke_S _ _ _ _ _ Ha), (invoke_S _ _ _ _ _ Hb). reflexivity.
    + erewrite new_events_app
        by (rewrite Htb, Hta, <- app_assoc; reflexivity).
      reflexivity.
Qed.

Lemma stdin_pump_escape_commands_witness :
  (exists w',
      invoke 2 (lxc_console_cb_tty_stdin (feeding 0 [1; 113] os_ok) 0 0 1 0)
        (world_tracker attach_tracker)
      = Ok [0; 1] w'
      /\ offered (new_events (world_tracker attach_tracker) w') = [])
  /\ (char_of_byte 1 <> 113 ->
      exists w' st',
        invoke 2 (lxc_console_cb_tty_stdin (feeding 0 [1; 1] os_ok) 0 0 1 0)
          (world_tracker attach_tracker)
        = Ok [0; 0] w'
        /\ offered (new_events (world_tracker attach_tracker) w') = [(3, [1])]
        /\ w_heap w' !! 1 = Some st'
        /\ saw_escape st' = 0).
Proof.
  apply (stdin_pump_escape_commands os_ok 0 0 1 0 1
           (world_tracker attach_tracker) attach_tracker).
  - reflexivity.
  - reflexivity.
  - reflexivity.
  - reflexivity.
  - reflexivity.
  - intros h buf. simpl. lia.
Defined.

(** ** SIGWINCH: the handler of the signal fd, and the walk of the registry *)

Lemma probed_app (h1 h2 : list Event) :
  probed (h1 ++ h2) = probed h1 ++ probed h2.
Proof. apply omap_app. Qed.

(** lxc_console_winch on a live tracker: one lxc_console_winsz from its
    stdin to its master, then the notification of the proxy, if it has
    one. *)
Lemma winch_cases (os : OS) (p : Z) (w : World) (st : lxc_tty_state) :
  w_heap w !! p = Some st ->
  exists esw,
    lxc_console_winch os p w = Ok tt (log_events (winch_events st esw) w)
    /\ probed (winch_events st esw) = [stdinfd st].
Proof.
  intros Hp. unfold lxc_console_winch, bind, load. rewrite Hp.
  destruct (winsz_cases os (stdinfd st) (masterfd st) w)
    as (esw & Hrun & Hcases).
  rewrite Hrun. exists esw. unfold winch_events, lxc_cmd_console_winch, ret.
  split.
  - destruct (winch_proxy st).
    + unfold log_event, log_events. cbn [w_trace w_sigmask w_heap w_brk
                                          lxc_ttys].
      rewrite <- app_assoc. reflexivity.
    + rewrite app_nil_r. reflexivity.
  - rewrite probed_app.
    destruct Hcases as [(r & ->)|[(r & ->)|(r & z & ->)]];
      destruct (winch_proxy st); reflexivity.
Qed.

(** X15: lxc_console_cb_sigwinch_fd compares the result of read with
    sizeof(siginfo) as unsigned numbers.  A short read (0 to 127 bytes)
    makes it return -1 with nothing else done; but a read that fails (-1)
    is not seen as short: like a full read, it is followed by the
    propagation of the window size for the tracker, and the handler
    returns 0. *)
Theorem cb_sigwinch_fd_read_check (os : OS) (fd events ts d : Z) (w : World)
    (st : lxc_tty_state) :
  w_heap w !! ts = Some st ->
  let got := os_read os (w_trace w) fd sizeof_siginfo in
  let rd := EvRead fd sizeof_siginfo got in
  (0 <= read_count got < sizeof_siginfo ->
   lxc_console_cb_sigwinch_fd os fd events ts d w = Ok (-1) (log_event rd w))
  /\ (read_count got = -1 \/ read_count got = sizeof_siginfo ->
      exists esw,
        lxc_console_cb_sigwinch_fd os fd events ts d w
        = Ok 0 (log_events (rd :: winch_events st esw) w)
        /\ probed (winch_events st esw) = [stdinfd st]).
Proof.
  intros Hts got rd.
  unfold lxc_console_cb_sigwinch_fd, bind, sys_read, ret.
  fold got. fold rd. split.
  - intros Hshort. unfold uint64, sizeof_siginfo in *.
    rewrite (Z.mod_small (read_count got)) by lia.
    rewrite (proj2 (Z.ltb_lt _ _)) by (rewrite Z.mod_small; lia).
    reflexivity.
  - intros Hfull.
    assert (Hcmp : (uint64 (read_count got) <? uint64 sizeof_siginfo) = false).
    { destruct Hfull as [-> | ->]; reflexivity. }
    rewrite Hcmp.
    destruct (winch_cases os ts (log_event rd w) st Hts)
      as (esw & Hrun & Hprobe).
    rewrite Hrun. exists esw. split; [|exact Hprobe].
    unfold log_event, log_events. cbn [w_trace w_sigmask w_heap w_brk lxc_ttys].
    rewrite <- app_assoc. reflexivity.
Qed.

Lemma cb_sigwinch_fd_read_check_witness :
  lxc_console_cb_sigwinch_fd os_short_read 9 0 1 0
    (world_tracker attach_tracker)
  = Ok (-1)
       (log_event (EvRead 9 sizeof_siginfo (ReadBytes (replicate 16 0)))
          (world_tracker attach_tracker))
  /\ (exists esw,
         lxc_console_cb_sigwinch_fd os_read_fails 9 0 1 0
           (world_tracker attach_tracker)
         = Ok 0 (log_events
                   (EvRead 9 sizeof_siginfo ReadFail
                    :: winch_events attach_tracker esw)
                   (world_tracker attach_tracker))
         /\ probed (winch_events attach_tracker esw) = [0]).
Proof.
  split.
  - apply (proj1 (cb_sigwinch_fd_read_check os_short_read 9 0 1 0
                    (world_tracker attach_tracker) attach_tracker eq_refl)).
    vm_compute. split; congruence.
  - apply (proj2 (cb_sigwinch_fd_read_check os_read_fails 9 0 1 0
                    (world_tracker attach_tracker) attach_tracker eq_refl)).
    left. reflexivity.
Defined.

Lemma winsz_eq (os : OS) (srcfd dstfd : Z) (w : World) :
  lxc_console_winsz os srcfd dstfd w
  = Ok tt (log_events (winsz_events os (w_trace w) srcfd dstfd) w).
Proof.
  unfold lxc_console_winsz, winsz_events, bind, sys_isatty, sys_getwinsz,
    sys_setwinsz, ret.
  cbv zeta. cbn [w_trace log_event].
  destruct (os_isatty os (w_trace w) srcfd =? 0).
  - reflexivity.
  - destruct (os_getwinsz os _ srcfd) as [z|].
    all: unfold log_event, log_events.
    all: cbn [w_trace w_sigmask w_heap w_brk lxc_ttys].
    all: rewrite <- ?app_assoc; reflexivity.
Qed.

Lemma winch_eq (os : OS) (p : Z) (w : World) (st : lxc_tty_state) :
  w_heap w !! p = Some st ->
  lxc_console_winch os p w
  = Ok tt (log_events (propagation os (w_trace w) st) w).
Proof.
  intros Hp. unfold lxc_console_winch, bind, load. rewrite Hp, winsz_eq.
  unfold propagation, winch_events, lxc_cmd_console_winch, ret.
  destruct (winch_proxy st).
  - unfold log_event, log_events. cbn [w_trace w_sigmask w_heap w_brk lxc_ttys].
    rewrite <- app_assoc. reflexivity.
  - rewrite app_nil_r. reflexivity.
Qed.

(** The walk over [nodes], all live in [w]. *)
Lemma winch_each_eq (os : OS) (nodes : list Z) :
  forall (w : World),
    Forall (fun p => is_Some (w_heap w !! p)) nodes ->
    winch_each os nodes w
    = Ok tt (log_events
               (walk_events os (w_trace w)
                  (omap (fun p => w_heap w !! p) nodes)) w)
    /\ length (omap (fun p => w_heap w !! p) nodes) = length nodes.
Proof.
  induction nodes as [|p nodes IH]; intros w Hlive.
  - split; [|reflexivity]. cbn. unfold log_events. rewrite app_nil_r.
    destruct w; reflexivity.
  - apply Forall_cons in Hlive as [[st Hp] Hlive].
    cbn [winch_each omap list_omap]. rewrite Hp. cbn [walk_events length].
    unfold bind. rewrite (winch_eq os p w st Hp).
    destruct (IH (log_events (propagation os (w_trace w) st) w) Hlive)
      as [Hrun Hlen].
    rewrite Hrun. cbn [w_heap w_trace log_events] in *. split.
    + unfold log_events. cbn [w_trace w_sigmask w_heap w_brk lxc_ttys].
      rewrite <- app_assoc. reflexivity.
    + rewrite Hlen. reflexivity.
Qed.

(** X16: when every node of the registry is a live tracker,
    lxc_console_sigwinch propagates the window size for every tracker of
    the registry, once each and in registry order.  Its calls are, for each
    tracker in turn: isatty on the tracker's stdin; if it is a tty,
    TIOCGWINSZ on it; if that gave a size, TIOCSWINSZ of this very size on
    the tracker's master; then the hint to the proxy, if the tracker has
    one.  It makes no other call and changes nothing: the signal mask, the
    trackers and the registry are what they were. *)
Theorem sigwinch_walks_registry (os : OS) (sig : Z) (w : World) :
  registry_live w ->
  length (registered_trackers w) = length (lxc_ttys w)
  /\ lxc_console_sigwinch os sig w
     = Ok tt (log_events (walk_events os (w_trace w) (registered_trackers w))
                w).
Proof.
  intros Hlive. unfold lxc_console_sigwinch, registered_trackers.
  destruct (winch_each_eq os (lxc_ttys w) w Hlive) as [Hrun Hlen].
  split; [exact Hlen|exact Hrun].
Qed.

Lemma sigwinch_walks_registry_witness :
  length (registered_trackers world_two_trackers) = 2%nat
  /\ lxc_console_sigwinch os_ok SIGWINCH world_two_trackers
     = Ok tt (log_events
                [EvIsatty 0 1; EvGetWinsz 0 (Some (mk_winsize 24 80 0 0));
                 EvSetWinsz 3 (mk_winsize 24 80 0 0);
                 EvIsatty 7 1; EvGetWinsz 7 (Some (mk_winsize 24 80 0 0));
                 EvSetWinsz 3 (mk_winsize 24 80 0 0)]
                world_two_trackers).
Proof.
  apply (sigwinch_walks_registry os_ok SIGWINCH world_two_trackers).
  repeat (constructor 2; [vm_compute; eauto|]). constructor 1.
Defined.

(** ** lxc_console_mainloop_add *)

(** X17: lxc_console_mainloop_add.  For lxc-execute, without a rootfs or
    without a console master it returns 0 and does nothing.  Otherwise it
    registers the console master with the loop given; if that is refused it
    returns -1 and the console does not remember the loop; if not, the
    console remembers the loop, the peer (when there is one) and the signal
    fd of the tracker (when there is one) are registered with the same
    loop, in this order, and it returns 0 whatever the loop answered for
    these two. *)
Theorem mainloop_add_outcome (os : OS) (d : Z) (conf : lxc_conf) (w : World) :
  tracker_live (console conf) w ->
  let c := console conf in
  let r := os_mainloop_add os (w_trace w) d (master c) CbCon DataConsole in
  (is_execute conf <> 0 \/ rootfs_path conf = None \/ master c < 0 ->
   lxc_console_mainloop_add os d conf w = Ok (0, conf) w)
  /\ (is_execute conf = 0 -> rootfs_path conf <> None -> 0 <= master c ->
      r <> 0 ->
      lxc_console_mainloop_add os d conf w
      = Ok (-1, conf) (log_event (EvMainloopAdd d (master c) CbCon DataConsole r)
                         w))
  /\ (is_execute conf = 0 -> rootfs_path conf <> None -> 0 <= master c ->
      r = 0 ->
      exists w',
        lxc_console_mainloop_add os d conf w
        = Ok (0, set_console conf (set_descr c d)) w'
        /\ registered (new_events w w')
           = [(d, master c, CbCon, DataConsole)]
             ++ (if 0 <=? peer c then [(d, peer c, CbCon, DataConsole)] else [])
             ++ match console_tracker c w with
                | Some st => [(d, sigfd st, CbSigwinchFd,
                               DataTracker (tty_state c))]
                | None => []
                end).
Proof.
  intros Hlive c r. unfold lxc_console_mainloop_add. fold c.
  split; [|split].
  - intros [Hex|[Hroot|Hm]].
    + rewrite (proj2 (Z.eqb_neq _ _) Hex). reflexivity.
    + destruct (is_execute conf =? 0); cbn [negb]; [|reflexivity].
      rewrite Hroot. reflexivity.
    + destruct (is_execute conf =? 0); cbn [negb]; [|reflexivity].
      destruct (bool_decide _); cbn [negb]; [|reflexivity].
      rewrite (proj2 (Z.ltb_lt _ _) Hm). reflexivity.
  - intros Hex Hroot Hm Hr. rewrite Hex.
    destruct (rootfs_path conf) as [f|]; [|congruence].
    rewrite bool_decide_eq_true_2 by eauto. cbn [Z.eqb negb].
    rewrite (proj2 (Z.ltb_ge _ _) Hm).
    unfold bind, lxc_mainloop_add_handler. fold r.
    rewrite (proj2 (Z.eqb_neq _ _) Hr). reflexivity.
  - intros Hex Hroot Hm Hr. rewrite Hex.
    destruct (rootfs_path conf) as [f|]; [|congruence].
    rewrite bool_decide_eq_true_2 by eauto. cbn [Z.eqb negb].
    rewrite (proj2 (Z.ltb_ge _ _) Hm).
    unfold bind at 1. unfold lxc_mainloop_add_handler at 1. fold r.
    rewrite Hr. cbn [Z.eqb negb].
    unfold lxc_console_mainloop_add_peer, bind, lxc_mainloop_add_handler,
      load, ret.
    cbn [set_descr peer descr tty_state].
    unfold console_tracker.
    destruct (Z.eqb_spec (tty_state c) 0) as [Hts|Hts]; cbn [negb].
    + destruct (0 <=? peer c); eexists; (split; [reflexivity|]).
      all: erewrite new_events_app
        by (unfold log_event; cbn [w_trace]; rewrite <- ?app_assoc;
            reflexivity).
      all: reflexivity.
    + destruct (Hlive Hts) as [st Hst].
      change (w_heap w !! tty_state c = Some st) in Hst.
      destruct (0 <=? peer c); cbv beta; hsimpl; rewrite Hst.
      all: eexists; (split; [reflexivity|]).
      all: erewrite new_events_app
        by (unfold log_event; cbn [w_trace]; rewrite <- ?app_assoc;
            reflexivity).
      all: reflexivity.
Qed.

Lemma mainloop_add_outcome_witness :
  exists w',
    lxc_console_mainloop_add os_ok 30 (conf_attached 0 0) world_attached
    = Ok (0, set_console (conf_attached 0 0) (set_descr console_attached 30)) w'
    /\ registered (new_events world_attached w')
       = [(30, 3, CbCon, DataConsole); (30, 8, CbCon, DataConsole);
          (30, 9, CbSigwinchFd, DataTracker 1)].
Proof.
  refine (proj2 (proj2 (mainloop_add_outcome os_ok 30 (conf_attached 0 0)
                          world_attached (world_attached_live 0 0)))
            _ _ _ _).
  - reflexivity.
  - simpl. congruence.
  - simpl. lia.
  - reflexivity.
Defined.

(** ** lxc_console_delete and lxc_console_create *)

Lemma closed_app (h1 h2 : list Event) :
  closed (h1 ++ h2) = closed h1 ++ closed h2.
Proof. apply omap_app. Qed.

(** lxc_console_delete, in full. *)
Lemma console_delete_eq (os : OS) (c : lxc_console_t) (w : World) :
  lxc_console_delete os c w
  = Ok (deleted c) (log_events (delete_events os c (w_trace w)) w).
Proof.
  unfold lxc_console_delete, bind, sys_tcsetattr, free_termios, sys_close, ret.
  unfold delete_events.
  cbn [set_tios peer master slave log_fd].
  destruct (tios c) as [t|]; [destruct (0 <=? peer c)|];
    destruct (0 <=? log_fd c).
  all: unfold log_event, log_events, deleted;
    cbn [w_trace w_sigmask w_heap w_brk lxc_ttys set_tios set_peer set_master
         set_slave set_log_fd peer master slave log_fd peerpty descr path
         log_path name tios tty_state];
    rewrite <- ?app_assoc; reflexivity.
Qed.

(** X18: lxc_console_delete closes the peer, the master and the slave of
    the console, in this order and whatever their values, then the log if
    it is open; the saved terminal attributes are put back on the peer
    first when there are some and the peer is not negative.  Afterwards
    the four descriptors are -1 and no attributes are saved; the tracker
    of the console is not touched.  A second call finds nothing left: its
    only calls are three closes of -1. *)
Theorem console_delete_closes (os : OS) (c : lxc_console_t) (w : World) :
  exists w' w'',
    lxc_console_delete os c w = Ok (deleted c) w'
    /\ closed (new_events w w')
       = [peer c; master c; slave c]
         ++ (if 0 <=? log_fd c then [log_fd c] else [])
    /\ (forall t r, EvTcsetattr (peer c) TCSAFLUSH t r ∈ new_events w w' ->
                    tios c = Some t /\ 0 <= peer c)
    /\ tty_state (deleted c) = tty_state c
    /\ w_heap w' = w_heap w /\ lxc_ttys w' = lxc_ttys w
    /\ w_sigmask w' = w_sigmask w
    /\ lxc_console_delete os (deleted c) w' = Ok (deleted c) w''
    /\ new_events w' w'' = [EvClose (-1); EvClose (-1); EvClose (-1)].
Proof.
  eexists _, _. rewrite !console_delete_eq.
  split; [reflexivity|].
  erewrite new_events_app by reflexivity.
  unfold delete_events.
  split; [|split; [|split; [reflexivity|]]].
  3: { split; [reflexivity|]. split; [reflexivity|]. split; [reflexivity|].
       split; [reflexivity|].
       erewrite new_events_app by reflexivity. reflexivity. }
  - rewrite closed_app.
    assert (Hnone : closed
              match tios c with
              | Some t =>
                (if 0 <=? peer c
                 then [EvTcsetattr (peer c) TCSAFLUSH t
                         (os_tcsetattr os (w_trace w) (peer c) TCSAFLUSH t)]
                 else [])
                ++ [EvFreeTios]
              | None => []
              end = [])
      by (destruct (tios c); [destruct (0 <=? peer c)|]; reflexivity).
    rewrite Hnone. destruct (0 <=? log_fd c); reflexivity.
  - intros t r Hin.
    destruct (tios c) as [t0|]; [destruct (Z.leb_spec 0 (peer c))|];
      destruct (0 <=? log_fd c); cbn [app] in Hin.
    all: rewrite !elem_of_cons, elem_of_nil in Hin.
    all: repeat (destruct Hin as [Hin|Hin]; [try discriminate|]).
    all: try contradiction.
    all: injection Hin as -> _; split; [reflexivity|assumption].
Qed.

(** X19: lxc_console_create sets up nothing for a configuration that is
    to have no console (lxc-execute, no rootfs, or console path none): it
    returns 0, makes no call and leaves the configuration alone.  When the
    console is wanted and openpty fails, it returns -1 and the
    configuration is also unchanged. *)
Theorem console_create_nothing_to_do (os : OS) (conf : lxc_conf) (w : World) :
  (no_console conf -> lxc_console_create os conf w = Ok (0, conf) w)
  /\ (~ no_console conf ->
      os_openpty os (w_trace w ++ [EvProcessLock]) = None ->
      lxc_console_create os conf w
      = Ok (-1, conf)
           (log_events [EvProcessLock; EvOpenpty None; EvProcessUnlock] w)).
Proof.
  unfold no_console, lxc_console_create. split.
  - intros [Hex|[Hroot|Hpath]].
    + rewrite (proj2 (Z.eqb_neq _ _) Hex). reflexivity.
    + destruct (is_execute conf =? 0); cbn [negb]; [|reflexivity].
      rewrite Hroot. reflexivity.
    + destruct (is_execute conf =? 0); cbn [negb]; [|reflexivity].
      destruct (bool_decide _); cbn [negb]; [|reflexivity].
      rewrite Hpath. reflexivity.
  - intros Hwant Hpty.
    destruct (Z.eqb_spec (is_execute conf) 0) as [_|Hex]; [|tauto].
    destruct (rootfs_path conf) as [f|] eqn:Hroot; [|tauto].
    rewrite bool_decide_eq_true_2 by eauto. cbn [negb].
    assert (Hnone : match path (console conf) with
                    | Some f0 => String.eqb f0 "none"
                    | None => false
                    end = false).
    { destruct (path (console conf)) as [f0|]; [|reflexivity].
      destruct (String.eqb_spec f0 "none") as [->|_]; [tauto|reflexivity]. }
    rewrite Hnone.
    unfold bind, process_lock, sys_openpty, process_unlock, ret.
    cbn [w_trace log_event]. rewrite Hpty.
    unfold log_event, log_events. cbn [w_trace w_sigmask w_heap w_brk lxc_ttys].
    rewrite <- !app_assoc. reflexivity.
Qed.

Lemma console_create_nothing_to_do_witness :
  lxc_console_create os_ok conf_execute world0 = Ok (0, conf_execute) world0
  /\ lxc_console_create os_no_pty conf_fresh world0
     = Ok (-1, conf_fresh)
          (log_events [EvProcessLock; EvOpenpty None; EvProcessUnlock] world0).
Proof.
  split.
  - apply (proj1 (console_create_nothing_to_do os_ok conf_execute world0)).
    left. simpl. lia.
  - apply (proj2 (console_create_nothing_to_do os_no_pty conf_fresh world0)).
    + intros [H|[H|H]]; [simpl in H; lia|discriminate H|discriminate H].
    + reflexivity.
Defined.

(** ** lxc_console leaves the process as it found it *)

Lemma err2_same (os : OS) (fd : Z) (old : termios) (mfd tfd r : Z)
    (w : World) :
  exists w',
    lxc_console_err2 os fd old mfd tfd r w = Ok r w' /\ same_process w w'.
Proof. eexists. split; [reflexivity|]. repeat split. Qed.

(** The labels err3 and err4 on a world that holds, on top of what [w]
    held, one tracker made when the mask was that of [w]. *)
Lemma err3_restores (os : OS) (fd : Z) (old : termios) (mfd tfd ts r : Z)
    (W w : World) (st : lxc_tty_state) :
  w_heap W = <[ts := st]> (w_heap w) ->
  w_heap w !! ts = None ->
  lxc_ttys W = lxc_ttys w ++ [ts] ->
  ts ∉ lxc_ttys w ->
  oldmask st = w_sigmask w ->
  exists w',
    lxc_console_err3 os fd old mfd tfd ts r W = Ok r w' /\ same_process w w'.
Proof.
  intros Hheap Hnone Httys Hnotin Hmask.
  unfold lxc_console_err3, bind.
  rewrite (sigwinch_fini_eq os ts W st)
    by (rewrite Hheap; apply lookup_insert_eq).
  eexists. split; [reflexivity|].
  unfold same_process. cbn [w_sigmask w_heap lxc_ttys log_event].
  split; [exact Hmask|]. split.
  - rewrite Hheap, delete_insert_eq. apply delete_id. exact Hnone.
  - rewrite Httys. apply list_del_add_tail. exact Hnotin.
Qed.

Lemma err4_restores (os : OS) (fd : Z) (old : termios) (mfd tfd ts d r : Z)
    (W w : World) (st : lxc_tty_state) :
  w_heap W = <[ts := st]> (w_heap w) ->
  w_heap w !! ts = None ->
  lxc_ttys W = lxc_ttys w ++ [ts] ->
  ts ∉ lxc_ttys w ->
  oldmask st = w_sigmask w ->
  exists w',
    lxc_console_err4 os fd old mfd tfd ts d r W = Ok r w' /\ same_process w w'.
Proof.
  intros Hheap Hnone Httys Hnotin Hmask.
  unfold lxc_console_err4, bind, lxc_mainloop_close.
  apply (err3_restores os fd old mfd tfd ts r _ w st); assumption.
Qed.

Ltac leave3 w st Hnone Hnotin :=
  match goal with
  | |- context [lxc_console_err3 ?o ?fd ?old ?m ?t ?p ?r ?W] =>
    let w' := fresh "w'" in
    let Hrun := fresh "Hrun" in
    let Hsame := fresh "Hsame" in
    destruct (err3_restores o fd old m t p r W w st) as (w' & Hrun & Hsame);
    [reflexivity | exact Hnone | reflexivity | exact Hnotin | reflexivity |];
    rewrite Hrun; eexists _, _; split; [reflexivity|exact Hsame]
  end.

Ltac leave4 w st Hnone Hnotin :=
  match goal with
  | |- context [lxc_console_err4 ?o ?fd ?old ?m ?t ?p ?d ?r ?W] =>
    let w' := fresh "w'" in
    let Hrun := fresh "Hrun" in
    let Hsame := fresh "Hsame" in
    destruct (err4_restores o fd old m t p d r W w st) as (w' & Hrun & Hsame);
    [reflexivity | exact Hnone | reflexivity | exact Hnotin | reflexivity |];
    rewrite Hrun; eexists _, _; split; [reflexivity|exact Hsame]
  end.

(** X20: lxc_console returns on every path, and when it returns the
    process is as it found it: the signal mask is the one on entry, the
    tracker it made (if any) is freed and no longer in the registry, and no
    other tracker or node was touched.  This holds whether it ends with an
    error at any step of the set-up or after a session. *)
Theorem lxc_console_restores_process (os : OS) (c : lxc_container)
    (ttynum stdin_fd stdout_fd stderr_fd escape_byte d : Z) (w : World) :
  world_wf w ->
  exists ret w',
    lxc_console os c ttynum stdin_fd stdout_fd stderr_fd escape_byte d w
    = Ok ret w'
    /\ same_process w w'.
Proof.
  intros Hwf.
  assert (Hfresh := Hwf). destruct Hfresh as [Hpos Hfresh].
  destruct (Hfresh (w_brk w)) as [Hnone Hnotin]; [lia|].
  unfold lxc_console, bind, sys_isatty, lxc_cmd_console, print_banner,
    sys_setsid, load, store, lxc_cmd_console_winch, lxc_mainloop_open,
    lxc_mainloop_add_handler, lxc_mainloop, ret, raise.
  destruct (Z.eqb_spec (os_isatty os (w_trace w) stdin_fd) 0) as [Htty|Htty].
  { eexists _, _. split; [reflexivity|]. repeat split. }
  match goal with |- context [setup_tios os ?fd ?W] =>
    destruct (setup_tios_cases os fd W)
      as (rt & es & Hrun & [(Hrt & _)|(tty & old & t & -> & ->)]);
    rewrite Hrun; clear Hrun
  end.
  { rewrite Hrt. change (negb (-1 =? 0)) with true. cbv iota.
    eexists _, _. split; [reflexivity|]. repeat split. }
  cbn [fst snd]. change (negb (0 =? 0)) with false. cbv beta iota zeta.
  match goal with |- context [os_cmd_console os ?h ?n ?t ?l] =>
    destruct (os_cmd_console os h n t l) as [[tfd tn] mfd] eqn:Hcmd
  end.
  destruct (Z.ltb_spec tfd 0) as [Hneg|Htfd].
  { eexists _, _. split; [reflexivity|]. repeat split. }
  match goal with |- context [lxc_console_sigwinch_init os ?s ?m ?W] =>
    set (W0 := W);
    destruct (sigwinch_init_world os s m W0 Hwf)
      as [(w1 & Hrun & Hsame1)|(sfd & Hsfd & Hbrk & Hrun)];
    rewrite Hrun; clear Hrun
  end.
  { change (0 =? 0) with true. cbv iota.
    destruct (err2_same os stdin_fd old mfd tfd (-1) w1)
      as (w' & Hrun & Hsame).
    rewrite Hrun. eexists _, _. split; [reflexivity|].
    destruct Hsame1 as (H1 & H2 & H3), Hsame as (H4 & H5 & H6).
    change (w_sigmask W0) with (w_sigmask w) in H1.
    change (w_heap W0) with (w_heap w) in H2.
    change (lxc_ttys W0) with (lxc_ttys w) in H3.
    repeat split; congruence. }
  rewrite (proj2 (Z.eqb_neq _ _) Hbrk). cbv beta iota.
  change (w_brk W0) with (w_brk w) in *.
  change (w_sigmask W0) with (w_sigmask w) in *.
  change (w_heap W0) with (w_heap w) in *.
  change (lxc_ttys W0) with (lxc_ttys w) in *.
  set (p := w_brk w) in *.
  hsimpl. rewrite !insert_insert_eq.
  set (st := set_winch_proxy_lxcpath _ _).
  match goal with |- context [lxc_console_winsz os ?s ?m ?W] =>
    destruct (winsz_cases os s m W) as (esw & Hrun & _);
    rewrite Hrun; clear Hrun
  end.
  unfold log_events. hsimpl. subst W0.
  on_status os_mainloop_open; [|leave3 w st Hnone Hnotin].
  hsimpl; on_status os_mainloop_add; [|leave4 w st Hnone Hnotin].
  hsimpl; on_status os_mainloop_add; [|leave4 w st Hnone Hnotin].
  hsimpl; on_status os_mainloop_add; [|leave4 w st Hnone Hnotin].
  on_status os_mainloop; leave4 w st Hnone Hnotin.
Qed.

Lemma lxc_console_restores_process_witness :
  exists ret w',
    lxc_console os_ok container0 0 0 1 2 1 100 world_busy = Ok ret w'
    /\ same_process world_busy w'.
Proof.
  apply (lxc_console_restores_process os_ok container0 0 0 1 2 1 100
           world_busy world_busy_wf).
Defined.

(** ** lxc_console_create gives back the pty when it fails *)

Lemma extends_refl (w : World) : extends w w.
Proof. exists []. rewrite app_nil_r. reflexivity. Qed.

Lemma extends_trans (w1 w2 w3 : World) :
  extends w1 w2 -> extends w2 w3 -> extends w1 w3.
Proof.
  intros [es1 H1] [es2 H2]. exists (es1 ++ es2).
  rewrite H2, H1, app_assoc. reflexivity.
Qed.

Lemma extends_log_event (e : Event) (w w' : World) :
  extends w w' -> extends w (log_event e w').
Proof.
  intros H. apply (extends_trans _ _ _ H). exists [e]. reflexivity.
Qed.

Lemma extends_log_events (es : list Event) (w w' : World) :
  extends w w' -> extends w (log_events es w').
Proof.
  intros H. apply (extends_trans _ _ _ H). exists es. reflexivity.
Qed.

Lemma sigwinch_init_returns (os : OS) (srcfd dstfd : Z) (w : World) :
  world_wf w ->
  exists ts w', lxc_console_sigwinch_init os srcfd dstfd w = Ok ts w'
                /\ extends w w'.
Proof.
  intros Hwf.
  destruct (sigwinch_init_cases os srcfd dstfd w Hwf)
    as [(w' & es & e & Hrun & Htr & _)|(sfd & _ & _ & Hrun)].
  - exists 0, w'. split; [exact Hrun|]. exists es. exact Htr.
  - eexists _, _. split; [exact Hrun|]. eexists. reflexivity.
Qed.

(** A world reached from [w] by logging, and by steps known to extend. *)
Ltac ext :=
  repeat first [apply extends_log_event | apply extends_log_events];
  first [assumption
        | apply extends_refl
        | eapply extends_trans; [|eassumption]; ext].

(** lxc_console_peer_default always returns, and changes neither the
    master, the slave nor the log of the console. *)
Lemma peer_default_returns (os : OS) (c : lxc_console_t) (w : World) :
  world_wf w ->
  exists c' w',
    lxc_console_peer_default os c w = Ok c' w'
    /\ extends w w'
    /\ master c' = master c /\ slave c' = slave c
    /\ log_path c' = log_path c /\ log_fd c' = log_fd c.
Proof.
  intros Hwf. unfold lxc_console_peer_default.
  match goal with |- context [bind ?F ?K] => set (file := F); set (k := K) end.
  assert (Hk : forall fl W,
             world_wf W -> extends w W ->
             exists c' w',
               k fl W = Ok c' w'
               /\ extends w w'
               /\ master c' = master c /\ slave c' = slave c
               /\ log_path c' = log_path c /\ log_fd c' = log_fd c).
  { intros [f|] W HW Hext; subst k; cbv beta iota.
    2: { eexists _, _. split; [reflexivity|]. split; [exact Hext|].
         repeat split. }
    unfold bind, open_unpriv, sys_isatty, sys_close, malloc_termios,
      free_termios, ret.
    cbn [peer set_peer master set_tty_state].
    destruct (os_open_unpriv os (w_trace W) f <? 0).
    { eexists _, _. split; [reflexivity|]. split; [ext|]. repeat split. }
    destruct (os_isatty os _ _ =? 0).
    { eexists _, _. split; [reflexivity|]. split; [ext|]. repeat split. }
    match goal with |- context [lxc_console_sigwinch_init os ?s ?m ?W'] =>
      destruct (sigwinch_init_returns os s m W') as (ts & w1 & Hrun & Hext1);
        [exact HW|]; rewrite Hrun; clear Hrun
    end.
    match goal with |- context [lxc_console_winsz os ?s ?m ?W'] =>
      destruct (winsz_cases os s m W') as (esw & Hrun & _);
        rewrite Hrun; clear Hrun
    end.
    cbn [w_trace log_event].
    destruct (os_malloc os _); cbn [negb].
    2: { eexists _, _. split; [reflexivity|]. split; [ext|]. repeat split. }
    match goal with |- context [setup_tios os ?fd ?W'] =>
      destruct (setup_tios_total os fd W') as (r & es & Hrun);
        rewrite Hrun; clear Hrun
    end.
    destruct (fst r <? 0).
    all: eexists _, _; (split; [reflexivity|]); (split; [ext|]); repeat split. }
  subst file. destruct (path c) as [f|].
  - unfold bind, ret. apply Hk; [exact Hwf|apply extends_refl].
  - unfold bind, sys_access, sys_open, sys_close, ret.
    destruct (os_access os (w_trace w) "/dev/tty" =? 0).
    2: { apply Hk; [exact Hwf|ext]. }
    destruct (0 <=? os_open os _ _); apply Hk; solve [exact Hwf|ext].
Qed.

(** X21: lxc_console_create for a configuration that is to have a
    console, outcome by outcome.  If openpty fails it returns -1 and the
    configuration is unchanged.  Otherwise the console takes the master,
    the slave and the name of the new pty, and the call fails exactly when
    close-on-exec is refused for the master, or for the slave, or when the
    console has a log path and the log cannot be opened; it succeeds
    otherwise, after lxc_console_peer_default, with the log fd (if any) in
    the console.  On each of the three failures it returns -1 after the
    calls of lxc_console_delete, which close the peer, the master and the
    slave of the console (and the log if it is open), and the console is
    left with master, slave, peer and log fd -1 and no saved attributes;
    the tracker lxc_console_peer_default may have set up stays in the
    console. *)
Theorem console_create_outcome (os : OS) (conf : lxc_conf) (w : World) :
  world_wf w ->
  ~ no_console conf ->
  let c := console conf in
  let run := lxc_console_create os conf w in
  match os_openpty os (w_trace w ++ [EvProcessLock]) with
  | None =>
    run = Ok (-1, conf)
            (log_events [EvProcessLock; EvOpenpty None; EvProcessUnlock] w)
  | Some (m, s, nm) =>
    let c1 := set_name (set_slave (set_master c m) s) nm in
    let W1 := log_events [EvProcessLock; EvOpenpty (Some (m, s, nm));
                          EvProcessUnlock] w in
    let failed (c' : lxc_console_t) (W : World) :=
        Ok (-1, set_console conf (deleted c'))
           (log_events (delete_events os c' (w_trace W)) W) in
    let r1 := os_fcntl os (w_trace W1) m in
    let W2 := log_event (EvFcntlCloexec m r1) W1 in
    if negb (r1 =? 0) then run = failed c1 W2
    else
      let r2 := os_fcntl os (w_trace W2) s in
      let W3 := log_event (EvFcntlCloexec s r2) W2 in
      if negb (r2 =? 0) then run = failed c1 W3
      else
        match lxc_console_peer_default os c1 W3 with
        | Fault _ _ => False
        | Ok c2 W4 =>
          master c2 = m /\ slave c2 = s
          /\ match log_path c with
             | None => run = Ok (0, set_console conf c2) W4
             | Some f =>
               let fd := os_open_unpriv os (w_trace W4) f in
               let W5 := log_event (EvOpenUnpriv f fd) W4 in
               if fd <? 0 then run = failed (set_log_fd c2 fd) W5
               else run = Ok (0, set_console conf (set_log_fd c2 fd)) W5
             end
        end
  end.
Proof.
  intros Hwf Hwant c run. subst run.
  match goal with |- ?G =>
    let G' := eval pattern (lxc_console_create os conf w) in G in
    match G' with ?F _ => set (P := F) end
  end.
  change (P (lxc_console_create os conf w)).
  unfold lxc_console_create. fold c.
  unfold no_console in Hwant. fold c in Hwant.
  destruct (Z.eqb_spec (is_execute conf) 0) as [_|Hex]; [|tauto].
  destruct (rootfs_path conf) as [root|] eqn:Hroot; [|tauto].
  rewrite bool_decide_eq_true_2 by eauto. cbn [negb].
  assert (Hnone : match path c with
                  | Some f0 => String.eqb f0 "none"
                  | None => false
                  end = false).
  { destruct (path c) as [f0|]; [|reflexivity].
    destruct (String.eqb_spec f0 "none") as [->|_]; [tauto|reflexivity]. }
  cbv zeta beta. rewrite Hnone.
  unfold bind at 1, process_lock. unfold bind at 1, sys_openpty.
  unfold bind at 1, process_unlock.
  rewrite (log_event_single EvProcessLock), !log_event_events. cbn [app].
  change (w_trace (log_events [EvProcessLock] w))
    with (w_trace w ++ [EvProcessLock]).
  destruct (os_openpty os _) as [[[m s] nm]|] eqn:Hpty.
  2: { subst P. cbv beta. rewrite ?Hpty. reflexivity. }
  cbn [master slave set_name set_slave set_master].
  set (W1 := log_events _ w). set (c1 := set_name _ nm).
  unfold bind at 1, fcntl_cloexec at 1.
  destruct (negb (os_fcntl os (w_trace W1) m =? 0)) eqn:Hr1.
  { subst P. cbv beta zeta. rewrite ?Hpty. fold W1 c1. rewrite ?Hr1.
    unfold bind, ret. rewrite console_delete_eq. reflexivity. }
  unfold bind at 1, fcntl_cloexec at 1. cbn [w_trace log_event].
  destruct (negb (os_fcntl os _ s =? 0)) eqn:Hr2.
  { subst P. cbv beta zeta. rewrite ?Hpty. fold W1 c1. rewrite ?Hr1.
    cbn [w_trace log_event]. rewrite ?Hr2.
    unfold bind, ret. rewrite console_delete_eq. reflexivity. }
  unfold bind at 1.
  match goal with |- context [lxc_console_peer_default os c1 ?W] =>
    destruct (peer_default_returns os c1 W Hwf)
      as (c2 & W4 & Hrun & _ & Hm & Hs & Hlp & _)
  end.
  cbn [w_trace log_event] in Hrun. rewrite Hrun.
  cbn [master slave log_path c1 set_name set_slave set_master] in Hm, Hs, Hlp.
  fold c in Hlp. rewrite Hlp.
  assert (Hleaf : forall Q : Prop, Q -> master c2 = m /\ slave c2 = s /\ Q)
    by (intros Q HQ; auto).
  destruct (log_path c) as [f|] eqn:Hlog.
  - unfold bind at 1, open_unpriv at 1. cbn [log_fd set_log_fd].
    destruct (os_open_unpriv os (w_trace W4) f <? 0) eqn:Hfd.
    + subst P. cbv beta zeta. rewrite ?Hpty. fold W1 c1. rewrite ?Hr1.
      cbn [w_trace log_event]. rewrite ?Hr2, ?Hrun, ?Hlog.
      apply Hleaf. rewrite ?Hfd.
      unfold bind, ret. rewrite console_delete_eq. reflexivity.
    + subst P. cbv beta zeta. rewrite ?Hpty. fold W1 c1. rewrite ?Hr1.
      cbn [w_trace log_event]. rewrite ?Hr2, ?Hrun, ?Hlog.
      apply Hleaf. rewrite ?Hfd. reflexivity.
  - subst P. cbv beta zeta. rewrite ?Hpty. fold W1 c1. rewrite ?Hr1.
    cbn [w_trace log_event]. rewrite ?Hr2, ?Hrun, ?Hlog.
    apply Hleaf. reflexivity.
Qed.

Lemma console_create_outcome_witness :
  lxc_console_create os_no_cloexec conf_fresh world0
  = Ok (-1, set_console conf_fresh
              (deleted (set_name (set_slave (set_master console_fresh 7) 8)
                          "/dev/pts/3")))
       (log_events
          [EvProcessLock; EvOpenpty (Some (7, 8, "/dev/pts/3"%string));
           EvProcessUnlock; EvFcntlCloexec 7 (-1);
           EvClose (-1); EvClose 7; EvClose 8]
          world0).
Proof.
  assert (Hwant : ~ no_console conf_fresh).
  { intros [H|[H|H]]; [simpl in H; lia|discriminate H|discriminate H]. }
  pose proof (console_create_outcome os_no_cloexec conf_fresh world0 world0_wf
                Hwant) as H.
  cbv zeta in H.
  change (os_openpty os_no_cloexec _)
    with (Some (7, 8, "/dev/pts/3"%string)) in H.
  cbv beta iota in H.
  change (negb (os_fcntl os_no_cloexec _ 7 =? 0)) with true in H.
  cbv beta iota in H.
  exact H.
Defined.

(** ** lxc_console_peer_default *)

Lemma peer_default_path_returns (os : OS) (c : lxc_console_t) (w : World) :
  exists file pre, peer_default_path os c w = Ok file (log_events pre w).
Proof.
  unfold peer_default_path, bind, sys_access, sys_open, sys_close, ret.
  destruct (path c) as [f|].
  - exists (Some f), []. unfold log_events. rewrite app_nil_r.
    destruct w; reflexivity.
  - rewrite log_event_single.
    destruct (os_access os (w_trace w) "/dev/tty" =? 0);
      [|eexists _, _; reflexivity].
    rewrite !log_event_events.
    destruct (0 <=? os_open os _ _); [rewrite !log_event_events|];
      eexists _, _; reflexivity.
Qed.

(** X22: lxc_console_peer_default, outcome by outcome.  With no file to
    open the console is unchanged.  If the open fails, the negative result
    is left in console.peer and nothing else is called.  If the descriptor
    is not a tty it is closed and the peer is -1.  Otherwise a tracker is
    asked for (NULL or not, it is stored in the console) and the window
    size propagated; then, if malloc of the saved attributes fails, or
    setup_tios returns a negative value, the descriptor is closed (after
    the free, in the second case), the peer is -1 and console.tios is NULL,
    the tracker staying in the console; if setup_tios does not fail, the
    descriptor is the peer of the console and console.tios holds what
    setup_tios saved.  The call never faults. *)
Theorem peer_default_outcome (os : OS) (c : lxc_console_t) (w : World) :
  world_wf w ->
  let run := lxc_console_peer_default os c w in
  match peer_default_path os c w with
  | Fault _ _ => False
  | Ok None W0 => run = Ok c W0
  | Ok (Some f) W0 =>
    let fd := os_open_unpriv os (w_trace W0) f in
    let W1 := log_event (EvOpenUnpriv f fd) W0 in
    let tty := os_isatty os (w_trace W1) fd in
    let W2 := log_event (EvIsatty fd tty) W1 in
    let closed_again (c' : lxc_console_t) (W : World) :=
        Ok (set_peer c' (-1)) (log_event (EvClose fd) W) in
    if fd <? 0 then run = Ok (set_peer c fd) W1
    else if tty =? 0 then run = closed_again c W2
    else
      match lxc_console_sigwinch_init os fd (master c) W2 with
      | Fault _ _ => False
      | Ok ts W3 =>
        let W4 := log_events (winsz_events os (w_trace W3) fd (master c)) W3 in
        let ok := os_malloc os (w_trace W4) in
        let W5 := log_event (EvMallocTios ok) W4 in
        let c3 := set_tios (set_tty_state c ts) None in
        if ok then
          match setup_tios os fd W5 with
          | Fault _ _ => False
          | Ok r W6 =>
            if fst r <? 0 then run = closed_again c3 (log_event EvFreeTios W6)
            else run = Ok (set_tios (set_tty_state (set_peer c fd) ts) (snd r))
                          W6
          end
        else run = closed_again c3 W5
      end
  end.
Proof.
  intros Hwf run. subst run. unfold lxc_console_peer_default.
  match goal with |- context [bind ?F ?K] =>
    change F with (peer_default_path os c); set (k := K)
  end.
  unfold bind.
  destruct (peer_default_path_returns os c w) as (file & pre & Hpath).
  rewrite Hpath.
  assert (HW0 : world_wf (log_events pre w))
    by (apply world_wf_log_events; exact Hwf).
  set (W0 := log_events pre w) in *. clearbody W0. clear Hpath pre Hwf w.
  destruct file as [f|]; [|subst k; reflexivity].
  cbv zeta.
  match goal with |- ?G =>
    let G' := eval pattern (k (Some f) W0) in G in
    match G' with ?F _ => set (P := F) end
  end.
  change (P (k (Some f) W0)). subst k. cbv beta iota.
  unfold bind at 1, open_unpriv at 1. cbn [peer set_peer master].
  destruct (os_open_unpriv os (w_trace W0) f <? 0) eqn:Hfd.
  { subst P. cbv beta. rewrite ?Hfd. reflexivity. }
  unfold bind at 1, sys_isatty at 1. cbn [w_trace log_event].
  destruct (os_isatty os _ _ =? 0) eqn:Htty.
  { subst P. cbv beta. rewrite ?Hfd. cbn [w_trace log_event].
    rewrite ?Htty. reflexivity. }
  unfold bind at 1.
  match goal with |- context [lxc_console_sigwinch_init os ?s ?m ?W'] =>
    destruct (sigwinch_init_returns os s m W') as (ts & W3 & Hrun & _);
      [exact HW0|]
  end.
  cbn [w_trace log_event] in Hrun. rewrite Hrun.
  cbn [peer master set_peer set_tty_state set_tios].
  unfold bind at 1. rewrite winsz_eq.
  unfold bind at 1, malloc_termios at 1. cbn [w_trace log_events log_event].
  destruct (os_malloc os _) eqn:Hok; cbn [negb].
  2: { subst P. cbv beta. rewrite ?Hfd. cbn [w_trace log_event].
       rewrite ?Htty, ?Hrun. cbn [w_trace log_events log_event].
       rewrite ?Hok. reflexivity. }
  unfold bind at 1.
  match goal with |- context [setup_tios os ?fd' ?W'] =>
    destruct (setup_tios_total os fd' W') as (r & es & Htios)
  end.
  cbn [w_trace log_events log_event peer set_peer set_tty_state] in Htios.
  cbn [peer set_peer set_tty_state].
  rewrite Htios.
  destruct (fst r <? 0) eqn:Hr.
  all: subst P; cbv beta; rewrite ?Hfd; cbn [w_trace log_event];
    rewrite ?Htty, ?Hrun; cbn [w_trace log_events log_event];
    rewrite ?Hok, ?Htios, ?Hr; reflexivity.
Qed.

Lemma peer_default_outcome_witness :
  lxc_console_peer_default os_ok console_fresh world0
  = Ok (set_tios (set_tty_state (set_peer console_fresh 6) 1) (Some termios0))
       (mk_World
          [EvOpenUnpriv "/dev/tty1" 6; EvIsatty 6 1;
           EvMalloc 1; EvSigprocmask SIG_BLOCK winch_mask 0;
           EvSignalfd (-1) winch_mask 0 9;
           EvIsatty 6 1; EvGetWinsz 6 (Some (mk_winsize 24 80 0 0));
           EvSetWinsz (-1) (mk_winsize 24 80 0 0);
           EvMallocTios true;
           EvIsatty 6 1; EvTcgetattr 6 (Some termios0);
           EvTcsetattr 6 TCSAFLUSH
             (set_c_cc (set_c_cc termios0 VMIN 1) VTIME 0) 0]
          winch_mask {[ 1 := fresh_tracker 6 (-1) 9 0 ]} 2 [1]).
Proof.
  pose proof (peer_default_outcome os_ok console_fresh world0 world0_wf) as H.
  cbv zeta in H.
  change (peer_default_path os_ok console_fresh world0)
    with (Ok (Some "/dev/tty1"%string) world0) in H.
  cbv beta iota in H.
  change (os_open_unpriv os_ok (w_trace world0) "/dev/tty1") with 6 in H.
  change (6 <? 0) with false in H. cbv beta iota in H.
  change (os_isatty os_ok _ 6 =? 0) with false in H. cbv beta iota in H.
  set (S3 := lxc_console_sigwinch_init os_ok 6 _ _) in H.
  assert (E3 : S3 = Ok 1 (res_world S3)) by (vm_compute; reflexivity).
  rewrite E3 in H. cbv beta iota in H.
  change (os_malloc os_ok _) with true in H. cbv beta iota in H.
  set (S6 := setup_tios os_ok 6 _) in H.
  assert (E6 : S6 = Ok (0, Some termios0) (res_world S6))
    by (vm_compute; reflexivity).
  rewrite E6 in H. cbv beta iota in H.
  change (fst (0, Some termios0) <? 0) with false in H. cbv beta iota in H.
  exact H.
Defined.

(** ** lxc_console_set_stdfds *)

(** X23: lxc_console_set_stdfds makes no call when the console has no
    slave, and returns 0.  Otherwise it redirects descriptors 0, 1 and 2
    onto the slave, in this order, and stops at the first dup2 that fails:
    it returns 0 exactly when all three were made and succeeded, and -1
    when the last one made failed, the later ones not being tried. *)
Theorem set_stdfds_redirects (dup2 : list (Z * Z) -> Z -> Z -> Z)
    (conf : lxc_conf) (h : list (Z * Z)) :
  let s := slave (console conf) in
  let run := lxc_console_set_stdfds dup2 conf h in
  exists k : nat,
    snd run = h ++ take k (stdfds_onto s)
    /\ (forall j, (j < k)%nat ->
          (dup2 (h ++ take j (stdfds_onto s)) s (Z.of_nat j) < 0
           <-> S j = k /\ fst run = -1))
    /\ (s < 0 -> k = 0%nat /\ fst run = 0)
    /\ (0 <= s -> (fst run = 0 /\ k = 3%nat)
                  \/ (fst run = -1 /\ (1 <= k <= 3)%nat)).
Proof.
  intros s run. unfold run, lxc_console_set_stdfds. fold s.
  destruct (Z.ltb_spec s 0) as [Hs|Hs].
  { exists 0%nat. cbn. rewrite app_nil_r. repeat split; try lia. }
  destruct (Z.ltb_spec (dup2 h s 0) 0) as [H0|H0].
  { exists 1%nat. cbn [fst snd take stdfds_onto].
    split; [reflexivity|]. split; [|split; [lia|right; split; [reflexivity|lia]]].
    intros [|j] Hj; [|lia]. cbn [take]. rewrite app_nil_r.
    split; [auto|intros _; exact H0]. }
  destruct (Z.ltb_spec (dup2 (h ++ [(s, 0)]) s 1) 0) as [H1|H1].
  { exists 2%nat. cbn [fst snd take stdfds_onto].
    split; [rewrite <- app_assoc; reflexivity|].
    split; [|split; [lia|right; split; [reflexivity|lia]]].
    intros [|[|j]] Hj; [| |lia]; cbn [take stdfds_onto]; 
      try change (Z.of_nat 0) with 0; try change (Z.of_nat 1) with 1;
      try change (Z.of_nat 2) with 2.
    - rewrite app_nil_r. split; [lia|intros [? _]; lia].
    - split; [auto|intros _; exact H1]. }
  destruct (Z.ltb_spec (dup2 ((h ++ [(s, 0)]) ++ [(s, 1)]) s 2) 0) as [H2|H2].
  { exists 3%nat. cbn [fst snd take stdfds_onto].
    split; [rewrite <- !app_assoc; reflexivity|].
    split; [|split; [lia|right; split; [reflexivity|lia]]].
    intros [|[|[|j]]] Hj; [| | |lia]; cbn [take stdfds_onto]; 
      try change (Z.of_nat 0) with 0; try change (Z.of_nat 1) with 1;
      try change (Z.of_nat 2) with 2.
    - rewrite app_nil_r. split; [lia|intros [? _]; lia].
    - split; [lia|intros [? _]; lia].
    - change (h ++ [(s, 0); (s, 1)]) with (h ++ [(s, 0)] ++ [(s, 1)]).
      rewrite app_assoc. split; [auto|intros _; exact H2]. }
  exists 3%nat. cbn [fst snd take stdfds_onto].
  split; [rewrite <- !app_assoc; reflexivity|].
  split; [|split; [lia|left; split; reflexivity]].
  intros [|[|[|j]]] Hj; [| | |lia]; cbn [take stdfds_onto]; 
      try change (Z.of_nat 0) with 0; try change (Z.of_nat 1) with 1;
      try change (Z.of_nat 2) with 2.
  - rewrite app_nil_r. split; [lia|intros [_ ?]; lia].
  - split; [lia|intros [_ ?]; lia].
  - change (h ++ [(s, 0); (s, 1)]) with (h ++ [(s, 0)] ++ [(s, 1)]).
    rewrite app_assoc. split; [lia|intros [_ ?]; lia].
Qed.
